(** * Sales analytics core: comparator, aggregation, segmentation, cache

    A shallow embedding of the functions of [src/analysis.ts],
    [src/utils/string.ts] and [src/main.ts] that the specification talks
    about, followed by the theorems that settle each of its claims.

    Conventions of the embedding:
    - a JavaScript number is an exact rational in lowest terms, or one of
      [NaN], [+Infinity], [-Infinity]; binary64 rounding is not modelled
      and there is a single zero;
    - a plain object used as a dictionary is the list of its own
      properties in creation order, enumerated the way [Object.keys]
      does (array-index keys first, ascending, then the others);
    - the keys stored in such an object are not names of properties
      inherited from [Object.prototype];
    - [Array.prototype.sort] with a comparator is a stable sort;
    - a [Date] is its epoch value in milliseconds; the accessors that
      depend on the host time zone are parameters. *)

From Stdlib Require Import List String Ascii Bool Arith ZArith NArith.
From Stdlib Require Import QArith Qabs Qcanon Qcabs Qround.
From Stdlib Require Import DecimalString DecimalPos DecimalN.
From Stdlib Require Import Permutation Sorted Lia Lqa.
Import ListNotations.
Local Close Scope Qc_scope.
Local Close Scope Q_scope.
Local Open Scope string_scope.

(* ================================================================== *)
(** * JavaScript values *)
(* ================================================================== *)

Module JS.

(** ** Numbers *)

Inductive number : Type :=
| NaN
| PosInf
| NegInf
| Fin (q : Qc).

Definition ofZ (z : Z) : number := Fin (Q2Qc (inject_Z z)).
Definition ofNat (n : nat) : number := ofZ (Z.of_nat n).

Definition Qc_eqb (a b : Qc) : bool := Qeq_bool a b.
Definition Qc_leb (a b : Qc) : bool := Qle_bool a b.
Definition Qc_ltb (a b : Qc) : bool := negb (Qle_bool b a).

Definition zero : Qc := Q2Qc 0.
Definition hundred : Qc := Q2Qc (inject_Z 100).

(** [x - y] *)
Definition sub (x y : number) : number :=
  match x, y with
  | NaN, _ | _, NaN => NaN
  | Fin a, Fin b => Fin (a - b)
  | PosInf, PosInf | NegInf, NegInf => NaN
  | PosInf, _ => PosInf
  | NegInf, _ => NegInf
  | Fin _, PosInf => NegInf
  | Fin _, NegInf => PosInf
  end.

(** [x + y] *)
Definition add (x y : number) : number :=
  match x, y with
  | NaN, _ | _, NaN => NaN
  | Fin a, Fin b => Fin (a + b)
  | PosInf, NegInf | NegInf, PosInf => NaN
  | PosInf, _ | _, PosInf => PosInf
  | NegInf, _ | _, NegInf => NegInf
  end.

Definition neg (x : number) : number :=
  match x with
  | NaN => NaN
  | PosInf => NegInf
  | NegInf => PosInf
  | Fin a => Fin (- a)
  end.

(** The infinity with the sign of [a] times the given one; [NaN] for 0. *)
Definition scaleInf (positive : bool) (a : Qc) : number :=
  if Qc_eqb a zero then NaN
  else if Bool.eqb positive (Qc_ltb zero a) then PosInf else NegInf.

(** [x * y] *)
Definition mul (x y : number) : number :=
  match x, y with
  | NaN, _ | _, NaN => NaN
  | Fin a, Fin b => Fin (a * b)
  | PosInf, Fin b | Fin b, PosInf => scaleInf true b
  | NegInf, Fin b | Fin b, NegInf => scaleInf false b
  | PosInf, PosInf | NegInf, NegInf => PosInf
  | PosInf, NegInf | NegInf, PosInf => NegInf
  end.

(** [x / y] *)
Definition div (x y : number) : number :=
  match x, y with
  | NaN, _ | _, NaN => NaN
  | Fin a, Fin b =>
      if Qc_eqb b zero then scaleInf true a else Fin (a / b)
  | Fin _, (PosInf | NegInf) => Fin zero
  | PosInf, Fin b => if Qc_ltb b zero then NegInf else PosInf
  | NegInf, Fin b => if Qc_ltb b zero then PosInf else NegInf
  | (PosInf | NegInf), (PosInf | NegInf) => NaN
  end.

(** [Math.abs] *)
Definition abs (x : number) : number :=
  match x with
  | NaN => NaN
  | PosInf | NegInf => PosInf
  | Fin a => Fin (Qcabs a)
  end.

(** [x > y]; every comparison with [NaN] is false. *)
Definition gt (x y : number) : bool :=
  match x, y with
  | NaN, _ | _, NaN => false
  | Fin a, Fin b => Qc_ltb b a
  | PosInf, PosInf => false
  | PosInf, _ => true
  | NegInf, _ => false
  | Fin _, PosInf => false
  | Fin _, NegInf => true
  end.


(** [x >= y] *)
Definition ge (x y : number) : bool :=
  match x, y with
  | NaN, _ | _, NaN => false
  | Fin a, Fin b => Qc_leb b a
  | PosInf, _ => true
  | _, NegInf => true
  | NegInf, _ => false
  | Fin _, PosInf => false
  end.

Definition isNaN (x : number) : bool :=
  match x with NaN => true | _ => false end.

Definition isFinite (x : number) : bool :=
  match x with Fin _ => true | _ => false end.

(** Truthiness of a number: [0] and [NaN] are falsy. *)
Definition truthyNumber (x : number) : bool :=
  match x with
  | NaN => false
  | Fin a => negb (Qc_eqb a zero)
  | _ => true
  end.

(** [x || 0] on a number. *)
Definition orZero (x : number) : number :=
  if truthyNumber x then x else Fin zero.

(** [Math.floor] of a finite number, as an integer. *)
Definition floorQc (a : Qc) : Z := Qfloor a.

(** ** Values, as far as [typeof] and [===] tell them apart

    A [Date] value carries its time value, [None] for an invalid date. *)

Inductive value : Type :=
| VUndefined
| VNull
| VBool (b : bool)
| VString (s : string)
| VNumber (n : number)
| VDate (time : option Z).

Definition typeofNumber (v : value) : bool :=
  match v with VNumber _ => true | _ => false end.

(** [v === 0] *)
Definition strictEqZero (v : value) : bool :=
  match v with
  | VNumber (Fin a) => Qc_eqb a zero
  | _ => false
  end.

Definition truthy (v : value) : bool :=
  match v with
  | VUndefined | VNull => false
  | VBool b => b
  | VString s => negb (String.eqb s "")
  | VNumber n => truthyNumber n
  | VDate _ => true
  end.

(** [v !== s] for a string literal [s] *)
Definition strictNeqString (v : value) (s : string) : bool :=
  match v with
  | VString s' => negb (String.eqb s' s)
  | _ => true
  end.

(** ** Decimal rendering *)

Definition digitsOfN (n : N) : string := NilZero.string_of_uint (N.to_uint n).

(** [String(n)] for a natural number. *)
Definition stringOfNat (n : nat) : string := digitsOfN (N.of_nat n).

(** [s.padStart(width, '0')] *)
Fixpoint zeros (k : nat) : string :=
  match k with
  | O => ""
  | S k' => String "0" (zeros k')
  end.

Definition padStart0 (width : nat) (s : string) : string :=
  zeros (width - String.length s) ++ s.

(** ** Arrays: [Array.prototype.sort(compare)]

    The sort is stable; [le a b] stands for [compare(a, b) <= 0].  With
    a consistent comparator every stable sort returns the same array,
    so insertion from the right is as good a model as any. *)

Section Sorting.
Context {A : Type}.
Variable le : A -> A -> bool.

Fixpoint insertSorted (x : A) (l : list A) : list A :=
  match l with
  | [] => [x]
  | y :: rest => if le x y then x :: l else y :: insertSorted x rest
  end.

Fixpoint sortBy (l : list A) : list A :=
  match l with
  | [] => []
  | x :: rest => insertSorted x (sortBy rest)
  end.

End Sorting.

(** [keys.sort()] without a comparator orders strings by code unit. *)
Definition sortStrings (l : list string) : list string := sortBy String.leb l.

(** [arr.slice(0, n)] *)
Definition slice0 {A : Type} (n : nat) (l : list A) : list A := firstn n l.

(** ** Plain objects used as dictionaries *)

(** A key is an array index when it is the canonical decimal form of an
    integer below [2^32 - 1]. *)
Definition arrayIndex (k : string) : option N :=
  match NilZero.uint_of_string k with
  | Some u =>
      let n := N.of_uint u in
      if String.eqb (digitsOfN n) k && (n <? 4294967295)%N then Some n else None
  | None => None
  end.

Section Objects.
Context {V : Type}.

(** Own properties, in creation order. *)
Definition object : Type := list (string * V).

Definition empty : object := [].

(** [o[k]] *)
Fixpoint get (o : object) (k : string) : option V :=
  match o with
  | [] => None
  | (k', v) :: rest => if String.eqb k' k then Some v else get rest k
  end.

(** [o[k] = v] *)
Fixpoint set (o : object) (k : string) (v : V) : object :=
  match o with
  | [] => [(k, v)]
  | (k', v') :: rest =>
      if String.eqb k' k then (k', v) :: rest else (k', v') :: set rest k v
  end.

Definition indexed (o : object) : list (N * (string * V)) :=
  flat_map (fun e => match arrayIndex (fst e) with
                     | Some n => [(n, e)]
                     | None => []
                     end) o.

Definition named (o : object) : list (string * V) :=
  filter (fun e => match arrayIndex (fst e) with
                   | Some _ => false
                   | None => true
                   end) o.

(** [Object.entries(o)]: array-index keys in ascending order, then the
    other keys in creation order. *)
Definition entries (o : object) : list (string * V) :=
  map snd (sortBy (fun a b => (fst a <=? fst b)%N) (indexed o)) ++ named o.

(** [Object.keys(o)] *)
Definition keys (o : object) : list string := map fst (entries o).

(** [Object.values(o)] *)
Definition values (o : object) : list V := map snd (entries o).

End Objects.

Arguments object V : clear implicits.

(** ** [Set] *)

Section Sets.
Context {A : Type}.
Variable eqb : A -> A -> bool.

(** Members in insertion order. *)
Definition setHas (s : list A) (x : A) : bool := existsb (eqb x) s.

Definition setAdd (s : list A) (x : A) : list A :=
  if setHas s x then s else s ++ [x].

(** [new Set(array)] *)
Definition setOfList (l : list A) : list A := fold_left setAdd l [].

Definition setSize (s : list A) : nat := List.length s.

End Sets.

(** ** [Date] *)

(** Milliseconds since the epoch of a valid date. *)
Definition Date : Type := Z.

(** ** [Math.trunc], [x % 1 === 0] and [String(n)] *)

Definition truncQc (a : Qc) : Z :=
  if Qc_ltb a zero then Qceiling a else Qfloor a.

(** [Math.trunc(x)] *)
Definition trunc (x : number) : number :=
  match x with
  | Fin a => ofZ (truncQc a)
  | _ => x
  end.

(** [x % 1 === 0]: the remainder of a finite number is what [Math.trunc]
    cuts off, that of [NaN] and of the infinities is [NaN]. *)
Definition isWhole (x : number) : bool :=
  match x with
  | Fin a => Qc_eqb (a - Q2Qc (inject_Z (truncQc a)))%Qc zero
  | _ => false
  end.

(** [String(z)] for an integer. *)
Definition stringOfZ (z : Z) : string :=
  if (z <? 0)%Z then "-" ++ digitsOfN (Z.to_N (- z)) else digitsOfN (Z.to_N z).

End JS.

(* ================================================================== *)
(** * utils/string.ts *)
(* ================================================================== *)

Module StringUtils.
Import JS.

(** ** [Number.prototype.toLocaleString('id-ID', { maximumFractionDigits })]

    The platform formatter, for the one locale and option the program
    uses: the magnitude is rounded half away from zero to at most
    [maxFrac] fraction digits, trailing fraction zeros are dropped (the
    minimum number of fraction digits is 0), the integer part is
    grouped by three with ['.'] and the decimal mark is [',']. *)

Definition roundHalfExpand (a : Qc) (maxFrac : nat) : N :=
  Z.to_N (Qfloor (Qabs a * inject_Z (10 ^ Z.of_nat maxFrac) + (1 # 2))).

Fixpoint groupFrom (k : nat) (revDigits : list ascii) : list ascii :=
  match revDigits with
  | [] => []
  | d :: rest =>
      match k, rest with
      | 2%nat, _ :: _ => d :: "."%char :: groupFrom 0 rest
      | _, _ => d :: groupFrom (S k) rest
      end
  end.

Definition groupThousands (digits : string) : string :=
  string_of_list_ascii
    (rev (groupFrom 0 (rev (list_ascii_of_string digits)))).

Fixpoint dropLeadingZeros (l : list ascii) : list ascii :=
  match l with
  | "0"%char :: rest => dropLeadingZeros rest
  | _ => l
  end.

Definition stripTrailingZeros (s : string) : string :=
  string_of_list_ascii
    (rev (dropLeadingZeros (rev (list_ascii_of_string s)))).

Definition fractionDigitsOf (frac : N) (maxFrac : nat) : string :=
  stripTrailingZeros (padStart0 maxFrac (digitsOfN frac)).

Definition toLocaleString (x : number) (maxFrac : nat) : string :=
  match x with
  | NaN => "NaN"
  | PosInf => "∞"
  | NegInf => "-∞"
  | Fin a =>
      let scaled := roundHalfExpand a maxFrac in
      let unit := (10 ^ N.of_nat maxFrac)%N in
      let int := groupThousands (digitsOfN (scaled / unit)%N) in
      let frac := fractionDigitsOf (scaled mod unit)%N maxFrac in
      let sign := if Qc_ltb a zero then "-" else "" in
      sign ++ int ++ (if String.eqb frac "" then "" else "," ++ frac)
  end.

(** ** [formatNumber(value, fractionDigits = 0)] *)

Definition formatNumber (v : value) (fractionDigits : nat) : string :=
  match v with
  | VNumber n =>
      if isNaN n then "0" else toLocaleString n fractionDigits
  | _ => "0"
  end.

(** ** [formatCurrency(value, prefix = 'Rp', fractionDigits = 0)] *)

Definition formatCurrency (v : value) (prefix : string) (fractionDigits : nat) : string :=
  match v with
  | VNumber n =>
      if isNaN n then prefix ++ " 0" else prefix ++ toLocaleString n fractionDigits
  | _ => prefix ++ " 0"
  end.

(** ** [truncateToFixed(value, decimals)], for a whole number of decimals *)

(** [Math.pow(10, decimals)] *)
Definition pow10 (decimals : nat) : Qc := Q2Qc (inject_Z (10 ^ Z.of_nat decimals)).

Definition truncateToFixed (value : number) (decimals : nat) : number :=
  let multiplier := Fin (pow10 decimals) in
  div (trunc (mul value multiplier)) multiplier.

(** ** [shortenNumber] and [shortenCurrency] *)

(** The object literal, in the order in which its properties are
    written. *)
Definition numberSuffixMap : object string :=
  [ ("1000000000000000", "kd");
    ("1000000000000", "t");
    ("1000000000", "m");
    ("1000000", "jt");
    ("1000", "rb") ].

(** [Number(key)] for a key made of decimal digits. *)
Definition numberOfDigits (key : string) : number :=
  match NilZero.uint_of_string key with
  | Some u => ofZ (Z.of_N (N.of_uint u))
  | None => NaN
  end.

(** [(a, b) => b - a] is not positive. *)
Definition descending (a b : number) : bool := negb (gt (sub b a) (Fin zero)).

(** [Object.keys(numberSuffixMap).map(Number).sort((a, b) => b - a)] *)
Definition sortedKeys : list number :=
  sortBy descending (map numberOfDigits (keys numberSuffixMap)).

(** [s.replace(c, c')] for one-character strings: the first occurrence. *)
Fixpoint replaceFirst (c c' : ascii) (s : string) : string :=
  match s with
  | EmptyString => EmptyString
  | String x rest =>
      if Ascii.eqb x c then String c' rest else String x (replaceFirst c c' rest)
  end.

Definition tenPow21 : Qc := pow10 21.

Section Shorten.

(** [Number.prototype.toString] where the digits are not those of the
    exact value: for a number that is not whole, whose shortest
    round-trip digits depend on its binary64 value, and from [10^21]
    on, where the exponent form is used. *)
Variable platformToString : Qc -> string.

(** [x.toString()] *)
Definition numberToString (x : number) : string :=
  match x with
  | NaN => "NaN"
  | PosInf => "Infinity"
  | NegInf => "-Infinity"
  | Fin a =>
      if isWhole x && Qc_ltb (Qcabs a) tenPow21 then stringOfZ (truncQc a)
      else platformToString a
  end.

(** [x.toFixed(digits)]: below [10^21] the magnitude is rounded to the
    nearest multiple of [10^-digits], the larger one on a tie, and
    printed with exactly [digits] fraction digits. *)
Definition toFixed (x : number) (digits : nat) : string :=
  match x with
  | Fin a =>
      if Qc_ltb (Qcabs a) tenPow21 then
        let n := roundHalfExpand a digits in
        let unit := (10 ^ N.of_nat digits)%N in
        (if Qc_ltb a zero then "-" else "")
        ++ digitsOfN (n / unit)%N
        ++ (if (digits =? 0)%nat then ""
            else "." ++ padStart0 digits (digitsOfN (n mod unit)%N))
      else numberToString x
  | _ => numberToString x
  end.

(** [numberSuffixMap[divisor]], spliced into a string. *)
Definition suffixOf (divisor : number) : string :=
  match get numberSuffixMap (numberToString divisor) with
  | Some suffix => suffix
  | None => "undefined"
  end.

(** The text of the shortened value:
    [truncated % 1 === 0 ? truncated.toString()
                         : truncated.toFixed(1).replace('.', ',')] *)
Definition shortText (truncated : number) : string :=
  if isWhole truncated then numberToString truncated
  else replaceFirst "."%char ","%char (toFixed truncated 1).

(** The [for ... of] loop returns at the first divisor that fits. *)
Definition shortenNumber (value : number) : string :=
  match find (fun divisor => ge value divisor) sortedKeys with
  | Some divisor =>
      let truncated := truncateToFixed (div value divisor) 1 in
      shortText truncated ++ suffixOf divisor
  | None => numberToString value
  end.

Definition shortenCurrency (value : number) : string := "Rp" ++ shortenNumber value.

End Shorten.

(** ** [shortenDate] *)

Definition shortMonths : list string :=
  ["Jan"; "Feb"; "Mar"; "Apr"; "Mei"; "Jun"; "Jul"; "Agu"; "Sep"; "Okt"; "Nov"; "Des"].

Section ShortenDate.

(** The time value of [new Date(v)], [None] for an invalid date; the
    accessors of a valid date in the host time zone; and
    [new Date().getFullYear()]. *)
Variable newDate : value -> option Z.
Variable getFullYear : Z -> Z.
Variable getMonth : Z -> nat.
Variable getDate : Z -> nat.
Variable currentYear : Z.

(** [new Date(v).getFullYear()]; [None] is [NaN]. *)
Definition yearOf (v : value) : option Z := option_map getFullYear (newDate v).

(** [year === first], where [first] is [allYears[0]]: [undefined] for an
    empty array, and [NaN] equals nothing. *)
Definition sameYear (year : option Z) (first : option (option Z)) : bool :=
  match year, first with
  | Some y, Some (Some y0) => (y =? y0)%Z
  | _, _ => false
  end.

(** [`${day}`], [`${month}`] and [`${dateYear}`] of the template. *)
Definition dayText (date : value) : string :=
  match newDate date with
  | Some t => stringOfNat (getDate t)
  | None => "NaN"
  end.

Definition monthText (date : value) : string :=
  match newDate date with
  | Some t => nth (getMonth t) shortMonths "undefined"
  | None => "undefined"
  end.

Definition yearText (date : value) : string :=
  match yearOf date with
  | Some y => stringOfZ y
  | None => "NaN"
  end.

(** The two forms of the result. *)
Definition dayMonth (date : value) : string := dayText date ++ " " ++ monthText date.

Definition dayMonthYear (date : value) : string :=
  dayText date ++ " " ++ monthText date ++ " " ++ yearText date.

Definition shortenDate (date : value) (allDates : list value) : string :=
  let dateYear := yearOf date in
  let allYears := map yearOf allDates in
  let allSameYear :=
    forallb (fun year => sameYear year (hd_error allYears)) allYears
    && sameYear dateYear (hd_error allYears) in
  let allCurrentYear := allSameYear && sameYear dateYear (Some (Some currentYear)) in
  if allCurrentYear then dayMonth date else dayMonthYear date.

(** [shortenDateTickCallback] of chart-ticks.ts, on the labels of the
    chart it is bound to: [shortenDate(labels[index], labels)]. *)
Definition shortenDateTickCallback (labels : list string) (index : nat) : string :=
  let label :=
    match nth_error labels index with
    | Some l => VString l
    | None => VUndefined
    end in
  shortenDate label (map VString labels).

End ShortenDate.

End StringUtils.

(* ================================================================== *)
(** * analysis.ts *)
(* ================================================================== *)

Module Analysis.
Import JS StringUtils.

Record ComparisonState : Type := mkComparison {
  upOrDown : string;
  percentage : string;
  plusOrMinus : string;
  difference : string
}.

(** The object returned when no comparison is made. *)
Definition notApplicable : ComparisonState :=
  {| upOrDown := ""; percentage := "N/A"; plusOrMinus := ""; difference := "N/A" |}.

Definition growthOf (current previous : number) : number :=
  mul (div (sub current previous) previous) (Fin hundred).

(** [calculateComparison(current, previous)].  The guard is the one of
    the source; past it both arguments are numbers. *)
Definition calculateComparison (current previous : value) : ComparisonState :=
  if strictEqZero previous
     || negb (typeofNumber current)
     || negb (typeofNumber previous)
  then notApplicable
  else
    match current, previous with
    | VNumber c, VNumber p =>
        let diff := sub c p in
        let growth := mul (div diff p) (Fin hundred) in
        {| upOrDown := if gt growth (Fin zero) then "▲" else "▼";
           percentage := formatNumber (VNumber (abs growth)) 1;
           plusOrMinus := if gt growth (Fin zero) then "+" else "-";
           difference := formatNumber (VNumber (abs diff)) 0 |}
    | _, _ => notApplicable
    end.

End Analysis.

(* ================================================================== *)
(** * main.ts: aggregation over processed rows *)
(* ================================================================== *)

Module Main.
Import JS StringUtils.

(** The fields of [SalesDataRow] (store.ts) that the analysis reads,
    and the optional ['Customer Name'] ([None] when absent). *)
Record SalesDataRow : Type := mkRow {
  SalesDateIn : Date;
  Revenue : Qc;
  BillNumber : string;
  MenuCategory : string;
  Menu : string;
  Quantity : Qc;
  CustomerName : option string
}.

Definition QcOfNat (n : nat) : Qc := Q2Qc (inject_Z (Z.of_nat n)).

Definition sumQc (l : list Qc) : Qc := fold_left Qcplus l zero.

(** [v || 0] for the content of a numeric slot that may be missing. *)
Definition slotOrZero (v : option Qc) : Qc :=
  match v with
  | Some a => if Qc_eqb a zero then zero else a
  | None => zero
  end.

(** [arr[i] || 0] *)
Definition elementOrZero (arr : list Qc) (i : Z) : Qc :=
  if (i <? 0)%Z then zero else slotOrZero (nth_error arr (Z.to_nat i)).

(** [Math.floor(n * p)] *)
Definition floorTimes (n : nat) (p : Qc) : Z := floorQc (QcOfNat n * p)%Qc.

Definition quarter : Qc := Q2Qc (1 # 4).
Definition threeQuarters : Qc := Q2Qc (3 # 4).
Definition fourFifths : Qc := Q2Qc (4 # 5).

(** [sorted[Math.floor(sorted.length * p)] || 0] *)
Definition quantileOrZero (sorted : list Qc) (p : Qc) : Qc :=
  elementOrZero sorted (floorTimes (List.length sorted) p).

(** ** [generateOmzetHarianChart] *)

Section Bucketing.

(** The bucket of a row: [d['Sales Date In'].toISOString().split('T')[0]]
    here, other key functions in the sibling charts. *)
Variable bucketOf : SalesDataRow -> string.

(** [acc[k] = (acc[k] || 0) + d.Revenue] *)
Definition addToBucket (acc : object Qc) (d : SalesDataRow) : object Qc :=
  let k := bucketOf d in
  set acc k (slotOrZero (get acc k) + Revenue d)%Qc.

(** The rows that fall into bucket [k]. *)
Definition inBucket (k : string) (d : SalesDataRow) : bool :=
  String.eqb (bucketOf d) k.

(** [data.reduce((acc, d) => { acc[k] = (acc[k] || 0) + d.Revenue; return acc }, {})] *)
Definition sumByBucket (data : list SalesDataRow) : object Qc :=
  fold_left addToBucket data empty.

Record LineChart : Type := mkLineChart {
  chartDataForAI : object Qc;
  labels : list string;
  dataset : list (option Qc)
}.

Definition generateOmzetHarianChart (data : list SalesDataRow) : LineChart :=
  let dailyOmzet := sumByBucket data in
  let sortedDates := sortStrings (keys dailyOmzet) in
  {| chartDataForAI := dailyOmzet;
     labels := sortedDates;
     dataset := map (fun date => get dailyOmzet date) sortedDates |}.

End Bucketing.

(** ** [generateCustomerSpendingInsights], the spending part *)

(** [data.reduce((acc, d) => { if (!acc[bill]) acc[bill] = 0;
    acc[bill] += d.Revenue; return acc }, {})] *)
Definition billTotalsOf (data : list SalesDataRow) : object Qc :=
  fold_left
    (fun acc d =>
       let bill := BillNumber d in
       let acc1 :=
         match get acc bill with
         | Some a => if Qc_eqb a zero then set acc bill zero else acc
         | None => set acc bill zero
         end in
       match get acc1 bill with
       | Some a => set acc1 bill (a + Revenue d)%Qc
       | None => acc1
       end)
    data empty.

Definition maxQc (a b : Qc) : Qc := if Qc_leb a b then b else a.

(** [Math.max(...arr)] of a non-empty array *)
Definition maxOf (first : Qc) (others : list Qc) : Qc := fold_left maxQc others first.

Record SpendingInsights : Type := mkSpending {
  avgSpendLower : string;
  avgSpendUpper : string;
  highestSingleTransaction : string
}.

(** The bill totals in ascending order, as after [billTotals.sort((a, b) => a - b)]. *)
Definition sortedBillTotals (data : list SalesDataRow) : list Qc :=
  sortBy Qc_leb (values (billTotalsOf data)).

(** [billTotals[Math.floor(billTotals.length * p)] || 0] on the sorted
    totals: the quantile that the function reads at [p = 0.25] and
    [p = 0.75]. *)
Definition billTotalQuantile (data : list SalesDataRow) (p : Qc) : Qc :=
  quantileOrZero (sortedBillTotals data) p.

(** [formatNumber(x)] of a finite amount *)
Definition formatAmount (x : Qc) : string := formatNumber (VNumber (Fin x)) 0.

(** [None] stands for the early [return] that leaves the store untouched.
    The busiest-day and busiest-hour entries of the store update are
    left out. *)
Definition generateCustomerSpendingInsights (data : list SalesDataRow)
  : option SpendingInsights :=
  match data with
  | [] => None
  | _ :: _ =>
      match values (billTotalsOf data) with
      | [] => None
      | t :: ts =>
          let highest := maxOf t ts in
          let billTotals := sortBy Qc_leb (t :: ts) in
          let lower := quantileOrZero billTotals quarter in
          let upper := quantileOrZero billTotals threeQuarters in
          Some {| avgSpendLower := formatAmount lower;
                  avgSpendUpper := formatAmount upper;
                  highestSingleTransaction := formatAmount highest |}
      end
  end.

(** ** [generatePeakHourAnalysis] *)

(** [parseInt(key)] for a key made of decimal digits; [None] is [NaN]. *)
Definition parseIntDigits (key : string) : option nat :=
  match NilZero.uint_of_string key with
  | Some u => Some (N.to_nat (N.of_uint u))
  | None => None
  end.

Record HourTraffic : Type := mkTraffic {
  hour : option nat;
  count : nat
}.

Record PeakHourInsights : Type := mkPeak {
  peakHour1Start : string;
  peakHour1End : string;
  popularMenu1 : string;
  popularMenu2 : string;
  popularMenu3 : string;
  popularMenu4 : string;
  avgCheckPeak1Min : string;
  avgCheckPeak1Max : string
}.

Section PeakHour.

(** [date.getHours()], the hour of day in the host time zone. *)
Variable getHours : Date -> nat.

Definition hourOf (d : SalesDataRow) : nat := getHours (SalesDateIn d).

(** The key under which the hour of a row is filed. *)
Definition hourKey (d : SalesDataRow) : string := stringOfNat (hourOf d).

(** [if (!hourlyBills[hour]) hourlyBills[hour] = new Set();
    hourlyBills[hour].add(d['Bill Number'])] *)
Definition addHourBill (acc : object (list string)) (d : SalesDataRow)
  : object (list string) :=
  let key := hourKey d in
  let acc1 :=
    match get acc key with
    | Some _ => acc
    | None => set acc key []
    end in
  match get acc1 key with
  | Some bills => set acc1 key (setAdd String.eqb bills (BillNumber d))
  | None => acc1
  end.

Definition hourlyBillsOf (data : list SalesDataRow) : object (list string) :=
  fold_left addHourBill data empty.

(** The distinct bills of the rows filed under key [k]. *)
Definition billsAt (k : string) (data : list SalesDataRow) : list string :=
  setOfList String.eqb (map BillNumber (filter (fun d => String.eqb (hourKey d) k) data)).

Definition hourlyTrafficOf (data : list SalesDataRow) : list HourTraffic :=
  map (fun e => {| hour := parseIntDigits (fst e); count := setSize (snd e) |})
      (entries (hourlyBillsOf data)).

(** [traffic.sort((a, b) => b.count - a.count)] *)
Definition byCountDescending (traffic : list HourTraffic) : list HourTraffic :=
  sortBy (fun a b => (count b <=? count a)%nat) traffic.

(** [sorted[0]?.hour || 12] *)
Definition peakHourOf (data : list SalesDataRow) : nat :=
  match byCountDescending (hourlyTrafficOf data) with
  | [] => 12
  | top :: _ =>
      match hour top with
      | Some (S h) => S h
      | Some O | None => 12
      end
  end.

Definition peakHourDataOf (data : list SalesDataRow) : list SalesDataRow :=
  let peakHourStart := peakHourOf data in
  let peakHourEnd := peakHourStart + 2 in
  filter (fun d => (peakHourStart <=? hourOf d)%nat && (hourOf d <? peakHourEnd)%nat) data.

(** [rows.reduce((acc, d) => { acc[d.Menu] = (acc[d.Menu] || 0) + d.Quantity;
    return acc }, {})] *)
Definition menuQtyOf (rows : list SalesDataRow) : object Qc :=
  fold_left
    (fun acc d => set acc (Menu d) (slotOrZero (get acc (Menu d)) + Quantity d)%Qc)
    rows empty.

(** [Object.entries(qty).sort((a, b) => b[1] - a[1]).slice(0, 4)] *)
Definition popularMenuOf (rows : list SalesDataRow) : list (string * Qc) :=
  slice0 4 (sortBy (fun a b => Qc_leb (snd b) (snd a)) (entries (menuQtyOf rows))).

(** [popularMenu[i]?.[0] || ''] *)
Definition menuNameAt (popular : list (string * Qc)) (i : nat) : string :=
  match nth_error popular i with
  | Some (menu, _) => menu
  | None => ""
  end.

Definition hourLabel (h : nat) : string := padStart0 2 (stringOfNat h) ++ ".00".

Definition generatePeakHourAnalysis (data : list SalesDataRow)
  : option PeakHourInsights :=
  match data with
  | [] => None
  | _ :: _ =>
      let peakHourStart := peakHourOf data in
      let peakHourEnd := peakHourStart + 2 in
      let peakHourData := peakHourDataOf data in
      let popularMenu := popularMenuOf peakHourData in
      let peakBillTotals :=
        sortBy Qc_leb (values (sumByBucket BillNumber peakHourData)) in
      let minCheck := quantileOrZero peakBillTotals quarter in
      let maxCheck := quantileOrZero peakBillTotals threeQuarters in
      Some {| peakHour1Start := hourLabel peakHourStart;
              peakHour1End := hourLabel peakHourEnd;
              popularMenu1 := menuNameAt popularMenu 0;
              popularMenu2 := menuNameAt popularMenu 1;
              popularMenu3 := menuNameAt popularMenu 2;
              popularMenu4 := menuNameAt popularMenu 3;
              avgCheckPeak1Min := formatNumber (VNumber (Fin minCheck)) 0;
              avgCheckPeak1Max := formatNumber (VNumber (Fin maxCheck)) 0 |}
  end.

End PeakHour.

(** ** [generateProductQuadrantChart] *)

Module Quadrant.

Record ProductStat : Type := mkStat {
  name : string;
  revenue : Qc;
  quantity : Qc
}.

Record Quadrants : Type := mkQuadrants {
  star : list ProductStat;
  cashcow : list ProductStat;
  horse : list ProductStat;
  dog : list ProductStat
}.

(** [d.Menu || 'Unknown'] *)
Definition menuKey (d : SalesDataRow) : string :=
  if String.eqb (Menu d) "" then "Unknown" else Menu d.

(** The accumulator maps a menu to its [{ revenue, quantity }]:
    [if (!acc[menu]) acc[menu] = { revenue: 0, quantity: 0 };
     acc[menu].revenue += d.Revenue; acc[menu].quantity += d.Quantity] *)
Definition addProduct (acc : object (Qc * Qc)) (d : SalesDataRow) : object (Qc * Qc) :=
  let menu := menuKey d in
  let acc1 :=
    match get acc menu with
    | Some _ => acc
    | None => set acc menu (zero, zero)
    end in
  match get acc1 menu with
  | Some (r, q) => set acc1 menu ((r + Revenue d)%Qc, (q + Quantity d)%Qc)
  | None => acc1
  end.

Definition productStatsOf (categoryData : list SalesDataRow) : object (Qc * Qc) :=
  fold_left addProduct categoryData empty.

Definition statsArrayOf (categoryData : list SalesDataRow) : list ProductStat :=
  map (fun e => {| name := fst e; revenue := fst (snd e); quantity := snd (snd e) |})
      (entries (productStatsOf categoryData)).

Definition noQuadrants : Quadrants :=
  {| star := []; cashcow := []; horse := []; dog := [] |}.

(** The conditions of the classification, in the order in which they
    are tried; the last is what the final [else] amounts to. *)
Section Conditions.
Variables avgRevenue avgQuantity : Qc.

Definition isStar (p : ProductStat) : bool :=
  Qc_leb avgRevenue (revenue p) && Qc_leb avgQuantity (quantity p).

Definition isCashcow (p : ProductStat) : bool :=
  Qc_leb avgRevenue (revenue p) && Qc_ltb (quantity p) avgQuantity.

Definition isHorse (p : ProductStat) : bool :=
  Qc_ltb (revenue p) avgRevenue && Qc_leb avgQuantity (quantity p).


(** One step of the [forEach] that pushes a product to its quadrant. *)
Definition place (quadrants : Quadrants) (p : ProductStat) : Quadrants :=
  if isStar p then
    {| star := star quadrants ++ [p]; cashcow := cashcow quadrants;
       horse := horse quadrants; dog := dog quadrants |}
  else if isCashcow p then
    {| star := star quadrants; cashcow := cashcow quadrants ++ [p];
       horse := horse quadrants; dog := dog quadrants |}
  else if isHorse p then
    {| star := star quadrants; cashcow := cashcow quadrants;
       horse := horse quadrants ++ [p]; dog := dog quadrants |}
  else
    {| star := star quadrants; cashcow := cashcow quadrants;
       horse := horse quadrants; dog := dog quadrants ++ [p] |}.

End Conditions.

(** [list.sort((a, b) => b.revenue - a.revenue)] *)
Definition byRevenue (a b : ProductStat) : bool := Qc_leb (revenue b) (revenue a).

Definition byRevenueDescending (l : list ProductStat) : list ProductStat :=
  sortBy byRevenue l.

Definition averageOf (f : ProductStat -> Qc) (statsArray : list ProductStat) : Qc :=
  (fold_left (fun sum p => sum + f p) statsArray zero / QcOfNat (List.length statsArray))%Qc.

(** The quadrants that are rendered; [None] when the category has no
    rows and the container only receives the "No data" note. *)
Definition generateProductQuadrantChart (data : list SalesDataRow) (category : string)
  : option Quadrants :=
  let categoryData := filter (fun d => String.eqb (MenuCategory d) category) data in
  match categoryData with
  | [] => None
  | _ :: _ =>
      let statsArray := statsArrayOf categoryData in
      let avgRevenue := averageOf revenue statsArray in
      let avgQuantity := averageOf quantity statsArray in
      let quadrants := fold_left (place avgRevenue avgQuantity) statsArray noQuadrants in
      Some {| star := byRevenueDescending (star quadrants);
              cashcow := byRevenueDescending (cashcow quadrants);
              horse := byRevenueDescending (horse quadrants);
              dog := byRevenueDescending (dog quadrants) |}
  end.

End Quadrant.

(** ** [generateCustomerAnalysisInsights], the segmentation part *)

Module Customers.

Record Profile : Type := mkProfile {
  name : string;
  bills : list string;
  firstSeen : Date;
  totalSpend : Qc
}.

Record Segments : Type := mkSegments {
  newCustomers : list Profile;
  loyalCustomers : list Profile;
  highSpenders : list Profile
}.

(** [d['Customer Name']] is truthy. *)
Definition hasCustomerName (d : SalesDataRow) : bool :=
  match CustomerName d with
  | Some n => negb (String.eqb n "")
  | None => false
  end.

Definition optionStringEqb (a b : option string) : bool :=
  match a, b with
  | Some x, Some y => String.eqb x y
  | None, None => true
  | _, _ => false
  end.

(** One row added to the profiles:
    [if (!acc[name]) acc[name] = { name, bills: new Set(), firstSeen, totalSpend: 0 };
     acc[name].bills.add(bill); acc[name].totalSpend += d.Revenue;
     if (date < acc[name].firstSeen) acc[name].firstSeen = date] *)
Definition addToProfile (acc : object Profile) (d : SalesDataRow) : object Profile :=
  match CustomerName d with
  | None => acc
  | Some customer =>
      let acc1 :=
        match get acc customer with
        | Some _ => acc
        | None =>
            set acc customer
              {| name := customer; bills := [];
                 firstSeen := SalesDateIn d; totalSpend := zero |}
        end in
      match get acc1 customer with
      | None => acc1
      | Some p =>
          set acc1 customer
            {| name := name p;
               bills := setAdd String.eqb (bills p) (BillNumber d);
               firstSeen :=
                 if (SalesDateIn d <? firstSeen p)%Z then SalesDateIn d
                 else firstSeen p;
               totalSpend := (totalSpend p + Revenue d)%Qc |}
      end
  end.

(** Step 1: a profile for every customer of the entire dataset. *)
Definition customerProfilesOf (namedData : list SalesDataRow) : object Profile :=
  fold_left addToProfile namedData empty.

Definition avgSpendOf (p : Profile) : Qc :=
  (totalSpend p / QcOfNat (setSize (bills p)))%Qc.

(** [avgSpend >= threshold]; the threshold is [undefined] when no
    profile is active. *)
Definition atLeast (avgSpend : Qc) (threshold : option Qc) : bool :=
  match threshold with
  | Some t => Qc_leb t avgSpend
  | None => false
  end.

(** [None] when no row of [allData] names a customer.  The [forEach]
    that pushes every active profile to the lists it belongs to is
    written as three filters, which keep the order of the pushes. *)
Definition generateCustomerAnalysisInsights
    (currentData allData : list SalesDataRow) (periodStart periodEnd : Date)
  : option Segments :=
  let namedData := filter hasCustomerName allData in
  match namedData with
  | [] => None
  | _ :: _ =>
      let customerProfiles := customerProfilesOf namedData in
      let currentCustomerNames :=
        setOfList optionStringEqb (map CustomerName currentData) in
      let activeProfiles :=
        filter (fun p => setHas optionStringEqb currentCustomerNames (Some (name p)))
               (values customerProfiles) in
      let spendings := sortBy Qc_leb (map avgSpendOf activeProfiles) in
      let highSpenderThreshold :=
        nth_error spendings (Z.to_nat (floorTimes (List.length spendings) fourFifths)) in
      Some {| newCustomers :=
                filter (fun p => (periodStart <=? firstSeen p)%Z
                                 && (firstSeen p <=? periodEnd)%Z) activeProfiles;
              loyalCustomers :=
                filter (fun p => (2 <? setSize (bills p))%nat) activeProfiles;
              highSpenders :=
                filter (fun p => atLeast (avgSpendOf p) highSpenderThreshold)
                       activeProfiles |}
  end.

(** The end of the function: [calculateAvgSpend], the newest members and
    the top customers. *)
Definition calculateAvgSpend (arr : list Profile) : Qc :=
  match arr with
  | [] => zero
  | _ :: _ =>
      (fold_left (fun sum p => sum + totalSpend p) arr zero / QcOfNat (List.length arr))%Qc
  end.

(** [Object.values(customerProfiles).sort((a, b) => b.firstSeen - a.firstSeen).slice(0, 10)] *)
Definition newestMembersOf (customerProfiles : object Profile) : list Profile :=
  slice0 10 (sortBy (fun a b => (firstSeen b <=? firstSeen a)%Z) (values customerProfiles)).

(** [Object.values(customerProfiles).sort((a, b) => b.totalSpend - a.totalSpend).slice(0, 3)] *)
Definition topCustomersOf (customerProfiles : object Profile) : list Profile :=
  slice0 3 (sortBy (fun a b => Qc_leb (totalSpend b) (totalSpend a)) (values customerProfiles)).

End Customers.

(** ** [processData] *)

Definition requiredColumns : list string :=
  ["Bill Number"; "Sales Date In"; "Branch"; "Visit Purpose"; "Menu Category";
   "Menu"; "Qty"; "Price"; "Nett Sales"].

Definition allColumns : list string :=
  ["Bill Number"; "Sales Date In"; "Branch"; "Brand"; "Visit Purpose";
   "Payment Method"; "Menu Category"; "Menu"; "Custom Menu Name"; "Qty"; "Price";
   "Discount"; "Tax"; "Nett Sales"; "Waiter"; "Bill Discount"; "Service Charge";
   "Customer Name"; "Regular Member Name"; "Order Mode"; "Table Section";
   "Table Name"].

(** The three [throw new Error(...)] of the function, with the values
    that are spliced into the message. *)
Inductive ProcessError : Type :=
| NoValidRows
| MissingColumn (col : string)
| InvalidDate (billNumber rawDate : value).

(** [row[col]] *)
Definition cell (row : object value) (col : string) : value :=
  match get row col with
  | Some v => v
  | None => VUndefined
  end.

(** [row.hasOwnProperty(col)] *)
Definition hasOwnProperty (row : object value) (col : string) : bool :=
  match get row col with
  | Some _ => true
  | None => false
  end.

(** [row['Bill Number'] && row['Bill Number'] !== 'Bill Number'] *)
Definition isValidRow (row : object value) : bool :=
  truthy (cell row "Bill Number")
  && strictNeqString (cell row "Bill Number") "Bill Number".

Fixpoint firstMissing (row : object value) (cols : list string) : option string :=
  match cols with
  | [] => None
  | col :: rest =>
      if hasOwnProperty row col then firstMissing row rest else Some col
  end.

Section ProcessData.

(** The platform parsers: the time value of [new Date(v)] ([None] for an
    invalid date), [parseInt(v, 10)] and [parseFloat(v)]. *)
Variable newDate : value -> option Z.
Variable parseInt10 : value -> number.
Variable parseFloat : value -> number.

(** The time value of [new Date(rawEntry['Sales Date In'])]. *)
Definition dateOf (rawEntry : object value) : option Z :=
  newDate (cell rawEntry "Sales Date In").

(** The entry built from a raw row, before its date is checked. *)
Definition buildEntry (rawEntry : object value) : object value :=
  let entry0 :=
    fold_left (fun entry col => set entry col (cell rawEntry col)) allColumns empty in
  let entry1 := set entry0 "Sales Date In" (VDate (dateOf rawEntry)) in
  let entry2 := set entry1 "Quantity" (VNumber (orZero (parseInt10 (cell rawEntry "Qty")))) in
  let entry3 :=
    set entry2 "Revenue" (VNumber (orZero (parseFloat (cell rawEntry "Nett Sales")))) in
  let entry4 := set entry3 "Item Group" (cell rawEntry "Menu Category") in
  set entry4 "Item Name" (cell rawEntry "Menu").

(** The callback of the [map]: [isNaN(entry['Sales Date In'].getTime())]
    throws. *)
Definition processEntry (rawEntry : object value) : ProcessError + object value :=
  let entry := buildEntry rawEntry in
  match cell entry "Sales Date In" with
  | VDate None =>
      inl (InvalidDate (cell entry "Bill Number") (cell rawEntry "Sales Date In"))
  | _ => inr entry
  end.

(** [rows.map(processEntry)], stopping at the first exception. *)
Fixpoint mapEntries (rows : list (object value)) : ProcessError + list (object value) :=
  match rows with
  | [] => inr []
  | rawEntry :: rest =>
      match processEntry rawEntry with
      | inl e => inl e
      | inr entry =>
          match mapEntries rest with
          | inl e => inl e
          | inr entries => inr (entry :: entries)
          end
      end
  end.

Definition processData (jsonData : list (object value))
  : ProcessError + list (object value) :=
  let validJsonData := filter isValidRow jsonData in
  match validJsonData with
  | [] => inl NoValidRows
  | firstRow :: _ =>
      match firstMissing firstRow requiredColumns with
      | Some col => inl (MissingColumn col)
      | None => mapEntries validJsonData
      end
  end.

End ProcessData.

(** ** The compiled-analysis cache and the [view-compiled-btn] handler *)

Module Cache.

(** What [saveCompiledData] stores under ['compiledAnalysis'];
    [lastTransactionDate] is [None] when the stored value is not a
    [Date] (the old format). *)
Record CachedResult : Type := mkCached {
  data : list SalesDataRow;
  uploadCount : N;
  timestamp : Date;
  lastTransactionDate : option Date
}.

(** The requests sent to the remote store. *)
Inductive Request : Type :=
| CountUploads
| CountBills
| QueryNewer (after : Date)
| QueryPage (cursor : option SalesDataRow) (pageSize : N).

(** The answers of the remote store; [None] is a rejected request. *)
Record Remote : Type := mkRemote {
  uploadsCount : option N;
  billsCount : option N;
  billsNewerThan : Date -> option (list SalesDataRow);
  billsPage : option SalesDataRow -> N -> option (list SalesDataRow)
}.

Record World : Type := mkWorld {
  cache : option CachedResult;
  requests : list Request;
  clock : Date
}.

(** A computation that may throw ([None]) and that reads and writes the
    world. *)
Definition M (A : Type) : Type := World -> option A * World.

Definition ret {A : Type} (a : A) : M A := fun w => (Some a, w).

Definition bind {A B : Type} (m : M A) (k : A -> M B) : M B :=
  fun w =>
    match m w with
    | (Some a, w') => k a w'
    | (None, w') => (None, w')
    end.

Notation "x <- m ;; k" := (bind m (fun x => k))
  (at level 61, m at next level, right associativity).

(** [await] of a remote request: it is logged, then answered. *)
Definition request {A : Type} (r : Request) (answer : option A) : M A :=
  fun w =>
    (answer, {| cache := cache w; requests := (requests w ++ [r])%list; clock := clock w |}).

Definition getCachedData : M (option CachedResult) :=
  fun w => (Some (cache w), w).

(** [data.reduce((latest, item) => item.date > latest ? item.date : latest, new Date(0))] *)
Definition latestDate (rows : list SalesDataRow) : Date :=
  fold_left (fun latest item =>
               if (latest <? SalesDateIn item)%Z then SalesDateIn item else latest)
            rows 0%Z.

Definition saveCompiledData (rows : list SalesDataRow) (count : N) : M unit :=
  fun w =>
    (Some tt,
     {| cache := Some {| data := rows; uploadCount := count; timestamp := clock w;
                         lastTransactionDate := Some (latestDate rows) |};
        requests := requests w;
        clock := clock w |}).

Definition PAGE_SIZE : N := 10000.

Section Handler.

Variable remote : Remote.

(** The [while (fetchedData.length < totalBills)] loop.  Every round
    that does not leave the loop adds a row, so [totalBills] rounds are
    enough; [fuel] counts them. *)
Fixpoint fetchPages (fuel totalBills : nat) (fetchedData : list SalesDataRow)
    (lastVisible : option SalesDataRow) : M (list SalesDataRow) :=
  if (List.length fetchedData <? totalBills)%nat then
    match fuel with
    | O => ret fetchedData
    | S fuel' =>
        page <- request (QueryPage lastVisible PAGE_SIZE)
                        (billsPage remote lastVisible PAGE_SIZE) ;;
        match page with
        | [] => ret fetchedData
        | first :: others =>
            fetchPages fuel' totalBills (fetchedData ++ page)%list
                       (Some (List.last others first))
        end
    end
  else ret fetchedData.

(** Case 3 of the handler; the inner [None] is the [return] after the
    "No sales data" alert. *)
Definition fullRefresh (currentUploadCount : N) : M (option (list SalesDataRow)) :=
  totalBills <-
    (if (0 <? currentUploadCount)%N then request CountBills (billsCount remote)
     else ret 0%N) ;;
  if (totalBills =? 0)%N then ret None
  else
    fetchedData <- fetchPages (N.to_nat totalBills) (N.to_nat totalBills) [] None ;;
    _ <- saveCompiledData fetchedData currentUploadCount ;;
    ret (Some fetchedData).

(** The body of the [try] block up to the choice of [finalData]. *)
Definition reconcile : M (option (list SalesDataRow)) :=
  currentUploadCount <- request CountUploads (uploadsCount remote) ;;
  cachedResult <- getCachedData ;;
  match cachedResult with
  | Some c =>
      if (uploadCount c =? currentUploadCount)%N then
        ret (Some (data c))
      else
        match (uploadCount c <? currentUploadCount)%N, lastTransactionDate c with
        | true, Some lastFetchDate =>
            newData <- request (QueryNewer lastFetchDate)
                               (billsNewerThan remote lastFetchDate) ;;
            let finalData := (data c ++ newData)%list in
            _ <- saveCompiledData finalData currentUploadCount ;;
            ret (Some finalData)
        | _, _ => fullRefresh currentUploadCount
        end
  | None => fullRefresh currentUploadCount
  end.

Inductive Outcome : Type :=
| NotSignedIn
| Failed
| NoSalesData
| Analysed (finalData : list SalesDataRow).

(** The click handler: [currentUser] guards it, the [catch] turns an
    exception into an alert. *)
Definition viewCompiled (currentUser : option string) (w : World) : Outcome * World :=
  match currentUser with
  | None => (NotSignedIn, w)
  | Some _ =>
      match reconcile w with
      | (Some (Some finalData), w') => (Analysed finalData, w')
      | (Some None, w') => (NoSalesData, w')
      | (None, w') => (Failed, w')
      end
  end.

End Handler.

(** A request that transfers records. *)
Definition isPageFetch (r : Request) : bool :=
  match r with
  | QueryNewer _ | QueryPage _ _ => true
  | CountUploads | CountBills => false
  end.

End Cache.

End Main.

(* ================================================================== *)
(** * store.ts *)
(* ================================================================== *)

(** The store is one object of the module; the functions that write to
    it take it and return it. *)
Module Store.
Import JS Analysis.

(** What the entries of [AppState] hold: numbers, texts, comparisons,
    lists of names and rankings of [{ name, revenue, percent }]. *)
Inductive StoreValue : Type :=
| SUndefined
| SNumber (n : number)
| SText (s : string)
| SComparison (c : ComparisonState)
| STexts (l : list string)
| SRanking (l : list (string * string * string)).

Section Store.
Context {V : Type}.

(** [store[key] = value] *)
Definition setStore (store : object V) (key : string) (value : V) : object V :=
  set store key value.

(** [Object.assign(store, obj)]: the own properties of [obj] are
    assigned one by one, in the order of [Object.keys]. *)
Definition setStoreObj (store obj : object V) : object V :=
  fold_left (fun target e => set target (fst e) (snd e)) (entries obj) store.

(** [store[key]], [None] for a key that was never set. *)
Definition getStore (store : object V) (key : string) : option V := get store key.

Definition getStoreState (store : object V) : object V := store.

End Store.

End Store.

(* ================================================================== *)
(** * analysis.ts: [setupAnalysis] *)
(* ================================================================== *)

Module AnalysisSetup.
Import JS StringUtils Analysis Main Store.

(** [data.reduce((sum, d) => sum + d.Revenue, 0)] *)
Definition omzetOf (data : list SalesDataRow) : Qc :=
  fold_left (fun sum d => (sum + Revenue d)%Qc) data zero.

(** [new Set(data.map((d) => d['Bill Number'])).size] *)
Definition checkOf (data : list SalesDataRow) : nat :=
  setSize (setOfList String.eqb (map BillNumber data)).

(** [check > 0 ? omzet / check : 0] *)
Definition avgCheckOf (omzet : Qc) (check : nat) : Qc :=
  if (0 <? check)%nat then (omzet / QcOfNat check)%Qc else zero.

Definition setupAnalysis (store : object StoreValue)
    (currentData lastPeriodData : list SalesDataRow) : object StoreValue :=
  let currentOmzet := omzetOf currentData in
  let currentCheck := checkOf currentData in
  let currentAvgCheck := avgCheckOf currentOmzet currentCheck in
  let lastPeriodOmzet := omzetOf lastPeriodData in
  let lastPeriodCheck := checkOf lastPeriodData in
  let lastPeriodAvgCheck := avgCheckOf lastPeriodOmzet lastPeriodCheck in
  let store := setStore store "currentOmzet" (SNumber (Fin currentOmzet)) in
  let store :=
    setStore store "currentOmzetFormatted"
             (SText (formatCurrency (VNumber (Fin currentOmzet)) "Rp" 0)) in
  let store := setStore store "currentCheck" (SNumber (ofNat currentCheck)) in
  let store :=
    setStore store "currentCheckFormatted"
             (SText (formatNumber (VNumber (ofNat currentCheck)) 0)) in
  let store := setStore store "currentAvgCheck" (SNumber (Fin currentAvgCheck)) in
  let store :=
    setStore store "currentAvgCheckFormatted"
             (SText (formatCurrency (VNumber (Fin currentAvgCheck)) "Rp" 0)) in
  let store := setStore store "lastPeriodOmzet" (SNumber (Fin lastPeriodOmzet)) in
  let store := setStore store "lastPeriodCheck" (SNumber (ofNat lastPeriodCheck)) in
  let store := setStore store "lastPeriodAvgCheck" (SNumber (Fin lastPeriodAvgCheck)) in
  let omzetComparison :=
    calculateComparison (VNumber (Fin currentOmzet)) (VNumber (Fin lastPeriodOmzet)) in
  let store := setStore store "lastPeriodOmzetComparison" (SComparison omzetComparison) in
  let checkComparison :=
    calculateComparison (VNumber (ofNat currentCheck)) (VNumber (ofNat lastPeriodCheck)) in
  let store := setStore store "lastPeriodCheckComparison" (SComparison checkComparison) in
  let avgCheckComparison :=
    calculateComparison (VNumber (Fin currentAvgCheck)) (VNumber (Fin lastPeriodAvgCheck)) in
  setStore store "lastPeriodAvgCheckComparison" (SComparison avgCheckComparison).

(** The keys that [setupAnalysis] writes. *)
Definition setupKeys : list string :=
  ["currentOmzet"; "currentOmzetFormatted"; "currentCheck"; "currentCheckFormatted";
   "currentAvgCheck"; "currentAvgCheckFormatted"; "lastPeriodOmzet"; "lastPeriodCheck";
   "lastPeriodAvgCheck"; "lastPeriodOmzetComparison"; "lastPeriodCheckComparison";
   "lastPeriodAvgCheckComparison"].

End AnalysisSetup.

(* ================================================================== *)
(** * main.ts: the summary of the period *)
(* ================================================================== *)

Module Summary.
Import JS StringUtils Analysis Main Store AnalysisSetup.

(** ** [calculateAndDisplayGrowth] *)

(** What the function writes to the element it is given. *)
Record GrowthLabel : Type := mkGrowthLabel {
  textContent : string;
  className : string
}.

Section Growth.

Variable platformToString : Qc -> string.

Definition calculateAndDisplayGrowth (currentValue previousValue : number) : GrowthLabel :=
  if strictEqZero (VNumber previousValue) then
    {| textContent := "vs N/A";
       className := "text-sm mt-1 font-medium text-gray-500" |}
  else
    let growth := mul (div (sub currentValue previousValue) previousValue) (Fin hundred) in
    let sign := if ge growth (Fin zero) then "+" else "" in
    let colorClass := if ge growth (Fin zero) then "text-green-600" else "text-red-600" in
    {| textContent := sign ++ toFixed platformToString growth 1 ++ "% vs comparison period";
       className := "text-sm mt-1 font-medium " ++ colorClass |}.

End Growth.

(** ** [calculateForPdf] *)

Definition calculateForPdf (store : object StoreValue) (key : string)
    (currentValue previousValue : number) : object StoreValue :=
  if strictEqZero (VNumber previousValue) then
    setStoreObj store
      [ (key ++ "UpOrDown", SUndefined);
        (key ++ "Percentage", SUndefined);
        (key ++ "PlusOrMinus", SUndefined);
        (key ++ "Difference", SUndefined) ]
  else
    let diff := sub currentValue previousValue in
    let absoluteDiff := abs diff in
    let growth := mul (div (sub currentValue previousValue) previousValue) (Fin hundred) in
    let absoluteGrowth := abs growth in
    let UpOrDown :=
      if strictEqZero (VNumber growth) then ""
      else if gt growth (Fin zero) then "▲" else "▼" in
    let Percentage := toLocaleString absoluteGrowth 2 in
    let PlusOrMinus :=
      if strictEqZero (VNumber growth) then ""
      else if gt growth (Fin zero) then "+" else "-" in
    let Difference := toLocaleString absoluteDiff 2 in
    setStoreObj store
      [ (key ++ "UpOrDown", SText UpOrDown);
        (key ++ "Percentage", SText Percentage);
        (key ++ "PlusOrMinus", SText PlusOrMinus);
        (key ++ "Difference", SText Difference) ].

(** ** [updatePdfData] *)

(** A row with the two further fields that the report reads:
    [d.Branch] (empty when absent) and [d['Item Group']]. *)
Record ReportRow : Type := mkReportRow {
  sale : SalesDataRow;
  Branch : string;
  ItemGroup : string
}.

Record BranchStat : Type := mkBranchStat {
  branchName : string;
  branchRevenue : Qc;
  branchBills : list string
}.

(** [d.Branch || 'Unknown'] *)
Definition branchKey (d : ReportRow) : string :=
  if String.eqb (Branch d) "" then "Unknown" else Branch d.

(** [if (!acc[branch]) acc[branch] = { name: branch, revenue: 0, bills: new Set() };
    acc[branch].revenue += d.Revenue; acc[branch].bills.add(d['Bill Number'])] *)
Definition addBranch (acc : object BranchStat) (d : ReportRow) : object BranchStat :=
  let branch := branchKey d in
  let acc1 :=
    match get acc branch with
    | Some _ => acc
    | None => set acc branch {| branchName := branch; branchRevenue := zero; branchBills := [] |}
    end in
  match get acc1 branch with
  | Some s =>
      set acc1 branch
          {| branchName := branchName s;
             branchRevenue := (branchRevenue s + Revenue (sale d))%Qc;
             branchBills := setAdd String.eqb (branchBills s) (BillNumber (sale d)) |}
  | None => acc1
  end.

Definition branchStatsOf (currentData : list ReportRow) : list BranchStat :=
  values (fold_left addBranch currentData empty).

(** [if (!acc[d.Menu]) acc[d.Menu] = { revenue: 0, qty: 0 };
    acc[d.Menu].revenue += d.Revenue]; the quantity is never added to. *)
Definition addMenuRevenue (acc : object (Qc * Qc)) (d : ReportRow) : object (Qc * Qc) :=
  let menu := Menu (sale d) in
  let acc1 :=
    match get acc menu with
    | Some _ => acc
    | None => set acc menu (zero, zero)
    end in
  match get acc1 menu with
  | Some (revenue, qty) => set acc1 menu ((revenue + Revenue (sale d))%Qc, qty)
  | None => acc1
  end.

(** [Object.entries(rows.reduce(...)).sort(([, a], [, b]) => b.revenue - a.revenue)] *)
Definition byMenuOf (rows : list ReportRow) : list (string * (Qc * Qc)) :=
  sortBy (fun a b => Qc_leb (fst (snd b)) (fst (snd a)))
         (entries (fold_left addMenuRevenue rows empty)).

(** [formatNumber((part / whole) * 100)] *)
Definition percentOf (part whole : Qc) : string :=
  formatNumber (VNumber (mul (div (Fin part) (Fin whole)) (Fin hundred))) 0.

(** The entries written for one group of products. *)
Definition podiumUpdate (stateUpdate : object StoreValue) (currentOmzet : Qc)
    (rows : list ReportRow) (podium top5 heroName heroPercent heroNominal : string)
  : object StoreValue :=
  let totalRevenue := omzetOf (map sale rows) in
  let byMenu := byMenuOf rows in
  match byMenu with
  | [] => stateUpdate
  | hero :: _ =>
      let stateUpdate := set stateUpdate podium (STexts (map fst (slice0 3 byMenu))) in
      let stateUpdate :=
        set stateUpdate top5
            (SRanking
               (map (fun e => (fst e,
                               formatCurrency (VNumber (Fin (fst (snd e)))) "Rp" 0,
                               percentOf (fst (snd e)) totalRevenue))
                    (slice0 5 byMenu))) in
      let stateUpdate := set stateUpdate heroName (SText (fst hero)) in
      let stateUpdate :=
        set stateUpdate heroPercent (SText (percentOf (fst (snd hero)) currentOmzet)) in
      set stateUpdate heroNominal
          (SText (formatCurrency (VNumber (Fin (fst (snd hero)))) "Rp" 0))
  end.

Definition updatePdfData (store : object StoreValue)
    (currentData lastPeriodData : list ReportRow) : object StoreValue :=
  match currentData with
  | [] => setStoreObj store empty
  | _ :: _ =>
      let stateUpdate : object StoreValue := empty in
      let currentOmzet := omzetOf (map sale currentData) in
      let currentCheck := checkOf (map sale currentData) in
      let currentAvgCheck := avgCheckOf currentOmzet currentCheck in
      let lastPeriodOmzet := omzetOf (map sale lastPeriodData) in
      let lastPeriodCheck := checkOf (map sale lastPeriodData) in
      let lastPeriodAvgCheck := avgCheckOf lastPeriodOmzet lastPeriodCheck in
      let stateUpdate :=
        set stateUpdate "currentOmzetFormatted"
            (SText (formatCurrency (VNumber (Fin currentOmzet)) "Rp" 0)) in
      let stateUpdate :=
        set stateUpdate "currentCheckFormatted"
            (SText (formatNumber (VNumber (ofNat currentCheck)) 0)) in
      let stateUpdate :=
        set stateUpdate "currentAvgCheckFormatted"
            (SText (formatCurrency (VNumber (Fin currentAvgCheck)) "Rp" 0)) in
      let stateUpdate :=
        set stateUpdate "lastPeriodOmzetComparison"
            (SComparison (calculateComparison (VNumber (Fin currentOmzet))
                                              (VNumber (Fin lastPeriodOmzet)))) in
      let stateUpdate :=
        set stateUpdate "lastPeriodCheckComparison"
            (SComparison (calculateComparison (VNumber (ofNat currentCheck))
                                              (VNumber (ofNat lastPeriodCheck)))) in
      let stateUpdate :=
        set stateUpdate "lastPeriodAvgCheckComparison"
            (SComparison (calculateComparison (VNumber (Fin currentAvgCheck))
                                              (VNumber (Fin lastPeriodAvgCheck)))) in
      let branchStats := branchStatsOf currentData in
      let stateUpdate :=
        match sortBy (fun a b => Qc_leb (branchRevenue b) (branchRevenue a)) branchStats with
        | topOmzetBranch :: _ =>
            let stateUpdate :=
              set stateUpdate "topOmzetOutletName" (SText (branchName topOmzetBranch)) in
            set stateUpdate "topOmzetPercentage"
                (SText (percentOf (branchRevenue topOmzetBranch) currentOmzet))
        | [] => stateUpdate
        end in
      let foodData := filter (fun d => String.eqb (ItemGroup d) "MAKANAN") currentData in
      let stateUpdate :=
        podiumUpdate stateUpdate currentOmzet foodData "foodPodium" "top5RevenueFood"
                     "superheroName" "superheroContributionPercent"
                     "superheroContributionNominal" in
      let drinkData := filter (fun d => String.eqb (ItemGroup d) "MINUMAN") currentData in
      let stateUpdate :=
        podiumUpdate stateUpdate currentOmzet drinkData "drinkPodium" "top5RevenueDrink"
                     "sidekickName" "sidekickContributionPercent"
                     "sidekickContributionNominal" in
      setStoreObj store stateUpdate
  end.

(** ** [generateRingkasan], as far as the store goes

    The texts written to the page, [calculateAndDisplayGrowth] among
    them, leave the store alone. *)
Definition generateRingkasan (store : object StoreValue)
    (currentData lastPeriodData : list ReportRow) : object StoreValue :=
  let currentOmzet := omzetOf (map sale currentData) in
  let currentCheck := checkOf (map sale currentData) in
  let currentAvgCheck := avgCheckOf currentOmzet currentCheck in
  let lastPeriodOmzet := omzetOf (map sale lastPeriodData) in
  let lastPeriodCheck := checkOf (map sale lastPeriodData) in
  let lastPeriodAvgCheck := avgCheckOf lastPeriodOmzet lastPeriodCheck in
  let store :=
    setStoreObj store
      [ ("currentOmzet", SNumber (Fin currentOmzet));
        ("currentOmzetFormatted", SText (toLocaleString (Fin currentOmzet) 2));
        ("currentCheck", SNumber (ofNat currentCheck));
        ("currentCheckFormatted", SText (toLocaleString (ofNat currentCheck) 2));
        ("currentAvgCheck", SNumber (Fin currentAvgCheck));
        ("currentAvgCheckFormatted", SText (toLocaleString (Fin currentAvgCheck) 2));
        ("lastPeriodOmzet", SNumber (Fin lastPeriodOmzet));
        ("lastPeriodOmzetFormatted", SText (toLocaleString (Fin lastPeriodOmzet) 2));
        ("lastPeriodCheck", SNumber (ofNat lastPeriodCheck));
        ("lastPeriodCheckFormatted", SText (toLocaleString (ofNat lastPeriodCheck) 2));
        ("lastPeriodAvgCheck", SNumber (Fin lastPeriodAvgCheck));
        ("lastPeriodAvgCheckFormatted", SText (toLocaleString (Fin lastPeriodAvgCheck) 2)) ] in
  let store := updatePdfData store currentData lastPeriodData in
  let store :=
    calculateForPdf store "lastPeriodOmzet" (Fin currentOmzet) (Fin lastPeriodOmzet) in
  let store :=
    calculateForPdf store "lastPeriodCheck" (ofNat currentCheck) (ofNat lastPeriodCheck) in
  calculateForPdf store "lastPeriodAvgCheck" (Fin currentAvgCheck) (Fin lastPeriodAvgCheck).

(** The keys of the first update of [generateRingkasan], those of the
    update of [updatePdfData], and among the latter the ones that
    nothing else in [generateRingkasan] writes. *)
Definition summaryKeys : list string :=
  ["currentOmzet"; "currentOmzetFormatted"; "currentCheck"; "currentCheckFormatted";
   "currentAvgCheck"; "currentAvgCheckFormatted"; "lastPeriodOmzet";
   "lastPeriodOmzetFormatted"; "lastPeriodCheck"; "lastPeriodCheckFormatted";
   "lastPeriodAvgCheck"; "lastPeriodAvgCheckFormatted"].

Definition pdfDataKeys : list string :=
  ["currentOmzetFormatted"; "currentCheckFormatted"; "currentAvgCheckFormatted";
   "lastPeriodOmzetComparison"; "lastPeriodCheckComparison";
   "lastPeriodAvgCheckComparison"; "topOmzetOutletName"; "topOmzetPercentage";
   "foodPodium"; "top5RevenueFood"; "superheroName"; "superheroContributionPercent";
   "superheroContributionNominal"; "drinkPodium"; "top5RevenueDrink"; "sidekickName";
   "sidekickContributionPercent"; "sidekickContributionNominal"].

Definition reportOnlyKeys : list string := skipn 3 pdfDataKeys.

End Summary.

(* ================================================================== *)
(** * main.ts: insights on weekends, busy times and daily checks *)
(* ================================================================== *)

Module Insights.
Import JS StringUtils Analysis Main Store.

(** ** [generateWeekendSalesInsights] *)




Section Weekend.

(** [date.getDay()]: the day of the week in the host time zone, Sunday
    being 0 and Saturday 6. *)
Variable getDay : Date -> nat.







End Weekend.

(** ** [generateCustomerSpendingInsights], the busiest day and hour *)

(** [arr[i] = v] for an index of the array. *)
Fixpoint setAt (arr : list nat) (i v : nat) : list nat :=
  match arr, i with
  | [], _ => []
  | _ :: rest, O => v :: rest
  | x :: rest, S i' => x :: setAt rest i' v
  end.

(** [Math.max(...arr)] of an array of counts. *)
Definition maxCount (arr : list nat) : nat := fold_left Nat.max arr 0.

(** [arr.indexOf(x)], [-1] when [x] is not an element. *)
Fixpoint indexFrom (arr : list nat) (x : nat) (i : Z) : Z :=
  match arr with
  | [] => (-1)%Z
  | y :: rest => if (y =? x)%nat then i else indexFrom rest x (i + 1)%Z
  end.

Definition indexOf (arr : list nat) (x : nat) : Z := indexFrom arr x 0.

(** [const counts = Array(size).fill(0);
     Object.keys(billsBy).forEach(key => counts[key] = billsBy[key].size)].
    The keys are days of the week or hours of the day, which the
    accessors of [Date] keep below [size]. *)
Definition countStep (billsBy : object (list string)) (counts : list nat) (key : string)
  : list nat :=
  match arrayIndex key, get billsBy key with
  | Some i, Some bills => setAt counts (N.to_nat i) (setSize bills)
  | _, _ => counts
  end.

Definition countsOf (size : nat) (billsBy : object (list string)) : list nat :=
  fold_left (countStep billsBy) (keys billsBy) (repeat 0 size).

Definition daysOfWeek : list string :=
  ["Minggu"; "Senin"; "Selasa"; "Rabu"; "Kamis"; "Jumat"; "Sabtu"].

(** [(i === 6 || i === 0 || i === 5) ? 'Weekend' : daysOfWeek[i]] *)
Definition busiestDayName (busiestDayIndex : Z) : StoreValue :=
  if (busiestDayIndex =? 6)%Z || (busiestDayIndex =? 0)%Z || (busiestDayIndex =? 5)%Z
  then SText "Weekend"
  else if (busiestDayIndex <? 0)%Z then SUndefined
  else match nth_error daysOfWeek (Z.to_nat busiestDayIndex) with
       | Some day => SText day
       | None => SUndefined
       end.

(** [`${String(h).padStart(2, '0')}.00 - ${String(h + 2).padStart(2, '0')}.00`] *)
Definition timeRangeOf (busiestHour : Z) : string :=
  padStart0 2 (stringOfZ busiestHour) ++ ".00 - "
  ++ padStart0 2 (stringOfZ (busiestHour + 2)) ++ ".00".

(** The distinct bills of the rows whose day of the week, or hour of
    the day, is [i]. *)
Definition billsFiledUnder (component : Date -> nat) (data : list SalesDataRow) (i : nat)
  : list string :=
  setOfList String.eqb
    (map BillNumber (filter (fun d => (component (SalesDateIn d) =? i)%nat) data)).

Section Busiest.

Variable getDay : Date -> nat.
Variable getHours : Date -> nat.

(** [billsByDay] and [billsByHour] are filled the way [hourlyBills] is
    in [generatePeakHourAnalysis], one under the day of the week and
    one under the hour. *)
Definition billsByDayOf (data : list SalesDataRow) : object (list string) :=
  hourlyBillsOf getDay data.

Definition billsByHourOf (data : list SalesDataRow) : object (list string) :=
  hourlyBillsOf getHours data.

Definition busiestDayIndexOf (data : list SalesDataRow) : Z :=
  let dayCounts := countsOf 7 (billsByDayOf data) in
  indexOf dayCounts (maxCount dayCounts).

Definition busiestHourOf (data : list SalesDataRow) : Z :=
  let hourCounts := countsOf 24 (billsByHourOf data) in
  indexOf hourCounts (maxCount hourCounts).

(** The whole update of the store; [generateCustomerSpendingInsights]
    of [Main] computes its first three entries. *)
Definition customerSpendingUpdate (store : object StoreValue) (data : list SalesDataRow)
  : object StoreValue :=
  match generateCustomerSpendingInsights data with
  | None => store
  | Some spending =>
      setStoreObj store
        [ ("avgSpendLower", SText (avgSpendLower spending));
          ("avgSpendUpper", SText (avgSpendUpper spending));
          ("highestSingleTransaction", SText (highestSingleTransaction spending));
          ("busiestTimeRange", SText (timeRangeOf (busiestHourOf data)));
          ("busiestDay", busiestDayName (busiestDayIndexOf data));
          ("upsellingTips",
           SText "Rancang program upselling dengan bundling produk atau promosi untuk meningkatkan nilai belanja per transaksi.") ]
  end.

End Busiest.

(** ** [generateCustomerAnalysisInsights], the update of the store *)

(** [newestMembers.forEach((item, i) => { update[`newestMember${i+1}`] = item.name })] *)
Definition newestMemberUpdateOf (newestMembers : list Customers.Profile)
  : object StoreValue :=
  map (fun entry => ("newestMember" ++ stringOfNat (fst entry),
                     SText (Customers.name (snd entry))))
      (combine (seq 1 (List.length newestMembers)) newestMembers).

(** [formatNumber(n)] of a count and of an average. *)
Definition countText (n : nat) : StoreValue := SText (formatNumber (VNumber (ofNat n)) 0).

Definition averageText (arr : list Customers.Profile) : StoreValue :=
  SText (formatNumber (VNumber (Fin (Customers.calculateAvgSpend arr))) 0).

(** The keys of the update that are written whatever the customers. *)
Definition analysisKeys : list string :=
  ["topCustomerNames"; "newCustomerCount"; "newCustomerAvgSpend"; "highSpenderCount";
   "highSpenderAvgSpend"; "loyalCustomerCount"; "loyalCustomerAvgSpend"].

Definition customerAnalysisUpdate (store : object StoreValue)
    (currentData allData : list SalesDataRow) (periodStart periodEnd : Date)
  : object StoreValue :=
  match Customers.generateCustomerAnalysisInsights currentData allData periodStart periodEnd with
  | None => store
  | Some segments =>
      let customerProfiles :=
        Customers.customerProfilesOf (filter Customers.hasCustomerName allData) in
      let newestMembers := Customers.newestMembersOf customerProfiles in
      let topCustomers := Customers.topCustomersOf customerProfiles in
      setStoreObj store
        ([ ("topCustomerNames",
            SText (String.concat ", " (map Customers.name topCustomers)));
           ("newCustomerCount", countText (List.length (Customers.newCustomers segments)));
           ("newCustomerAvgSpend", averageText (Customers.newCustomers segments));
           ("highSpenderCount", countText (List.length (Customers.highSpenders segments)));
           ("highSpenderAvgSpend", averageText (Customers.highSpenders segments));
           ("loyalCustomerCount", countText (List.length (Customers.loyalCustomers segments)));
           ("loyalCustomerAvgSpend", averageText (Customers.loyalCustomers segments)) ]
         ++ newestMemberUpdateOf newestMembers)%list
  end.

(** ** [generateTcApcHarianChart] *)


Section TcApc.

(** [d['Sales Date In'].toISOString().split('T')[0]] *)
Variable isoDateOf : SalesDataRow -> string.






End TcApc.

End Insights.

(* ================================================================== *)
(** * The specification's own words *)
(* ================================================================== *)

(** Definitions written after the specification, to be compared with
    the ones above that follow the source. *)
Module Spec.
Import JS Main.

(** "A transaction total is the sum of [netRevenue] over all lines
    sharing a [billNumber]." *)
Definition billTotal (records : list SalesDataRow) (bill : string) : Qc :=
  sumQc (map Revenue (filter (fun r => String.eqb (BillNumber r) bill) records)).

(** One total per distinct bill. *)
Definition billTotals (records : list SalesDataRow) : list Qc :=
  map (billTotal records) (setOfList String.eqb (map BillNumber records)).

(** "[percentileOfSortedBillTotals(records, p)]: groups line items into
    per-bill totals, sorts ascending, returns the value at index
    [floor(p * length)]; returns 0 on empty input." *)
Definition percentileOfSortedBillTotals (records : list SalesDataRow) (p : Qc) : Qc :=
  let sorted := sortBy Qc_leb (billTotals records) in
  nth (Z.to_nat (floorTimes (List.length sorted) p)) sorted zero.

(** "An hour-of-day histogram of distinct-bill counts": the number of
    distinct bills among the rows of hour [h]. *)
Definition distinctBillsAt (getHours : Date -> nat) (data : list SalesDataRow) (h : nat)
  : nat :=
  List.length
    (setOfList String.eqb
       (map BillNumber (filter (fun d => hourOf getHours d =? h)%nat data))).

(** "[CustomerProfile], built from full history:
    [{name, billSet, firstSeenTimestamp, totalSpend}]". *)
Definition rowsOf (customer : string) (rows : list SalesDataRow) : list SalesDataRow :=
  filter (fun d => Customers.optionStringEqb (CustomerName d) (Some customer)) rows.

Definition earliest (first : SalesDataRow) (rest : list SalesDataRow) : Date :=
  fold_left (fun m d => if (SalesDateIn d <? m)%Z then SalesDateIn d else m)
            rest (SalesDateIn first).

Definition profileOf (customer : string) (rows : list SalesDataRow)
  : option Customers.Profile :=
  match rowsOf customer rows with
  | [] => None
  | first :: rest =>
      Some {| Customers.name := customer;
              Customers.bills := setOfList String.eqb (map BillNumber (first :: rest));
              Customers.firstSeen := earliest first rest;
              Customers.totalSpend := sumQc (map Revenue (first :: rest)) |}
  end.

(** "Profiles with at least one transaction inside the current window
    (active)": the profile of a named customer of the history who
    appears in the rows of the window. *)
Definition activeProfile (currentData allData : list SalesDataRow) (p : Customers.Profile)
  : Prop :=
  Customers.name p <> ""
  /\ profileOf (Customers.name p) allData = Some p
  /\ In (Some (Customers.name p)) (map CustomerName currentData).

End Spec.

(* ================================================================== *)
(** * Sample data *)
(* ================================================================== *)

Module Samples.
Import JS Main.

Definition amount (z : Z) : Qc := Q2Qc (inject_Z z).

Definition hourMs : Z := 3600000.
Definition dayMs : Z := 86400000.

(** [getHours] on a host whose time zone is UTC. *)
Definition utcHours (d : Date) : nat := Z.to_nat ((d / hourMs) mod 24).

Definition line (time : Z) (bill category menu : string) (qty revenue : Z)
    (customer : option string) : SalesDataRow :=
  {| SalesDateIn := time; Revenue := amount revenue; BillNumber := bill;
     MenuCategory := category; Menu := menu; Quantity := amount qty;
     CustomerName := customer |}.

(** Four bills with totals 10, 20, 30 and 40; the second has two lines. *)
Definition fourBills : list SalesDataRow :=
  [ line (10 * hourMs) "INV-1" "MAKANAN" "Nasi Goreng" 1 10 None;
    line (11 * hourMs) "INV-2" "MAKANAN" "Mie Ayam" 1 5 None;
    line (12 * hourMs) "INV-3" "MAKANAN" "Sate" 2 30 None;
    line (13 * hourMs) "INV-4" "MINUMAN" "Es Teh" 4 40 None;
    line (11 * hourMs) "INV-2" "MAKANAN" "Nasi Goreng" 1 15 None ].

(** Three bills in the hour after midnight, one bill at 13:00. *)
Definition midnightRush : list SalesDataRow :=
  [ line (10 * 60000) "INV-1" "MAKANAN" "Nasi Goreng" 1 25000 None;
    line (20 * 60000) "INV-2" "MAKANAN" "Mie Ayam" 1 22000 None;
    line (40 * 60000) "INV-3" "MINUMAN" "Es Teh" 2 10000 None;
    line (13 * hourMs) "INV-4" "MAKANAN" "Sate" 1 30000 None ].

(** A customer with three bills in their history, one of them in the
    window of days 31 to 60. *)
Definition anaFirst : SalesDataRow :=
  line (1 * dayMs) "INV-1" "MAKANAN" "Nasi Goreng" 1 25000 (Some "Ana").
Definition anaSecond : SalesDataRow :=
  line (2 * dayMs) "INV-2" "MAKANAN" "Sate" 1 30000 (Some "Ana").
Definition anaThird : SalesDataRow :=
  line (40 * dayMs) "INV-3" "MINUMAN" "Es Teh" 1 5000 (Some "Ana").

Definition anaHistory : list SalesDataRow := [anaFirst; anaSecond; anaThird].
Definition anaWindowStart : Date := (31 * dayMs)%Z.
Definition anaWindowEnd : Date := (61 * dayMs - 1)%Z.
Definition anaWindow : list SalesDataRow :=
  filter (fun d => (anaWindowStart <=? SalesDateIn d)%Z && (SalesDateIn d <=? anaWindowEnd)%Z)
         anaHistory.

(** The distinct bills of a customer among some rows. *)
Definition billsOf (customer : string) (rows : list SalesDataRow) : list string :=
  setOfList String.eqb
    (map BillNumber
         (filter (fun d => Customers.optionStringEqb (CustomerName d) (Some customer)) rows)).

(** Raw rows of an upload: a repeated header line and a data line. *)
Definition rawRow (bill date revenue : string) : object value :=
  [ ("Bill Number", VString bill); ("Sales Date In", VString date);
    ("Branch", VString "Pusat"); ("Visit Purpose", VString "Dine In");
    ("Menu Category", VString "MAKANAN"); ("Menu", VString "Sate");
    ("Qty", VString "2"); ("Price", VString "15000");
    ("Nett Sales", VString revenue) ].

Definition headerRow : object value := rawRow "Bill Number" "2024-01-01" "Nett Sales".
Definition dataRow : object value := rawRow "INV-1" "2024-01-01" "30000".
Definition blankRow : object value := [("Branch", VString "Pusat")].

(** Stand-ins for the platform parsers that know the sample cells. *)
Definition sampleNewDate (v : value) : option Z :=
  match v with
  | VString s => if String.eqb s "2024-01-01" then Some 1704067200000%Z else None
  | _ => None
  end.

Definition sampleParseInt (v : value) : number :=
  match v with
  | VString s => if String.eqb s "2" then ofZ 2 else NaN
  | _ => NaN
  end.

Definition sampleParseFloat (v : value) : number :=
  match v with
  | VString s => if String.eqb s "30000" then ofZ 30000 else NaN
  | _ => NaN
  end.

(** A cache that reflects three uploads, and a remote store that
    reports three. *)
Definition cachedThree : Cache.CachedResult :=
  {| Cache.data := fourBills; Cache.uploadCount := 3; Cache.timestamp := (70 * dayMs)%Z;
     Cache.lastTransactionDate := Some (13 * hourMs)%Z |}.

Definition remoteThree : Cache.Remote :=
  {| Cache.uploadsCount := Some 3%N;
     Cache.billsCount := Some 5%N;
     Cache.billsNewerThan := fun _ => Some [];
     Cache.billsPage := fun cursor _ =>
       match cursor with None => Some fourBills | Some _ => Some [] end |}.

Definition worldThree : Cache.World :=
  {| Cache.cache := Some cachedThree; Cache.requests := []; Cache.clock := (71 * dayMs)%Z |}.

(** The same device before anything was cached, a remote store that
    rejects every request, and one that has received a fourth upload
    with a bill later than the cached ones. *)
Definition worldEmpty : Cache.World :=
  {| Cache.cache := None; Cache.requests := []; Cache.clock := (71 * dayMs)%Z |}.

Definition remoteDown : Cache.Remote :=
  {| Cache.uploadsCount := None;
     Cache.billsCount := None;
     Cache.billsNewerThan := fun _ => None;
     Cache.billsPage := fun _ _ => None |}.

Definition newBill : SalesDataRow :=
  line (14 * hourMs) "INV-5" "MAKANAN" "Sate" 1 30 None.

Definition remoteFour : Cache.Remote :=
  {| Cache.uploadsCount := Some 4%N;
     Cache.billsCount := Some 6%N;
     Cache.billsNewerThan :=
       fun after => Some (if (after <? 14 * hourMs)%Z then [newBill] else []);
     Cache.billsPage := fun cursor _ =>
       match cursor with None => Some (fourBills ++ [newBill])%list | Some _ => Some [] end |}.

(** [getDay] on a host whose time zone is UTC; the epoch began on a
    Thursday. *)
Definition utcDay (d : Date) : nat := Z.to_nat ((d / dayMs + 4) mod 7).

(** The rows of the report, all of one branch. *)
Definition reportRow (d : SalesDataRow) : Summary.ReportRow :=
  {| Summary.sale := d; Summary.Branch := "Pusat"; Summary.ItemGroup := MenuCategory d |}.

(** Stand-ins for the accessors of the one date that [sampleNewDate]
    knows, the first of January 2024. *)
Definition sampleFullYear (time : Z) : Z := 2024.
Definition sampleMonth (time : Z) : nat := 0.
Definition sampleDayOfMonth (time : Z) : nat := 1.

(** Digits that stand for [Number.prototype.toString] where the
    embedding leaves it to the platform. *)
Definition sampleToString (a : Qc) : string := "0.5".

End Samples.

(* ================================================================== *)
(** * Facts about the number model *)
(* ================================================================== *)

Import JS StringUtils Analysis Main.

Lemma Qc_eqb_iff (a b : Qc) : Qc_eqb a b = true <-> a = b.
Proof.
  unfold Qc_eqb. rewrite Qeq_bool_iff. split.
  - apply Qc_is_canon.
  - intros ->. reflexivity.
Qed.

Lemma Qc_leb_iff (a b : Qc) : Qc_leb a b = true <-> (a <= b)%Qc.
Proof. unfold Qc_leb, Qcle. apply Qle_bool_iff. Qed.


Lemma Qc_ltb_leb (a b : Qc) : Qc_ltb a b = negb (Qc_leb b a).
Proof. reflexivity. Qed.

Lemma this_mult (a b : Qc) : (this (a * b)%Qc == this a * this b)%Q.
Proof. unfold Qcmult, Q2Qc. cbn [this]. apply Qred_correct. Qed.




Lemma strictEqZero_iff (v : value) :
  strictEqZero v = true <-> v = VNumber (Fin zero).
Proof.
  destruct v as [| | b | s | [| | | a] | t]; simpl;
    try (split; [discriminate | intros H; discriminate H]).
  rewrite Qc_eqb_iff. split; [intros ->; reflexivity | intros [= ->]; reflexivity].
Qed.




(* ================================================================== *)
(** * The period comparator *)
(* ================================================================== *)

Lemma calculateComparison_guarded (current previous : value) :
  strictEqZero previous || negb (typeofNumber current) || negb (typeofNumber previous) = true ->
  calculateComparison current previous = notApplicable.
Proof. intros H. unfold calculateComparison. rewrite H. reflexivity. Qed.

Lemma calculateComparison_numbers (c p : number) :
  strictEqZero (VNumber p) = false ->
  calculateComparison (VNumber c) (VNumber p) =
    {| upOrDown := if gt (growthOf c p) (Fin zero) then "▲" else "▼";
       percentage := formatNumber (VNumber (abs (growthOf c p))) 1;
       plusOrMinus := if gt (growthOf c p) (Fin zero) then "+" else "-";
       difference := formatNumber (VNumber (abs (sub c p))) 0 |}.
Proof.
  intros H. unfold calculateComparison. rewrite H. reflexivity.
Qed.

Lemma arrow_not_empty (b : bool) : (if b then "▲" else "▼") <> "".
Proof. destruct b; discriminate. Qed.

(** C1, as the specification states it, fails: with [previous = NaN],
    which is not a finite number, the comparator does not return the
    "N/A" object but a downward change of "0". *)
Lemma calculateComparison_NaN_previous :
  isFinite NaN = false
  /\ calculateComparison (VNumber (ofZ 5)) (VNumber NaN)
     = {| upOrDown := "▼"; percentage := "0"; plusOrMinus := "-"; difference := "0" |}
  /\ calculateComparison (VNumber (ofZ 5)) (VNumber NaN) <> notApplicable.
Proof.
  split; [reflexivity|]. split; [vm_compute; reflexivity|].
  vm_compute. discriminate.
Qed.

(** C1, amended.  [calculateComparison] returns the "N/A" object (empty
    direction and sign, "N/A" percentage and difference) exactly when
    [previous === 0] or one of the two arguments is not of type number;
    [NaN] and the infinities are numbers and are compared like any
    other.  In particular [calculateComparison(x, 0)] is the "N/A"
    object for every [x]. *)
Theorem calculateComparison_notApplicable_iff :
  (forall current previous : value,
      calculateComparison current previous = notApplicable
      <-> (previous = VNumber (Fin zero)
           \/ typeofNumber current = false
           \/ typeofNumber previous = false))
  /\ (forall x : value, calculateComparison x (VNumber (Fin zero)) = notApplicable).
Proof.
  split.
  - intros current previous. rewrite <- strictEqZero_iff. split.
    + intros H.
      destruct (strictEqZero previous) eqn:Ez; [left; reflexivity|].
      destruct current as [| | b | s | c | t]; try (right; left; reflexivity).
      destruct previous as [| | b | s | p | t]; try (right; right; reflexivity).
      rewrite (calculateComparison_numbers c p Ez) in H.
      apply (f_equal upOrDown) in H. cbn [upOrDown notApplicable] in H.
      exfalso. exact (arrow_not_empty _ H).
    + intros H. apply calculateComparison_guarded.
      destruct H as [-> | [-> | ->]]; rewrite ?orb_true_r; reflexivity.
  - intros x. apply calculateComparison_guarded. reflexivity.
Qed.

(** The comparator on the example of the specification and on the
    documented examples of the source: the percentage carries no ".0". *)
Example calculateComparison_100_50 :
  calculateComparison (VNumber (ofZ 100)) (VNumber (ofZ 50))
  = {| upOrDown := "▲"; percentage := "100"; plusOrMinus := "+"; difference := "50" |}.
Proof. vm_compute. reflexivity. Qed.

Example calculateComparison_150_100 :
  calculateComparison (VNumber (ofZ 150)) (VNumber (ofZ 100))
  = {| upOrDown := "▲"; percentage := "50"; plusOrMinus := "+"; difference := "50" |}.
Proof. vm_compute. reflexivity. Qed.

Example calculateComparison_100_100 :
  calculateComparison (VNumber (ofZ 100)) (VNumber (ofZ 100))
  = {| upOrDown := "▼"; percentage := "0"; plusOrMinus := "-"; difference := "0" |}.
Proof. vm_compute. reflexivity. Qed.




(* ================================================================== *)
(** * Sorting *)
(* ================================================================== *)

Section SortFacts.
Context {A : Type}.
Variable le : A -> A -> bool.

Lemma insertSorted_perm (x : A) (l : list A) :
  Permutation (insertSorted le x l) (x :: l).
Proof.
  induction l as [|y l IH]; cbn.
  - reflexivity.
  - destruct (le x y).
    + reflexivity.
    + rewrite IH. apply perm_swap.
Qed.

Lemma sortBy_perm (l : list A) : Permutation (sortBy le l) l.
Proof.
  induction l as [|x l IH]; cbn.
  - constructor.
  - rewrite insertSorted_perm. constructor. exact IH.
Qed.

Lemma sortBy_length (l : list A) : List.length (sortBy le l) = List.length l.
Proof. apply Permutation_length, sortBy_perm. Qed.

Lemma sortBy_In (l : list A) (x : A) : In x (sortBy le l) <-> In x l.
Proof.
  split; apply Permutation_in; [|symmetry]; apply sortBy_perm.
Qed.

Hypothesis le_total : forall a b, le a b = true \/ le b a = true.
Hypothesis le_trans : forall a b c, le a b = true -> le b c = true -> le a c = true.

Lemma insertSorted_sorted (x : A) (l : list A) :
  StronglySorted (fun a b => le a b = true) l ->
  StronglySorted (fun a b => le a b = true) (insertSorted le x l).
Proof.
  induction 1 as [|y l Hs IH Hall]; cbn.
  - repeat constructor.
  - destruct (le x y) eqn:E.
    + constructor; [constructor; assumption|].
      constructor; [exact E|].
      rewrite Forall_forall in *. intros z Hz. eapply le_trans; eauto.
    + constructor; [exact IH|].
      rewrite Forall_forall in *. intros z Hz.
      apply (Permutation_in _ (insertSorted_perm x l)) in Hz.
      destruct Hz as [<- | Hz]; [|auto].
      destruct (le_total x y) as [H|H]; congruence.
Qed.

Lemma sortBy_sorted (l : list A) :
  StronglySorted (fun a b => le a b = true) (sortBy le l).
Proof.
  induction l as [|x l IH]; cbn.
  - constructor.
  - apply insertSorted_sorted, IH.
Qed.

Hypothesis le_antisym : forall a b, le a b = true -> le b a = true -> a = b.

Lemma sorted_perm_unique (l1 l2 : list A) :
  StronglySorted (fun a b => le a b = true) l1 ->
  StronglySorted (fun a b => le a b = true) l2 ->
  Permutation l1 l2 -> l1 = l2.
Proof.
  intros H1. revert l2. induction H1 as [|x l1 Hs1 IH Hall1]; intros l2 H2 Hp.
  - apply Permutation_nil in Hp. subst. reflexivity.
  - destruct H2 as [|y l2 Hs2 Hall2].
    + apply Permutation_sym, Permutation_nil in Hp. discriminate.
    + assert (x = y).
      { rewrite Forall_forall in Hall1, Hall2.
        assert (Hy : In y (x :: l1))
          by (eapply Permutation_in; [symmetry; exact Hp | left; reflexivity]).
        assert (Hx : In x (y :: l2)) by (eapply Permutation_in; [exact Hp | left; reflexivity]).
        destruct Hy as [Hy | Hy]; [exact Hy|].
        destruct Hx as [Hx | Hx]; [symmetry; exact Hx|].
        apply le_antisym; auto. }
      subst y. f_equal. apply IH; [exact Hs2|].
      eapply Permutation_cons_inv. exact Hp.
Qed.

Lemma sortBy_perm_eq (l1 l2 : list A) :
  Permutation l1 l2 -> sortBy le l1 = sortBy le l2.
Proof.
  intros Hp. apply sorted_perm_unique; try apply sortBy_sorted.
  rewrite !sortBy_perm. exact Hp.
Qed.

End SortFacts.

(* ================================================================== *)
(** * Objects *)
(* ================================================================== *)

Lemma filter_split_perm {A : Type} (f : A -> bool) (l : list A) :
  Permutation (filter f l ++ filter (fun a => negb (f a)) l) l.
Proof.
  induction l as [|a l IH]; cbn.
  - constructor.
  - destruct (f a); cbn.
    + constructor. exact IH.
    + symmetry. apply Permutation_cons_app. symmetry. exact IH.
Qed.

Section ObjectFacts.
Context {V : Type}.
Implicit Types (o : object V) (k : string) (v : V).

Lemma get_set_same o k v : get (set o k v) k = Some v.
Proof.
  induction o as [|[k' v'] o IH]; cbn.
  - rewrite String.eqb_refl. reflexivity.
  - destruct (String.eqb k' k) eqn:E; cbn; rewrite E; [reflexivity | exact IH].
Qed.

Lemma get_set_other o k k' v : k' <> k -> get (set o k v) k' = get o k'.
Proof.
  intros Hne. induction o as [|[k0 v0] o IH]; cbn.
  - destruct (String.eqb_spec k k'); [congruence | reflexivity].
  - destruct (String.eqb_spec k0 k) as [-> | Hk]; cbn.
    + destruct (String.eqb_spec k k'); [congruence | reflexivity].
    + rewrite IH. reflexivity.
Qed.

Lemma set_set o k v v' : set (set o k v) k v' = set o k v'.
Proof.
  induction o as [|[k0 v0] o IH]; cbn.
  - rewrite String.eqb_refl. reflexivity.
  - destruct (String.eqb k0 k) eqn:E; cbn; rewrite E; [reflexivity|].
    rewrite IH. reflexivity.
Qed.

Lemma get_None_iff o k : get o k = None <-> ~ In k (map fst o).
Proof.
  induction o as [|[k0 v0] o IH]; cbn.
  - tauto.
  - destruct (String.eqb_spec k0 k) as [-> | Hk].
    + split; [discriminate | intros H; exfalso; apply H; left; reflexivity].
    + rewrite IH. tauto.
Qed.

Lemma get_Some_In o k v : get o k = Some v -> In (k, v) o.
Proof.
  induction o as [|[k0 v0] o IH]; cbn; [discriminate|].
  destruct (String.eqb_spec k0 k) as [-> | Hk].
  - intros [= ->]. left. reflexivity.
  - intros H. right. exact (IH H).
Qed.

Lemma In_get_Some o k v : NoDup (map fst o) -> In (k, v) o -> get o k = Some v.
Proof.
  induction o as [|[k0 v0] o IH]; cbn; [contradiction|].
  intros Hnd [H | H].
  - injection H as -> ->. rewrite String.eqb_refl. reflexivity.
  - inversion Hnd as [|? ? Hnotin Hnd']; subst.
    destruct (String.eqb_spec k0 k) as [-> | Hk].
    + exfalso. apply Hnotin. apply (in_map fst) in H. exact H.
    + exact (IH Hnd' H).
Qed.

Lemma keys_set o k v :
  map fst (set o k v) = setAdd String.eqb (map fst o) k.
Proof.
  unfold setAdd, setHas. induction o as [|[k0 v0] o IH]; cbn.
  - reflexivity.
  - rewrite (String.eqb_sym k k0).
    destruct (String.eqb k0 k) eqn:E; cbn; [reflexivity|].
    rewrite IH. destruct (existsb (String.eqb k) (map fst o)); reflexivity.
Qed.

Lemma indexed_filter o :
  map snd (indexed o)
  = filter (fun e => match arrayIndex (fst e) with Some _ => true | None => false end) o.
Proof.
  unfold indexed. induction o as [|e o IH]; cbn; [reflexivity|].
  destruct (arrayIndex (fst e)); cbn; rewrite IH; reflexivity.
Qed.

Lemma entries_perm o : Permutation (entries o) o.
Proof.
  unfold entries.
  rewrite (Permutation_map snd (sortBy_perm _ (indexed o))), indexed_filter.
  etransitivity; [|apply filter_split_perm].
  apply Permutation_app_head. unfold named.
  rewrite (filter_ext _
             (fun e => negb match arrayIndex (fst e) with Some _ => true | None => false end)).
  - reflexivity.
  - intros e. destruct (arrayIndex (fst e)); reflexivity.
Qed.

Lemma keys_perm o : Permutation (keys o) (map fst o).
Proof. apply Permutation_map, entries_perm. Qed.

Lemma values_perm o : Permutation (values o) (map snd o).
Proof. apply Permutation_map, entries_perm. Qed.

End ObjectFacts.

Section SetFacts.

Lemma setAdd_NoDup (s : list string) (x : string) :
  NoDup s -> NoDup (setAdd String.eqb s x).
Proof.
  intros H. unfold setAdd, setHas.
  destruct (existsb (String.eqb x) s) eqn:E; [exact H|].
  apply NoDup_app; [exact H | repeat constructor; intros [] |].
  intros y Hy [<- | []].
  assert (existsb (String.eqb x) s = true).
  { apply existsb_exists. exists x. split; [exact Hy | apply String.eqb_refl]. }
  congruence.
Qed.

Lemma setAdd_In (s : list string) (x y : string) :
  In y (setAdd String.eqb s x) <-> In y s \/ y = x.
Proof.
  unfold setAdd, setHas.
  destruct (existsb (String.eqb x) s) eqn:E.
  - apply existsb_exists in E. destruct E as (z & Hz & Ez).
    apply String.eqb_eq in Ez. subst z.
    split; [tauto | intros [H | ->]; assumption].
  - rewrite in_app_iff. cbn. intuition congruence.
Qed.

Lemma setOfList_snoc (l : list string) (x : string) :
  setOfList String.eqb (l ++ [x]) = setAdd String.eqb (setOfList String.eqb l) x.
Proof. unfold setOfList. rewrite fold_left_app. reflexivity. Qed.

Lemma setOfList_NoDup (l : list string) : NoDup (setOfList String.eqb l).
Proof.
  induction l as [|x l IH] using rev_ind.
  - constructor.
  - rewrite setOfList_snoc. apply setAdd_NoDup, IH.
Qed.

Lemma setOfList_In (l : list string) (y : string) :
  In y (setOfList String.eqb l) <-> In y l.
Proof.
  induction l as [|x l IH] using rev_ind.
  - reflexivity.
  - rewrite setOfList_snoc, setAdd_In, in_app_iff, IH. cbn. intuition congruence.
Qed.

End SetFacts.

(* ================================================================== *)
(** * Sums *)
(* ================================================================== *)

Lemma fold_Qcplus_shift (l : list Qc) (a : Qc) :
  fold_left Qcplus l a = (a + fold_left Qcplus l zero)%Qc.
Proof.
  revert a. induction l as [|x l IH]; intros a; cbn.
  - change zero with (Q2Qc 0). ring.
  - rewrite (IH (a + x)%Qc), (IH (zero + x)%Qc).
    change zero with (Q2Qc 0). ring.
Qed.

Lemma sumQc_nil : sumQc [] = zero.
Proof. reflexivity. Qed.

Lemma sumQc_cons (x : Qc) (l : list Qc) : sumQc (x :: l) = (x + sumQc l)%Qc.
Proof.
  unfold sumQc. cbn. rewrite fold_Qcplus_shift.
  change zero with (Q2Qc 0). ring.
Qed.

Lemma sumQc_single (x : Qc) : sumQc [x] = x.
Proof. rewrite sumQc_cons, sumQc_nil. change zero with (Q2Qc 0). ring. Qed.

Lemma sumQc_app (l1 l2 : list Qc) : sumQc (l1 ++ l2) = (sumQc l1 + sumQc l2)%Qc.
Proof.
  induction l1 as [|x l1 IH]; cbn [app].
  - rewrite sumQc_nil. change zero with (Q2Qc 0). ring.
  - rewrite !sumQc_cons, IH. ring.
Qed.


Lemma slotOrZero_Some (a : Qc) : slotOrZero (Some a) = a.
Proof.
  cbn. destruct (Qc_eqb a zero) eqn:E; [|reflexivity].
  apply Qc_eqb_iff in E. congruence.
Qed.


Section BucketFacts.
Variable bucketOf : SalesDataRow -> string.

Lemma sumByBucket_snoc (data : list SalesDataRow) (d : SalesDataRow) :
  sumByBucket bucketOf (data ++ [d]) = addToBucket bucketOf (sumByBucket bucketOf data) d.
Proof. unfold sumByBucket. rewrite fold_left_app. reflexivity. Qed.


Lemma sumByBucket_keys (data : list SalesDataRow) :
  map fst (sumByBucket bucketOf data) = setOfList String.eqb (map bucketOf data).
Proof.
  induction data as [|d data IH] using rev_ind.
  - reflexivity.
  - rewrite sumByBucket_snoc. unfold addToBucket.
    rewrite keys_set, IH, map_app. cbn [map]. rewrite setOfList_snoc. reflexivity.
Qed.

Lemma sumByBucket_NoDup (data : list SalesDataRow) :
  NoDup (map fst (sumByBucket bucketOf data)).
Proof. rewrite sumByBucket_keys. apply setOfList_NoDup. Qed.

End BucketFacts.


Lemma billTotalsOf_sumByBucket (data : list SalesDataRow) :
  billTotalsOf data = sumByBucket BillNumber data.
Proof.
  unfold billTotalsOf, sumByBucket. generalize (@empty Qc).
  induction data as [|d data IH]; intros acc; cbn [fold_left]; [reflexivity|].
  rewrite IH. f_equal. unfold addToBucket.
  destruct (get acc (BillNumber d)) as [a|] eqn:E.
  - destruct (Qc_eqb a zero) eqn:Ea.
    + rewrite get_set_same, set_set. cbn [slotOrZero]. rewrite Ea. reflexivity.
    + rewrite E. cbn [slotOrZero]. rewrite Ea. reflexivity.
  - rewrite get_set_same, set_set. reflexivity.
Qed.

Section BucketContents.
Variable bucketOf : SalesDataRow -> string.

Lemma existsb_false_filter {A : Type} (f : A -> bool) (l : list A) :
  existsb f l = false -> filter f l = [].
Proof.
  induction l as [|x l IH]; cbn; [reflexivity|].
  destruct (f x); cbn; [discriminate | exact IH].
Qed.

Lemma sumByBucket_get (data : list SalesDataRow) (k : string) :
  get (sumByBucket bucketOf data) k
  = if existsb (inBucket bucketOf k) data
    then Some (sumQc (map Revenue (filter (inBucket bucketOf k) data)))
    else None.
Proof.
  induction data as [|d data IH] using rev_ind; [reflexivity|].
  rewrite sumByBucket_snoc. unfold addToBucket.
  rewrite existsb_app, filter_app, map_app, sumQc_app. cbn [existsb filter].
  unfold inBucket at 2 4. rewrite orb_false_r.
  destruct (String.eqb_spec (bucketOf d) k) as [-> | Hne].
  - rewrite get_set_same, orb_true_r. f_equal. rewrite IH.
    cbn [map]. rewrite sumQc_single.
    destruct (existsb (inBucket bucketOf k) data) eqn:E.
    + rewrite slotOrZero_Some. reflexivity.
    + rewrite (existsb_false_filter _ _ E). reflexivity.
  - rewrite get_set_other by congruence. rewrite IH, orb_false_r.
    cbn [map]. rewrite sumQc_nil.
    destruct (existsb (inBucket bucketOf k) data); [|reflexivity].
    f_equal. change zero with (Q2Qc 0). ring.
Qed.

End BucketContents.

Lemma Qc_leb_total (a b : Qc) : Qc_leb a b = true \/ Qc_leb b a = true.
Proof.
  rewrite !Qc_leb_iff. destruct (Qclt_le_dec a b) as [H|H]; [left | right].
  - apply Qclt_le_weak, H.
  - exact H.
Qed.

Lemma Qc_leb_trans (a b c : Qc) :
  Qc_leb a b = true -> Qc_leb b c = true -> Qc_leb a c = true.
Proof. rewrite !Qc_leb_iff. apply Qcle_trans. Qed.

Lemma Qc_leb_antisym (a b : Qc) :
  Qc_leb a b = true -> Qc_leb b a = true -> a = b.
Proof. rewrite !Qc_leb_iff. apply Qcle_antisym. Qed.

Lemma sumByBucket_values (bucketOf : SalesDataRow -> string) (data : list SalesDataRow) :
  map snd (sumByBucket bucketOf data)
  = map (fun k => sumQc (map Revenue (filter (inBucket bucketOf k) data)))
        (setOfList String.eqb (map bucketOf data)).
Proof.
  rewrite <- sumByBucket_keys, map_map.
  apply map_ext_in. intros [k v] Hin. cbn [fst snd].
  pose proof (In_get_Some _ k v (sumByBucket_NoDup bucketOf data) Hin) as Hget.
  rewrite sumByBucket_get in Hget.
  destruct (existsb (inBucket bucketOf k) data); congruence.
Qed.

Lemma sortedBillTotals_spec (data : list SalesDataRow) :
  sortedBillTotals data = sortBy Qc_leb (Spec.billTotals data).
Proof.
  unfold sortedBillTotals.
  apply (sortBy_perm_eq _ Qc_leb_total Qc_leb_trans Qc_leb_antisym).
  rewrite values_perm, billTotalsOf_sumByBucket, sumByBucket_values.
  reflexivity.
Qed.

Lemma floorTimes_nonneg (n : nat) (p : Qc) : (zero <= p)%Qc -> (0 <= floorTimes n p)%Z.
Proof.
  intros Hp. unfold floorTimes, floorQc.
  change 0%Z with (Qfloor 0). apply Qfloor_resp_le.
  rewrite this_mult. unfold QcOfNat. unfold Qcle in Hp. change (this zero) with 0%Q in Hp.
  apply Qmult_le_0_compat; [|exact Hp].
  cbn [this Q2Qc]. rewrite Qred_correct.
  change 0%Q with (inject_Z 0). rewrite <- Zle_Qle. lia.
Qed.

Lemma elementOrZero_nth (arr : list Qc) (i : Z) :
  (0 <= i)%Z -> elementOrZero arr i = nth (Z.to_nat i) arr zero.
Proof.
  intros Hi. unfold elementOrZero.
  destruct (Z.ltb_spec i 0); [lia|].
  destruct (nth_error arr (Z.to_nat i)) as [a|] eqn:E.
  - rewrite slotOrZero_Some. symmetry. apply nth_error_nth. exact E.
  - cbn. symmetry. apply nth_overflow. apply nth_error_None. exact E.
Qed.

Lemma values_nonempty (d : SalesDataRow) (data : list SalesDataRow) :
  values (billTotalsOf (d :: data)) <> [].
Proof.
  intros H.
  assert (Hp := values_perm (billTotalsOf (d :: data))).
  rewrite H in Hp. apply Permutation_nil in Hp.
  apply (f_equal (@List.length _)) in Hp. rewrite length_map in Hp.
  rewrite <- (length_map fst) in Hp.
  rewrite billTotalsOf_sumByBucket, sumByBucket_keys in Hp.
  assert (Hin : In (BillNumber d) (setOfList String.eqb (map BillNumber (d :: data))))
    by (apply setOfList_In; left; reflexivity).
  destruct (setOfList String.eqb (map BillNumber (d :: data))); [contradiction | discriminate].
Qed.

(** C8.  The quantile the source reads off the bill totals is the
    operation of the specification: line items are grouped into
    per-bill totals, the totals are sorted ascending, and the result is
    the element at index [floor(p * length)] (0 when there is none);
    on empty input it is 0.  The enclosing function returns early on
    empty data; for non-empty data it stores the quantiles at 0.25 and
    0.75. *)
Theorem percentile_of_sorted_bill_totals (data : list SalesDataRow) (p : Qc) :
  (zero <= p)%Qc ->
  billTotalQuantile data p = Spec.percentileOfSortedBillTotals data p
  /\ StronglySorted Qcle (sortedBillTotals data)
  /\ billTotalQuantile [] p = zero
  /\ generateCustomerSpendingInsights [] = None
  /\ (data <> [] ->
      exists highest,
        generateCustomerSpendingInsights data
        = Some {| avgSpendLower := formatAmount (billTotalQuantile data quarter);
                  avgSpendUpper := formatAmount (billTotalQuantile data threeQuarters);
                  highestSingleTransaction := highest |}).
Proof.
  intros Hp. split; [|split; [|split; [|split]]].
  - unfold billTotalQuantile, Spec.percentileOfSortedBillTotals, quantileOrZero.
    rewrite sortedBillTotals_spec.
    apply elementOrZero_nth, floorTimes_nonneg, Hp.
  - unfold sortedBillTotals.
    eapply StronglySorted_ind with (P := StronglySorted Qcle).
    3: apply (sortBy_sorted Qc_leb Qc_leb_total Qc_leb_trans).
    + constructor.
    + intros a l _ IH Hall. constructor; [exact IH|].
      eapply Forall_impl; [|exact Hall]. intros b. apply Qc_leb_iff.
  - reflexivity.
  - reflexivity.
  - intros Hne. destruct data as [|d data]; [contradiction|].
    unfold generateCustomerSpendingInsights.
    pose proof (values_nonempty d data) as Hv.
    unfold billTotalQuantile, sortedBillTotals.
    destruct (values (billTotalsOf (d :: data))) as [|t ts]; [contradiction|].
    eexists. reflexivity.
Qed.

(* ================================================================== *)
(** * Product quadrants *)
(* ================================================================== *)

Lemma StronglySorted_impl {A : Type} (R R' : A -> A -> Prop) (l : list A) :
  (forall a b, R a b -> R' a b) -> StronglySorted R l -> StronglySorted R' l.
Proof.
  intros HR. induction 1 as [|a s Hs IH Hall]; constructor; [exact IH|].
  eapply Forall_impl; [|exact Hall]. intros b. apply HR.
Qed.

Module QuadrantFacts.
Import Quadrant.






Section Placing.
Variables avgRevenue avgQuantity : Qc.





End Placing.










Lemma filter_none {A : Type} (f : A -> bool) (l : list A) :
  (forall x, In x l -> f x = false) -> filter f l = [].
Proof.
  induction l as [|x l IH]; intros H; cbn; [reflexivity|].
  rewrite (H x (or_introl eq_refl)). apply IH. intros y Hy. apply H. right. exact Hy.
Qed.


Lemma Qc_leb_refl (a : Qc) : Qc_leb a a = true.
Proof. apply Qc_leb_iff, Qcle_refl. Qed.


End QuadrantFacts.

(* ================================================================== *)
(** * Normalisation of raw rows *)
(* ================================================================== *)





Section ProcessDataFacts.
Variable newDate : value -> option Z.
Variable parseInt10 : value -> number.
Variable parseFloat : value -> number.

Lemma buildEntry_date (rawEntry : object value) :
  cell (buildEntry newDate parseInt10 parseFloat rawEntry) "Sales Date In"
  = VDate (dateOf newDate rawEntry).
Proof. reflexivity. Qed.

Lemma buildEntry_bill (rawEntry : object value) :
  cell (buildEntry newDate parseInt10 parseFloat rawEntry) "Bill Number"
  = cell rawEntry "Bill Number".
Proof. reflexivity. Qed.



Lemma processEntry_cases (rawEntry : object value) :
  processEntry newDate parseInt10 parseFloat rawEntry =
  match dateOf newDate rawEntry with
  | None => inl (InvalidDate (cell rawEntry "Bill Number") (cell rawEntry "Sales Date In"))
  | Some _ => inr (buildEntry newDate parseInt10 parseFloat rawEntry)
  end.
Proof.
  unfold processEntry. rewrite buildEntry_date, buildEntry_bill.
  destruct (dateOf newDate rawEntry); reflexivity.
Qed.


Lemma mapEntries_inr (rows out : list (object value)) :
  mapEntries newDate parseInt10 parseFloat rows = inr out ->
  out = map (buildEntry newDate parseInt10 parseFloat) rows
  /\ forall row, In row rows -> dateOf newDate row <> None.
Proof.
  revert out. induction rows as [|row rows IH]; intros out; cbn [mapEntries map].
  - intros [= <-]. split; [reflexivity | intros row []].
  - rewrite processEntry_cases. destruct (dateOf newDate row) eqn:E; [|discriminate].
    destruct (mapEntries newDate parseInt10 parseFloat rows) as [e | entries]; [discriminate|].
    intros [= <-]. destruct (IH entries eq_refl) as [-> Hall].
    split; [reflexivity|]. intros r [<- | Hr]; [congruence | exact (Hall r Hr)].
Qed.



Lemma processData_inr (jsonData out : list (object value)) :
  processData newDate parseInt10 parseFloat jsonData = inr out ->
  out = map (buildEntry newDate parseInt10 parseFloat) (filter isValidRow jsonData).
Proof.
  unfold processData.
  destruct (filter isValidRow jsonData) as [|firstRow rest]; [discriminate|].
  destruct (firstMissing firstRow requiredColumns); [discriminate|].
  intros H. apply mapEntries_inr in H. apply H.
Qed.



End ProcessDataFacts.

(* ================================================================== *)
(** * Peak hour *)
(* ================================================================== *)

Lemma to_uint_nonnil (n : N) : N.to_uint n <> Decimal.Nil.
Proof.
  destruct n as [|p]; cbn.
  - discriminate.
  - apply DecimalPos.Unsigned.to_uint_nonnil.
Qed.

Lemma parseIntDigits_stringOfNat (h : nat) : parseIntDigits (stringOfNat h) = Some h.
Proof.
  unfold parseIntDigits, stringOfNat, digitsOfN.
  rewrite NilZero.usu by apply to_uint_nonnil.
  rewrite DecimalN.Unsigned.of_to, Nat2N.id. reflexivity.
Qed.

Lemma stringOfNat_inj (h h' : nat) : stringOfNat h = stringOfNat h' -> h = h'.
Proof.
  intros H. apply (f_equal parseIntDigits) in H.
  rewrite !parseIntDigits_stringOfNat in H. congruence.
Qed.

Section PeakHourFacts.
Variable getHours : Date -> nat.

Lemma addHourBill_set (acc : object (list string)) (d : SalesDataRow) :
  addHourBill getHours acc d
  = set acc (hourKey getHours d)
        (setAdd String.eqb
           (match get acc (hourKey getHours d) with Some bills => bills | None => [] end)
           (BillNumber d)).
Proof.
  unfold addHourBill.
  destruct (get acc (hourKey getHours d)) as [bills|] eqn:E.
  - rewrite E. reflexivity.
  - rewrite get_set_same, set_set. reflexivity.
Qed.

Lemma hourlyBillsOf_snoc (data : list SalesDataRow) (d : SalesDataRow) :
  hourlyBillsOf getHours (data ++ [d]) = addHourBill getHours (hourlyBillsOf getHours data) d.
Proof. unfold hourlyBillsOf. rewrite fold_left_app. reflexivity. Qed.

Lemma hourlyBillsOf_get (data : list SalesDataRow) (k : string) :
  get (hourlyBillsOf getHours data) k
  = if existsb (fun d => String.eqb (hourKey getHours d) k) data
    then Some (billsAt getHours k data)
    else None.
Proof.
  induction data as [|d data IH] using rev_ind; [reflexivity|].
  rewrite hourlyBillsOf_snoc, addHourBill_set.
  unfold billsAt. rewrite existsb_app, filter_app, map_app. cbn [existsb filter].
  rewrite orb_false_r.
  destruct (String.eqb_spec (hourKey getHours d) k) as [-> | Hne].
  - rewrite get_set_same, orb_true_r, IH. cbn [map]. rewrite setOfList_snoc.
    destruct (existsb _ data) eqn:E; [reflexivity|].
    unfold billsAt. rewrite (existsb_false_filter _ _ E). reflexivity.
  - rewrite get_set_other by congruence. rewrite IH, orb_false_r.
    cbn [map]. rewrite app_nil_r. reflexivity.
Qed.

Lemma hourlyBillsOf_keys (data : list SalesDataRow) :
  map fst (hourlyBillsOf getHours data) = setOfList String.eqb (map (hourKey getHours) data).
Proof.
  induction data as [|d data IH] using rev_ind; [reflexivity|].
  rewrite hourlyBillsOf_snoc, addHourBill_set, keys_set, IH, map_app.
  cbn [map]. rewrite setOfList_snoc. reflexivity.
Qed.

Lemma billsAt_hour (data : list SalesDataRow) (h : nat) :
  List.length (billsAt getHours (stringOfNat h) data) = Spec.distinctBillsAt getHours data h.
Proof.
  unfold billsAt, Spec.distinctBillsAt. do 3 f_equal.
  apply filter_ext. intros d. unfold hourKey.
  destruct (Nat.eqb_spec (hourOf getHours d) h) as [-> | Hne].
  - apply String.eqb_refl.
  - apply String.eqb_neq. intros H. apply Hne, stringOfNat_inj, H.
Qed.

Lemma hourlyTraffic_sound (data : list SalesDataRow) (t : HourTraffic) :
  In t (hourlyTrafficOf getHours data) ->
  exists d, In d data
            /\ hour t = Some (hourOf getHours d)
            /\ count t = Spec.distinctBillsAt getHours data (hourOf getHours d).
Proof.
  unfold hourlyTrafficOf. rewrite in_map_iff. intros ([k bills] & <- & Hin).
  apply (Permutation_in _ (entries_perm _)) in Hin.
  assert (Hk : In k (map fst (hourlyBillsOf getHours data)))
    by (apply in_map_iff; exists (k, bills); auto).
  rewrite hourlyBillsOf_keys, setOfList_In, in_map_iff in Hk.
  destruct Hk as (d & <- & Hd).
  apply In_get_Some in Hin;
    [|rewrite hourlyBillsOf_keys; apply setOfList_NoDup].
  rewrite hourlyBillsOf_get in Hin.
  destruct (existsb _ data); [|discriminate]. injection Hin as <-.
  exists d. cbn [hour count fst snd]. split; [exact Hd|]. split.
  - apply parseIntDigits_stringOfNat.
  - apply billsAt_hour.
Qed.

Lemma hourlyTraffic_complete (data : list SalesDataRow) (d : SalesDataRow) :
  In d data ->
  In {| hour := Some (hourOf getHours d);
        count := Spec.distinctBillsAt getHours data (hourOf getHours d) |}
     (hourlyTrafficOf getHours data).
Proof.
  intros Hd. unfold hourlyTrafficOf. apply in_map_iff.
  exists ((hourKey getHours) d, billsAt getHours (hourKey getHours d) data). split.
  - cbn [fst snd]. unfold hourKey at 1. rewrite parseIntDigits_stringOfNat.
    unfold setSize. unfold hourKey. rewrite billsAt_hour. reflexivity.
  - apply (Permutation_in _ (Permutation_sym (entries_perm _))).
    apply get_Some_In. rewrite hourlyBillsOf_get.
    assert (E : existsb (fun d' => String.eqb (hourKey getHours d') (hourKey getHours d)) data
                = true).
    { apply existsb_exists. exists d. split; [exact Hd | apply String.eqb_refl]. }
    rewrite E. reflexivity.
Qed.

Lemma byCountDescending_head (traffic : list HourTraffic) :
  traffic <> [] ->
  exists top rest,
    byCountDescending traffic = top :: rest
    /\ In top traffic
    /\ forall t, In t traffic -> count t <= count top.
Proof.
  intros Hne. unfold byCountDescending.
  set (le := fun a b : HourTraffic => (count b <=? count a)%nat).
  assert (Hs : StronglySorted (fun a b => le a b = true) (sortBy le traffic)).
  { apply sortBy_sorted; unfold le.
    - intros a b. rewrite !Nat.leb_le. lia.
    - intros a b c. rewrite !Nat.leb_le. lia. }
  pose proof (sortBy_perm le traffic) as Hp.
  destruct (sortBy le traffic) as [|top rest].
  - apply Permutation_nil in Hp. contradiction.
  - exists top, rest. split; [reflexivity|]. split.
    + apply (Permutation_in _ Hp). left. reflexivity.
    + intros t Ht. apply (Permutation_in _ (Permutation_sym Hp)) in Ht.
      inversion Hs as [|? ? _ Hall]; subst.
      destruct Ht as [<- | Ht]; [lia|].
      rewrite Forall_forall in Hall. specialize (Hall t Ht).
      unfold le in Hall. apply Nat.leb_le in Hall. exact Hall.
Qed.

(** The peak hour is an hour with the largest number of distinct bills,
    except that hour 0 is reported as 12. *)
Lemma peakHourOf_argmax (data : list SalesDataRow) :
  data <> [] ->
  exists h : nat,
    In h (map (hourOf getHours) data)
    /\ (forall h', In h' (map (hourOf getHours) data) ->
          Spec.distinctBillsAt getHours data h' <= Spec.distinctBillsAt getHours data h)
    /\ peakHourOf getHours data = match h with O => 12 | S _ => h end.
Proof.
  intros Hne.
  assert (Htraffic : hourlyTrafficOf getHours data <> []).
  { destruct data as [|d data]; [contradiction|].
    intros H. pose proof (hourlyTraffic_complete (d :: data) d (or_introl eq_refl)) as Hin.
    rewrite H in Hin. contradiction. }
  destruct (byCountDescending_head _ Htraffic) as (top & rest & Hsort & Hin & Hmax).
  destruct (hourlyTraffic_sound _ _ Hin) as (d & Hd & Hhour & Hcount).
  exists (hourOf getHours d). split; [apply in_map; exact Hd|]. split.
  - intros h' Hh'. apply in_map_iff in Hh'. destruct Hh' as (d' & <- & Hd').
    rewrite <- Hcount.
    apply (Hmax _ (hourlyTraffic_complete data d' Hd')).
  - unfold peakHourOf. rewrite Hsort, Hhour.
    destruct (hourOf getHours d); reflexivity.
Qed.

End PeakHourFacts.

(* ================================================================== *)
(** * Customer segments *)
(* ================================================================== *)

Lemma set_NoDup {V : Type} (o : object V) (k : string) (v : V) :
  NoDup (map fst o) -> NoDup (map fst (set o k v)).
Proof. intros H. rewrite keys_set. apply setAdd_NoDup, H. Qed.

Lemma values_In {V : Type} (o : object V) (v : V) :
  NoDup (map fst o) ->
  (In v (values o) <-> exists k, get o k = Some v).
Proof.
  intros Hnd. unfold values. rewrite in_map_iff. split.
  - intros ([k v'] & <- & Hin). exists k.
    apply In_get_Some; [exact Hnd|].
    apply (Permutation_in _ (entries_perm o)). exact Hin.
  - intros (k & Hk). exists (k, v). split; [reflexivity|].
    apply (Permutation_in _ (Permutation_sym (entries_perm o))).
    apply get_Some_In. exact Hk.
Qed.

Module CustomerFacts.
Import Customers Spec.

Lemma optionStringEqb_eq (a b : option string) : optionStringEqb a b = true <-> a = b.
Proof.
  destruct a as [x|], b as [y|]; cbn; try (split; [discriminate | intros H; discriminate H]).
  - rewrite String.eqb_eq. split; [intros ->; reflexivity | intros [= ->]; reflexivity].
  - split; reflexivity.
Qed.

Lemma setHas_setOfList (l : list (option string)) (x : option string) :
  setHas optionStringEqb (setOfList optionStringEqb l) x = true <-> In x l.
Proof.
  assert (Hadd : forall s y, setHas optionStringEqb (setAdd optionStringEqb s y) x = true
                            <-> setHas optionStringEqb s x = true \/ x = y).
  { intros s y. unfold setAdd.
    destruct (setHas optionStringEqb s y) eqn:E.
    - split; [tauto|]. intros [H | ->]; assumption.
    - unfold setHas. rewrite existsb_app. cbn. rewrite orb_false_r, orb_true_iff.
      rewrite optionStringEqb_eq. reflexivity. }
  induction l as [|y l IH] using rev_ind.
  - cbn. split; [discriminate | contradiction].
  - unfold setOfList in *. rewrite fold_left_app. cbn [fold_left].
    rewrite Hadd, IH, in_app_iff. cbn. intuition congruence.
Qed.

(** The name of a profile is the customer it was built for. *)
Lemma profileOf_name (customer : string) (rows : list SalesDataRow) (p : Profile) :
  profileOf customer rows = Some p -> name p = customer.
Proof.
  unfold profileOf. destruct (rowsOf customer rows); [discriminate|].
  intros [= <-]. reflexivity.
Qed.

Lemma customerProfilesOf_snoc (rows : list SalesDataRow) (d : SalesDataRow) :
  customerProfilesOf (rows ++ [d]) = addToProfile (customerProfilesOf rows) d.
Proof. unfold customerProfilesOf. rewrite fold_left_app. reflexivity. Qed.

Lemma rowsOf_snoc (customer : string) (rows : list SalesDataRow) (d : SalesDataRow) :
  rowsOf customer (rows ++ [d])
  = (rowsOf customer rows
     ++ (if optionStringEqb (CustomerName d) (Some customer) then [d] else []))%list.
Proof. unfold rowsOf. rewrite filter_app. reflexivity. Qed.

Lemma profileOf_snoc_same (customer : string) (rows : list SalesDataRow) (d : SalesDataRow) :
  CustomerName d = Some customer ->
  profileOf customer (rows ++ [d])
  = Some (match profileOf customer rows with
          | None =>
              {| name := customer; bills := setAdd String.eqb [] (BillNumber d);
                 firstSeen := SalesDateIn d; totalSpend := (zero + Revenue d)%Qc |}
          | Some p =>
              {| name := customer;
                 bills := setAdd String.eqb (bills p) (BillNumber d);
                 firstSeen := if (SalesDateIn d <? firstSeen p)%Z then SalesDateIn d
                              else firstSeen p;
                 totalSpend := (totalSpend p + Revenue d)%Qc |}
          end).
Proof.
  intros Hd. unfold profileOf. rewrite rowsOf_snoc, Hd.
  rewrite (proj2 (optionStringEqb_eq _ _) eq_refl).
  destruct (rowsOf customer rows) as [|first rest]; cbn [app].
  - reflexivity.
  - cbn [bills firstSeen totalSpend].
    change (first :: rest ++ [d])%list with ((first :: rest) ++ [d])%list.
    rewrite !map_app.
    change (map BillNumber [d]) with [BillNumber d].
    change (map Revenue [d]) with [Revenue d].
    rewrite setOfList_snoc. unfold earliest, sumQc.
    rewrite !fold_left_app. reflexivity.
Qed.

Lemma customerProfilesOf_get (rows : list SalesDataRow) (customer : string) :
  get (customerProfilesOf rows) customer = profileOf customer rows.
Proof.
  induction rows as [|d rows IH] using rev_ind; [reflexivity|].
  rewrite customerProfilesOf_snoc. unfold addToProfile.
  destruct (CustomerName d) as [c|] eqn:Ec.
  - destruct (String.eqb_spec c customer) as [-> | Hne].
    + rewrite (profileOf_snoc_same _ _ _ Ec), <- IH.
      destruct (get (customerProfilesOf rows) customer) as [p|] eqn:Eg.
      * rewrite Eg, get_set_same. f_equal. f_equal.
        symmetry in IH. apply (profileOf_name _ _ _ IH).
      * rewrite get_set_same, set_set, get_set_same.
        cbn [name bills firstSeen totalSpend]. rewrite Z.ltb_irrefl. reflexivity.
    + assert (Hother : profileOf customer (rows ++ [d]) = profileOf customer rows).
      { unfold profileOf. rewrite rowsOf_snoc, Ec.
        destruct (optionStringEqb (Some c) (Some customer)) eqn:E.
        - apply optionStringEqb_eq in E. congruence.
        - rewrite app_nil_r. reflexivity. }
      rewrite Hother, <- IH.
      destruct (get (customerProfilesOf rows) c) as [p|] eqn:Eg.
      * rewrite Eg. apply get_set_other. congruence.
      * rewrite get_set_same, set_set. apply get_set_other. congruence.
  - unfold profileOf. rewrite rowsOf_snoc, Ec. cbn. rewrite app_nil_r. exact IH.
Qed.

Lemma customerProfilesOf_NoDup (rows : list SalesDataRow) :
  NoDup (map fst (customerProfilesOf rows)).
Proof.
  induction rows as [|d rows IH] using rev_ind; [constructor|].
  rewrite customerProfilesOf_snoc. unfold addToProfile.
  destruct (CustomerName d) as [c|]; [|exact IH].
  destruct (get (customerProfilesOf rows) c) as [p|] eqn:Eg.
  - rewrite Eg. apply set_NoDup, IH.
  - rewrite get_set_same. apply set_NoDup, set_NoDup, IH.
Qed.

Lemma rowsOf_named (customer : string) (allData : list SalesDataRow) :
  customer <> "" ->
  rowsOf customer (filter hasCustomerName allData) = rowsOf customer allData.
Proof.
  intros Hne. unfold rowsOf. induction allData as [|d l IH]; cbn [filter]; [reflexivity|].
  destruct (optionStringEqb (CustomerName d) (Some customer)) eqn:E.
  - apply optionStringEqb_eq in E. unfold hasCustomerName at 1. rewrite E.
    destruct (String.eqb_spec customer ""); [contradiction|].
    cbn [negb filter]. rewrite (proj2 (optionStringEqb_eq _ _) E), IH. reflexivity.
  - destruct (hasCustomerName d); cbn [filter]; rewrite ?E; exact IH.
Qed.

Lemma rowsOf_blank (allData : list SalesDataRow) :
  rowsOf "" (filter hasCustomerName allData) = [].
Proof.
  unfold rowsOf. induction allData as [|d l IH]; cbn [filter]; [reflexivity|].
  unfold hasCustomerName at 1.
  destruct (CustomerName d) as [c|] eqn:Ec; [|exact IH].
  destruct (String.eqb_spec c "") as [-> | Hne]; cbn [negb]; [exact IH|].
  cbn [filter]. rewrite Ec.
  destruct (optionStringEqb (Some c) (Some "")) eqn:E; [|exact IH].
  apply optionStringEqb_eq in E. congruence.
Qed.

(** X12.  What [generateCustomerAnalysisInsights] returns, customer by
    customer: the profiles of the three lists are those of the
    customers of the whole history that appear in [currentData]; such
    a customer is loyal exactly when
    the whole history holds more than two distinct bills of theirs, and
    new exactly when the earliest date of their history lies in the
    period. *)
Lemma segments_by_customer
    (currentData allData : list SalesDataRow) (periodStart periodEnd : Date)
    (s : Segments) :
  generateCustomerAnalysisInsights currentData allData periodStart periodEnd = Some s ->
  forall p : Profile,
    (In p (loyalCustomers s)
     <-> activeProfile currentData allData p /\ 2 < List.length (bills p))
    /\ (In p (newCustomers s)
        <-> activeProfile currentData allData p
            /\ (periodStart <= firstSeen p)%Z /\ (firstSeen p <= periodEnd)%Z).
Proof.
  unfold generateCustomerAnalysisInsights.
  destruct (filter hasCustomerName allData) as [|d0 named] eqn:En; [discriminate|].
  rewrite <- En. intros [= <-] p. cbn [loyalCustomers newCustomers].
  set (active := activeProfile currentData allData p).
  assert (Hactive :
    In p (filter (fun p => setHas optionStringEqb
                             (setOfList optionStringEqb (map CustomerName currentData))
                             (Some (name p)))
                 (values (customerProfilesOf (filter hasCustomerName allData))))
    <-> active).
  { rewrite filter_In, setHas_setOfList,
      (values_In _ _ (customerProfilesOf_NoDup _)).
    unfold active, activeProfile. split.
    - intros [(k & Hk) Hcur]. rewrite customerProfilesOf_get in Hk.
      assert (Hname : name p = k) by apply (profileOf_name _ _ _ Hk).
      subst k.
      assert (Hne : name p <> "").
      { intros E. unfold profileOf in Hk. rewrite E, rowsOf_blank in Hk. discriminate. }
      split; [exact Hne|]. split; [|exact Hcur].
      unfold profileOf in *. rewrite <- (rowsOf_named _ _ Hne). exact Hk.
    - intros (Hne & Hp & Hcur). split; [|exact Hcur].
      exists (name p). rewrite customerProfilesOf_get.
      unfold profileOf in *. rewrite (rowsOf_named _ _ Hne). exact Hp. }
  split.
  - rewrite filter_In, Hactive, Nat.ltb_lt. reflexivity.
  - rewrite filter_In, Hactive, andb_true_iff, !Z.leb_le. reflexivity.
Qed.

End CustomerFacts.

(* ================================================================== *)
(** * Witnesses and evaluations on the sample data *)
(* ================================================================== *)

Import Samples.

Example fourBills_quarter : billTotalQuantile fourBills quarter = amount 20.
Proof. apply Qc_is_canon. vm_compute. reflexivity. Qed.

Lemma percentile_of_sorted_bill_totals_witness :
  (zero <= quarter)%Qc
  /\ map (fun q => this q) (sortedBillTotals fourBills) = [10%Q; 20%Q; 30%Q; 40%Q]
  /\ billTotalQuantile fourBills quarter
     = Spec.percentileOfSortedBillTotals fourBills quarter
  /\ Spec.percentileOfSortedBillTotals fourBills quarter = amount 20.
Proof.
  assert (H : (zero <= quarter)%Qc) by (unfold Qcle; vm_compute; discriminate).
  split; [exact H|]. split; [vm_compute; reflexivity|].
  split.
  - exact (proj1 (percentile_of_sorted_bill_totals fourBills quarter H)).
  - apply Qc_is_canon. vm_compute. reflexivity.
Defined.


Example fourBills_quadrants :
  option_map
    (fun q => (map Quadrant.name (Quadrant.star q), map Quadrant.name (Quadrant.cashcow q),
               map Quadrant.name (Quadrant.horse q), map Quadrant.name (Quadrant.dog q)))
    (Quadrant.generateProductQuadrantChart fourBills "MAKANAN")
  = Some (["Sate"; "Nasi Goreng"], [], [], ["Mie Ayam"]).
Proof. vm_compute. reflexivity. Qed.

(** C5, on data whose busiest hour is the one after midnight.  The
    histogram has three bills at hour 0 and one at hour 13, so its
    argmax is hour 0; the function reports the window 12.00 to 14.00,
    because [sorted[0]?.hour || 12] takes the hour 0 for a missing
    value. *)
Theorem peak_hour_after_midnight_reported_as_noon :
  hourlyTrafficOf utcHours midnightRush
  = [ {| hour := Some 0; count := 3 |}; {| hour := Some 13; count := 1 |} ]
  /\ peakHourOf utcHours midnightRush = 12
  /\ generatePeakHourAnalysis utcHours midnightRush
     = Some {| peakHour1Start := "12.00"; peakHour1End := "14.00";
               popularMenu1 := "Sate"; popularMenu2 := "";
               popularMenu3 := ""; popularMenu4 := "";
               avgCheckPeak1Min := "30.000"; avgCheckPeak1Max := "30.000" |}.
Proof. repeat split; vm_compute; reflexivity. Qed.

(** C2, on a customer with three bills in their history of which one
    falls in the current window.  The customer has a single distinct
    bill in the window and is classified as loyal all the same: the
    test reads the bill set of the profile, which is built from the
    entire history.  (The customer is rightly not new: the first bill
    predates the window.) *)
Theorem loyal_counts_bills_of_whole_history :
  billsOf "Ana" anaWindow = ["INV-3"]
  /\ exists s : Customers.Segments,
       Customers.generateCustomerAnalysisInsights
         anaWindow anaHistory anaWindowStart anaWindowEnd = Some s
       /\ map Customers.name (Customers.loyalCustomers s) = ["Ana"]
       /\ map Customers.bills (Customers.loyalCustomers s) = [["INV-1"; "INV-2"; "INV-3"]]
       /\ map Customers.name (Customers.newCustomers s) = [].
Proof.
  split; [vm_compute; reflexivity|].
  eexists. split; [reflexivity|].
  repeat split; vm_compute; reflexivity.
Qed.



Module CacheFacts.
Import Cache.

(** The paging loop never runs out of rounds: with at least
    [totalBills - fetchedData.length] of them, one more changes
    nothing. *)
Lemma fetchPages_fuel (remote : Remote) (totalBills : nat) :
  forall (fuel : nat) (fetchedData : list SalesDataRow)
         (lastVisible : option SalesDataRow) (w : World),
    totalBills - List.length fetchedData <= fuel ->
    fetchPages remote (S fuel) totalBills fetchedData lastVisible w
    = fetchPages remote fuel totalBills fetchedData lastVisible w.
Proof.
  induction fuel as [|fuel IH]; intros fetchedData lastVisible w Hfuel.
  - cbn [fetchPages].
    destruct (Nat.ltb_spec (List.length fetchedData) totalBills); [lia | reflexivity].
  - change (fetchPages remote (S (S fuel)) totalBills fetchedData lastVisible w)
      with ((if (List.length fetchedData <? totalBills)%nat
             then bind (request (QueryPage lastVisible PAGE_SIZE)
                                (billsPage remote lastVisible PAGE_SIZE))
                       (fun page =>
                          match page with
                          | [] => ret fetchedData
                          | first :: others =>
                              fetchPages remote (S fuel) totalBills
                                         (fetchedData ++ page)%list
                                         (Some (List.last others first))
                          end)
             else ret fetchedData) w).
    change (fetchPages remote (S fuel) totalBills fetchedData lastVisible w)
      with ((if (List.length fetchedData <? totalBills)%nat
             then bind (request (QueryPage lastVisible PAGE_SIZE)
                                (billsPage remote lastVisible PAGE_SIZE))
                       (fun page =>
                          match page with
                          | [] => ret fetchedData
                          | first :: others =>
                              fetchPages remote fuel totalBills
                                         (fetchedData ++ page)%list
                                         (Some (List.last others first))
                          end)
             else ret fetchedData) w).
    destruct (List.length fetchedData <? totalBills)%nat; [|reflexivity].
    unfold bind, request.
    destruct (billsPage remote lastVisible PAGE_SIZE) as [[|first others]|];
      try reflexivity.
    apply IH. rewrite length_app. cbn [List.length]. lia.
Qed.

(** C4.  When a cached snapshot exists and its upload count equals the
    count reported by the remote store, the handler analyses exactly
    the cached records, leaves the cache as it is, and sends no request
    besides the count of uploads: no request that transfers records is
    added to the log. *)
Theorem valid_cache_needs_no_fetch
    (remote : Remote) (user : string) (w : World) (c : CachedResult) :
  cache w = Some c ->
  uploadsCount remote = Some (uploadCount c) ->
  viewCompiled remote (Some user) w
  = (Analysed (data c),
     {| cache := Some c; requests := requests w ++ [CountUploads]; clock := clock w |})
  /\ filter isPageFetch (requests (snd (viewCompiled remote (Some user) w)))
     = filter isPageFetch (requests w).
Proof.
  intros Hc Hn.
  assert (E : viewCompiled remote (Some user) w
              = (Analysed (data c),
                 {| cache := Some c; requests := requests w ++ [CountUploads];
                    clock := clock w |})).
  { unfold viewCompiled, reconcile, bind, request, getCachedData.
    rewrite Hn. cbn [cache]. rewrite Hc, N.eqb_refl. reflexivity. }
  split; [exact E|].
  rewrite E. cbn [snd requests]. rewrite filter_app. cbn. apply app_nil_r.
Qed.

Lemma valid_cache_needs_no_fetch_witness :
  cache worldThree = Some cachedThree
  /\ uploadsCount remoteThree = Some (uploadCount cachedThree)
  /\ viewCompiled remoteThree (Some "uid-1") worldThree
     = (Analysed fourBills,
        {| cache := Some cachedThree; requests := [CountUploads]; clock := clock worldThree |}).
Proof.
  split; [reflexivity|]. split; [reflexivity|].
  exact (proj1 (valid_cache_needs_no_fetch remoteThree "uid-1" worldThree cachedThree
                  eq_refl eq_refl)).
Defined.

End CacheFacts.

(* ================================================================== *)
(** * The cache, beyond the valid case *)
(* ================================================================== *)

Module CacheMore.
Import Cache.

Lemma latestDate_fold (rows : list SalesDataRow) (start : Z) :
  let cursor := fold_left (fun latest item =>
                             if (latest <? SalesDateIn item)%Z then SalesDateIn item else latest)
                          rows start in
  (start <= cursor)%Z
  /\ (forall d, In d rows -> (SalesDateIn d <= cursor)%Z)
  /\ (cursor = start \/ exists d, In d rows /\ SalesDateIn d = cursor).
Proof.
  revert start. induction rows as [|r rows IH]; intros start; cbn [fold_left].
  - split; [lia|]. split; [intros d []|left; reflexivity].
  - specialize (IH (if (start <? SalesDateIn r)%Z then SalesDateIn r else start)).
    cbv zeta in IH. destruct IH as (Hge & Hall & Hmem).
    destruct (Z.ltb_spec start (SalesDateIn r)) as [Hlt|Hle].
    + split; [lia|]. split.
      * intros d [<-|Hd]; [exact Hge | apply Hall, Hd].
      * right. destruct Hmem as [->|(d & Hd & E)].
        -- exists r. split; [left; reflexivity | reflexivity].
        -- exists d. split; [right; exact Hd | exact E].
    + split; [exact Hge|]. split.
      * intros d [<-|Hd]; [lia | apply Hall, Hd].
      * destruct Hmem as [->|(d & Hd & E)]; [left; reflexivity|].
        right. exists d. split; [right; exact Hd | exact E].
Qed.

(** X1.  What [saveCompiledData] stores is what [getCachedData] returns:
    the rows, the count of uploads and the time of the call; the date
    kept as the mark of the last transaction is not before the epoch,
    no row is later than it, and it is the date of one of the rows
    unless it is the epoch itself. *)
Theorem saved_cursor_bounds_rows (rows : list SalesDataRow) (count : N) (w : World) :
  exists c : CachedResult,
    getCachedData (snd (saveCompiledData rows count w))
    = (Some (Some c), snd (saveCompiledData rows count w))
    /\ data c = rows /\ uploadCount c = count /\ timestamp c = clock w
    /\ exists cursor : Date,
         lastTransactionDate c = Some cursor
         /\ (0 <= cursor)%Z
         /\ (forall d, In d rows -> (SalesDateIn d <= cursor)%Z)
         /\ (cursor = 0%Z \/ exists d, In d rows /\ SalesDateIn d = cursor).
Proof.
  eexists. split; [reflexivity|]. cbn.
  split; [reflexivity|]. split; [reflexivity|]. split; [reflexivity|].
  exists (latestDate rows). split; [reflexivity|].
  exact (latestDate_fold rows 0%Z).
Qed.

(** The paging loop leaves the cache and the clock alone, adds only page
    queries to the log, and sends at most one per round. *)
Lemma fetchPages_effects (remote : Remote) (totalBills : nat) :
  forall (fuel : nat) (fetchedData : list SalesDataRow)
         (lastVisible : option SalesDataRow) (w : World),
    let w' := snd (fetchPages remote fuel totalBills fetchedData lastVisible w) in
    cache w' = cache w /\ clock w' = clock w
    /\ exists queries : list Request,
         requests w' = (requests w ++ queries)%list
         /\ List.length queries <= fuel
         /\ List.length queries <= totalBills - List.length fetchedData
         /\ Forall (fun r => exists cursor, r = QueryPage cursor PAGE_SIZE) queries.
Proof.
  induction fuel as [|fuel IH]; intros fetchedData lastVisible w.
  - cbn [fetchPages].
    destruct (List.length fetchedData <? totalBills)%nat; cbn;
      (split; [reflexivity|]; split; [reflexivity|]; exists []; rewrite app_nil_r;
       split; [reflexivity|]; split; [cbn; lia|]; split; [cbn; lia | constructor]).
  - cbn [fetchPages].
    destruct (Nat.ltb_spec (List.length fetchedData) totalBills) as [Hlt|Hge].
    + unfold bind, request.
      destruct (billsPage remote lastVisible PAGE_SIZE) as [[|first others]|] eqn:Epage.
      * cbn. split; [reflexivity|]. split; [reflexivity|].
        exists [QueryPage lastVisible PAGE_SIZE]. split; [reflexivity|].
        split; [cbn; lia|]. split; [cbn; lia|].
        constructor; [eexists; reflexivity | constructor].
      * match goal with
        | |- context [fetchPages remote fuel totalBills ?f ?l ?w0] =>
            specialize (IH f l w0)
        end.
        cbv zeta in IH. destruct IH as (Hc & Hk & queries & Hq & Hlen & Hlen' & Hall).
        cbv zeta. rewrite Hc, Hk. cbn [cache clock].
        split; [reflexivity|]. split; [reflexivity|].
        exists (QueryPage lastVisible PAGE_SIZE :: queries).
        split; [rewrite Hq; cbn [requests]; rewrite <- app_assoc; reflexivity|].
        rewrite length_app in Hlen'. cbn [List.length] in Hlen' |- *.
        split; [lia|]. split; [lia|].
        constructor; [eexists; reflexivity | exact Hall].
      * cbn. split; [reflexivity|]. split; [reflexivity|].
        exists [QueryPage lastVisible PAGE_SIZE]. split; [reflexivity|].
        split; [cbn; lia|]. split; [cbn; lia|].
        constructor; [eexists; reflexivity | constructor].
    + cbn. split; [reflexivity|]. split; [reflexivity|]. exists [].
      rewrite app_nil_r. split; [reflexivity|]. split; [cbn; lia|]. split; [cbn; lia|].
      constructor.
Qed.


Lemma fullRefresh_effects (remote : Remote) (currentUploadCount : N) (w : World) :
  let w' := snd (fullRefresh remote currentUploadCount w) in
  clock w' = clock w
  /\ (forall fetchedData, fst (fullRefresh remote currentUploadCount w) = Some (Some fetchedData) ->
        cache w'
        = Some {| data := fetchedData; uploadCount := currentUploadCount;
                  timestamp := clock w;
                  lastTransactionDate := Some (latestDate fetchedData) |})
  /\ ((forall fetchedData, fst (fullRefresh remote currentUploadCount w) <> Some (Some fetchedData)) ->
        cache w' = cache w)
  /\ exists queries : list Request,
       requests w'
       = (requests w ++ (if (0 <? currentUploadCount)%N then [CountBills] else []) ++ queries)%list
       /\ Forall (fun r => exists cursor, r = QueryPage cursor PAGE_SIZE) queries
       /\ (forall totalBills, billsCount remote = Some totalBills ->
             List.length queries <= N.to_nat totalBills)
       /\ (currentUploadCount = 0%N -> queries = []).
Proof.
  unfold fullRefresh, bind.
  destruct (0 <? currentUploadCount)%N eqn:Epos.
  - unfold request.
    destruct (billsCount remote) as [totalBills|] eqn:Ecount; cbv beta iota.
    + destruct (totalBills =? 0)%N eqn:Ezero.
      * cbn. split; [reflexivity|]. split; [intros f [=]|]. split; [reflexivity|].
        exists []. split; [reflexivity|]. split; [constructor|].
        split; [intros t _; cbn; lia | reflexivity].
      * match goal with
        | |- context [fetchPages remote ?fuel ?t ?f ?l ?w0] =>
            pose proof (fetchPages_effects remote t fuel f l w0) as H;
            destruct (fetchPages remote fuel t f l w0) as [[fetched|] w1] eqn:Efetch
        end; cbv zeta in H; cbn [snd] in H;
          destruct H as (Hc & Hk & queries & Hq & Hlen & _ & Hall);
          cbn [cache clock requests] in Hc, Hk, Hq.
        -- cbn. rewrite Hk. split; [reflexivity|].
           split; [intros f [= <-]; reflexivity|].
           split; [intros Hno; exfalso; exact (Hno fetched eq_refl)|].
           exists queries. split; [rewrite Hq, <- app_assoc; reflexivity|].
           split; [exact Hall|]. split; [intros t [= <-]; exact Hlen|].
           intros ->. discriminate Epos.
        -- cbn. split; [exact Hk|]. split; [intros f [=]|]. split; [intros _; exact Hc|].
           exists queries. split; [rewrite Hq, <- app_assoc; reflexivity|].
           split; [exact Hall|]. split; [intros t [= <-]; exact Hlen|].
           intros ->. discriminate Epos.
    + cbn. split; [reflexivity|]. split; [intros f [=]|]. split; [reflexivity|].
      exists []. split; [reflexivity|]. split; [constructor|].
      split; [intros t [=] | reflexivity].
  - cbn. split; [reflexivity|]. split; [intros f [=]|]. split; [reflexivity|].
    exists []. rewrite app_nil_r. split; [reflexivity|]. split; [constructor|].
    split; [intros t _; cbn; lia | reflexivity].
Qed.


(** What [reconcile] does to the world, by its result. *)
Lemma reconcile_effects (remote : Remote) (w : World) :
  clock (snd (reconcile remote w)) = clock w
  /\ ((forall finalData, fst (reconcile remote w) <> Some (Some finalData)) ->
        cache (snd (reconcile remote w)) = cache w)
  /\ (forall finalData, fst (reconcile remote w) = Some (Some finalData) ->
        exists c, cache (snd (reconcile remote w)) = Some c
                  /\ data c = finalData
                  /\ uploadsCount remote = Some (uploadCount c)).
Proof.
  unfold reconcile, bind, request, getCachedData.
  destruct (uploadsCount remote) as [n|] eqn:En; cbv beta iota; cbn [cache requests clock].
  2:{ cbn. split; [reflexivity|]. split; [reflexivity | intros f [=]]. }
  set (w1 := {| cache := cache w; requests := (requests w ++ [CountUploads])%list;
                clock := clock w |}).
  pose proof (fullRefresh_effects remote n w1) as Hfull. cbv zeta in Hfull.
  destruct Hfull as (Hk & Hsaved & Hkept & _).
  assert (Hfull : clock (snd (fullRefresh remote n w1)) = clock w
                  /\ ((forall finalData,
                         fst (fullRefresh remote n w1) <> Some (Some finalData)) ->
                      cache (snd (fullRefresh remote n w1)) = cache w)
                  /\ (forall finalData,
                        fst (fullRefresh remote n w1) = Some (Some finalData) ->
                        exists c, cache (snd (fullRefresh remote n w1)) = Some c
                                  /\ data c = finalData /\ Some n = Some (uploadCount c))).
  { split; [exact Hk|]. split; [exact Hkept|].
    intros f Hf. rewrite (Hsaved f Hf). eexists. split; [reflexivity|].
    split; reflexivity. }
  destruct (cache w) as [c|] eqn:Ec; [|exact Hfull].
  destruct (N.eqb_spec (uploadCount c) n) as [Heq|Hne].
  - cbn. split; [reflexivity|]. split; [intros _; reflexivity|].
    intros f [= <-]. exists c. rewrite Heq. split; [reflexivity|].
    split; reflexivity.
  - destruct (uploadCount c <? n)%N; [|exact Hfull].
    destruct (lastTransactionDate c) as [lastFetchDate|]; [|exact Hfull].
    destruct (billsNewerThan remote lastFetchDate) as [newData|]; cbn.
    + split; [reflexivity|].
      split; [intros Hno; exfalso; exact (Hno _ eq_refl)|].
      intros f [= <-]. eexists. split; [reflexivity|]. split; reflexivity.
    + split; [reflexivity|]. split; [intros _; reflexivity | intros f [=]].
Qed.

(** X2.  A click that does not reach the analysis, because nobody is signed
    in, because a request was rejected or because no sales data
    exists, leaves the cache as it was: rows fetched before a rejected
    request are not stored. *)
Theorem unfinished_click_keeps_cache
    (remote : Remote) (currentUser : option string) (w : World) :
  (forall finalData, fst (viewCompiled remote currentUser w) <> Analysed finalData) ->
  cache (snd (viewCompiled remote currentUser w)) = cache w.
Proof.
  unfold viewCompiled. destruct currentUser as [user|]; [|reflexivity].
  destruct (reconcile_effects remote w) as (_ & Hkept & _).
  destruct (reconcile remote w) as [[[finalData|]|] w'] eqn:E; cbn [fst snd] in *.
  - intros H. exfalso. exact (H finalData eq_refl).
  - intros _. apply Hkept. intros f. discriminate.
  - intros _. apply Hkept. intros f. discriminate.
Qed.

(** X3.  After a click that reached the analysis the cache holds the
    analysed rows under the count of uploads that the remote store
    reports, so that the next click, with that count unchanged,
    analyses the same rows, sends the count request only and leaves
    the cache alone. *)
Theorem second_click_is_served_from_cache
    (remote : Remote) (user user' : string) (w w' : World)
    (finalData : list SalesDataRow) :
  viewCompiled remote (Some user) w = (Analysed finalData, w') ->
  (exists c, cache w' = Some c /\ data c = finalData
             /\ uploadsCount remote = Some (uploadCount c))
  /\ viewCompiled remote (Some user') w'
     = (Analysed finalData,
        {| cache := cache w'; requests := requests w' ++ [CountUploads];
           clock := clock w' |}).
Proof.
  unfold viewCompiled at 1.
  destruct (reconcile_effects remote w) as (_ & _ & Hsaved).
  destruct (reconcile remote w) as [[[f|]|] w1] eqn:E; cbn [fst snd] in *;
    intros [= <- <-].
  destruct (Hsaved f eq_refl) as (c & Hc & Hdata & Hcount).
  split; [exists c; split; [exact Hc | split; [exact Hdata | exact Hcount]]|].
  unfold viewCompiled, reconcile, bind, request, getCachedData.
  rewrite Hcount. cbn [cache]. rewrite Hc, N.eqb_refl, Hdata. reflexivity.
Qed.

(** X4.  Case 2 of the handler.  With a cache that reflects fewer uploads
    than the remote store reports and that carries the mark of its
    last transaction, the handler asks for the count of uploads and
    for the rows later than the mark, and for nothing else; it analyses
    the cached rows followed by the new ones, and stores them under
    the new count. *)
Theorem stale_cache_fetches_only_newer
    (remote : Remote) (user : string) (w : World) (c : CachedResult)
    (n : N) (cursor : Date) (newData : list SalesDataRow) :
  cache w = Some c ->
  uploadsCount remote = Some n ->
  (uploadCount c < n)%N ->
  lastTransactionDate c = Some cursor ->
  billsNewerThan remote cursor = Some newData ->
  viewCompiled remote (Some user) w
  = (Analysed (data c ++ newData),
     {| cache := Some {| data := data c ++ newData; uploadCount := n;
                         timestamp := clock w;
                         lastTransactionDate := Some (latestDate (data c ++ newData)) |};
        requests := requests w ++ [CountUploads; QueryNewer cursor];
        clock := clock w |}).
Proof.
  intros Hc Hn Hlt Hcursor Hnew.
  unfold viewCompiled, reconcile, bind, request, getCachedData.
  rewrite Hn. cbn [cache requests clock]. rewrite Hc.
  destruct (N.eqb_spec (uploadCount c) n) as [Heq|_]; [lia|].
  destruct (N.ltb_spec (uploadCount c) n) as [_|Hge]; [|lia].
  rewrite Hcursor, Hnew. cbn. rewrite <- app_assoc. reflexivity.
Qed.

(** X5.  Case 3 of the handler, without a cache.  After the count of
    uploads, and the count of bills when there is an upload, the
    handler sends page queries only, each of [PAGE_SIZE] rows and no
    more of them than there are bills; with no upload or no bill it
    sends none and reports that there is no sales data. *)
Theorem full_refresh_sends_bounded_queries
    (remote : Remote) (user : string) (w : World) (n totalBills : N) :
  cache w = None ->
  uploadsCount remote = Some n ->
  billsCount remote = Some totalBills ->
  exists queries : list Request,
    requests (snd (viewCompiled remote (Some user) w))
    = (requests w ++ [CountUploads]
       ++ (if (0 <? n)%N then [CountBills] else []) ++ queries)%list
    /\ Forall (fun r => exists lastVisible, r = QueryPage lastVisible PAGE_SIZE) queries
    /\ List.length queries <= N.to_nat totalBills
    /\ (n = 0%N \/ totalBills = 0%N ->
        queries = [] /\ fst (viewCompiled remote (Some user) w) = NoSalesData).
Proof.
  intros Hc Hn Hbills.
  unfold viewCompiled, reconcile, bind, request, getCachedData.
  rewrite Hn. cbn [cache requests clock]. rewrite Hc.
  set (w1 := {| cache := None; requests := (requests w ++ [CountUploads])%list;
                clock := clock w |}).
  destruct (fullRefresh_effects remote n w1) as (_ & _ & _ & queries & Hq & Hall & Hlen & Hzero).
  exists queries.
  assert (Hsnd : snd (let (o, w') := fullRefresh remote n w1 in
                      match o with
                      | Some (Some finalData) => (Analysed finalData, w')
                      | Some None => (NoSalesData, w')
                      | None => (Failed, w')
                      end)
                 = snd (fullRefresh remote n w1)).
  { destruct (fullRefresh remote n w1) as [[[f|]|] w']; reflexivity. }
  rewrite Hsnd, Hq. cbn [requests w1]. rewrite <- app_assoc.
  split; [reflexivity|]. split; [exact Hall|]. split; [exact (Hlen _ Hbills)|].
  intros Hnone.
  assert (Hq0 : queries = []).
  { destruct Hnone as [H0|H0]; [exact (Hzero H0)|].
    specialize (Hlen _ Hbills). rewrite H0 in Hlen.
    destruct queries; [reflexivity | cbn in Hlen; lia]. }
  split; [exact Hq0|].
  unfold fullRefresh, bind, request. rewrite Hbills.
  destruct Hnone as [-> | ->]; [reflexivity|].
  destruct (0 <? n)%N; reflexivity.
Qed.

End CacheMore.

(* ================================================================== *)
(** * The spending range *)
(* ================================================================== *)

Lemma sorted_nth_le {A : Type} (le : A -> A -> bool) (d : A) (l : list A) :
  (forall a, le a a = true) ->
  StronglySorted (fun a b => le a b = true) l ->
  forall i j, i <= j -> j < List.length l -> le (nth i l d) (nth j l d) = true.
Proof.
  intros Hrefl Hsorted. induction Hsorted as [|x l Hs IH Hall]; intros i j Hij Hj.
  - cbn in Hj. lia.
  - destruct j as [|j].
    + assert (i = 0) as -> by lia. apply Hrefl.
    + cbn [List.length] in Hj. destruct i as [|i].
      * cbn [nth]. rewrite Forall_forall in Hall. apply Hall, nth_In. lia.
      * cbn [nth]. apply IH; lia.
Qed.

Lemma QcOfNat_nonneg (n : nat) : (zero <= QcOfNat n)%Qc.
Proof.
  unfold QcOfNat, zero, Qcle, Q2Qc. cbn [this]. rewrite !Qred_correct.
  change 0%Q with (inject_Z 0). rewrite <- Zle_Qle. lia.
Qed.

Lemma floorTimes_mono (n : nat) (p q : Qc) :
  (p <= q)%Qc -> (floorTimes n p <= floorTimes n q)%Z.
Proof.
  intros Hpq. unfold floorTimes, floorQc. apply Qfloor_resp_le.
  change (QcOfNat n * p <= QcOfNat n * q)%Qc.
  rewrite (Qcmult_comm _ p), (Qcmult_comm _ q).
  apply Qcmult_le_compat_r; [exact Hpq | apply QcOfNat_nonneg].
Qed.

Lemma floorTimes_below (n : nat) (q : Qc) :
  0 < n -> (q < 1)%Qc -> (floorTimes n q < Z.of_nat n)%Z.
Proof.
  intros Hn Hq. unfold floorTimes, floorQc.
  rewrite Zlt_Qlt. eapply Qle_lt_trans; [apply Qfloor_le|].
  assert (H : (QcOfNat n * q < QcOfNat n * 1)%Qc).
  { rewrite (Qcmult_comm _ q), (Qcmult_comm _ 1%Qc).
    apply Qcmult_lt_compat_r; [|exact Hq].
    unfold QcOfNat, Qclt, Q2Qc. cbn [this]. rewrite !Qred_correct.
    change 0%Q with (inject_Z 0). rewrite <- Zlt_Qlt. lia. }
  rewrite Qcmult_1_r in H. unfold Qclt in H.
  eapply Qlt_le_trans; [exact H|].
  unfold QcOfNat, Q2Qc. cbn [this]. rewrite Qred_correct. apply Qle_refl.
Qed.

(** On an ascending array the quantile grows with [p]. *)
Lemma quantileOrZero_mono (sorted : list Qc) (p q : Qc) :
  StronglySorted (fun a b => Qc_leb a b = true) sorted ->
  (zero <= p)%Qc -> (p <= q)%Qc -> (q < 1)%Qc ->
  (quantileOrZero sorted p <= quantileOrZero sorted q)%Qc.
Proof.
  intros Hsorted Hp Hpq Hq. unfold quantileOrZero.
  destruct sorted as [|x rest] eqn:E.
  - unfold elementOrZero, floorTimes, floorQc. cbn [List.length QcOfNat].
    assert (H0 : forall r : Qc, (QcOfNat 0 * r)%Qc = zero) by (intros r; change (QcOfNat 0) with (Q2Qc 0); change zero with (Q2Qc 0); ring).
    rewrite !H0. cbn. apply Qcle_refl.
  - rewrite <- E in *. assert (Hn : 0 < List.length sorted) by (rewrite E; cbn; lia).
    pose proof (floorTimes_nonneg (List.length sorted) p Hp) as Hi.
    pose proof (floorTimes_mono (List.length sorted) p q Hpq) as Hij.
    pose proof (floorTimes_below (List.length sorted) q Hn Hq) as Hj.
    rewrite !elementOrZero_nth by lia.
    apply Qc_leb_iff. apply sorted_nth_le; [apply QuadrantFacts.Qc_leb_refl | exact Hsorted | lia | lia].
Qed.

Lemma quantileOrZero_In (sorted : list Qc) (q : Qc) :
  sorted <> [] -> (zero <= q)%Qc -> (q < 1)%Qc -> In (quantileOrZero sorted q) sorted.
Proof.
  intros Hne Hq Hq1. unfold quantileOrZero.
  assert (Hn : 0 < List.length sorted) by (destruct sorted; [contradiction | cbn; lia]).
  pose proof (floorTimes_nonneg (List.length sorted) q Hq) as Hi.
  pose proof (floorTimes_below (List.length sorted) q Hn Hq1) as Hj.
  rewrite elementOrZero_nth by lia. apply nth_In. lia.
Qed.

Lemma maxOf_ge_first (others : list Qc) (first : Qc) : (first <= maxOf first others)%Qc.
Proof.
  unfold maxOf. revert first. induction others as [|y others IH]; intros first; cbn [fold_left].
  - apply Qcle_refl.
  - eapply Qcle_trans; [|apply IH]. unfold maxQc.
    destruct (Qc_leb first y) eqn:E; [apply Qc_leb_iff, E | apply Qcle_refl].
Qed.

Lemma maxOf_ge (others : list Qc) (first x : Qc) :
  In x (first :: others) -> (x <= maxOf first others)%Qc.
Proof.
  unfold maxOf. revert first. induction others as [|y others IH]; intros first Hin.
  - destruct Hin as [<-|[]]. apply Qcle_refl.
  - cbn [fold_left]. destruct Hin as [<-|[<-|Hin]].
    + eapply Qcle_trans; [|apply (maxOf_ge_first others)]. unfold maxQc.
      destruct (Qc_leb first y) eqn:E; [apply Qc_leb_iff, E | apply Qcle_refl].
    + eapply Qcle_trans; [|apply (maxOf_ge_first others)]. unfold maxQc.
      destruct (Qc_leb first y) eqn:E; [apply Qcle_refl|].
      destruct (Qc_leb_total first y) as [H|H]; [congruence | apply Qc_leb_iff, H].
    + apply IH. right. exact Hin.
Qed.

Lemma quarter_bounds :
  (zero <= quarter)%Qc /\ (quarter <= threeQuarters)%Qc /\ (threeQuarters < 1)%Qc
  /\ (zero <= threeQuarters)%Qc.
Proof. unfold Qcle, Qclt. repeat split; vm_compute; congruence. Qed.

(** X6.  The three amounts of [generateCustomerSpendingInsights] are totals
    of bills of the rows, in order: the lower end of the spending range
    does not exceed the upper end, which does not exceed the highest
    single transaction, and no bill totals more than the latter. *)
Theorem spending_range_is_ordered (data : list SalesDataRow) :
  data <> [] ->
  exists lower upper highest : Qc,
    generateCustomerSpendingInsights data
    = Some {| avgSpendLower := formatAmount lower;
              avgSpendUpper := formatAmount upper;
              highestSingleTransaction := formatAmount highest |}
    /\ (lower <= upper)%Qc /\ (upper <= highest)%Qc
    /\ In lower (values (billTotalsOf data))
    /\ In upper (values (billTotalsOf data))
    /\ In highest (values (billTotalsOf data))
    /\ forall total, In total (values (billTotalsOf data)) -> (total <= highest)%Qc.
Proof.
  intros Hne. destruct data as [|d data]; [contradiction|].
  destruct quarter_bounds as (H0 & Hqq & H1 & H0').
  unfold generateCustomerSpendingInsights.
  pose proof (values_nonempty d data) as Hv.
  destruct (values (billTotalsOf (d :: data))) as [|t ts] eqn:E; [contradiction|].
  pose proof (sortBy_sorted Qc_leb Qc_leb_total Qc_leb_trans (t :: ts)) as Hsorted.
  assert (Hsne : sortBy Qc_leb (t :: ts) <> []).
  { intros Hnil. apply (f_equal (@List.length Qc)) in Hnil.
    rewrite sortBy_length in Hnil. discriminate Hnil. }
  exists (quantileOrZero (sortBy Qc_leb (t :: ts)) quarter),
         (quantileOrZero (sortBy Qc_leb (t :: ts)) threeQuarters),
         (maxOf t ts).
  split; [reflexivity|].
  split; [apply quantileOrZero_mono; assumption|].
  assert (Hup : In (quantileOrZero (sortBy Qc_leb (t :: ts)) threeQuarters) (t :: ts)).
  { apply (sortBy_In Qc_leb). apply quantileOrZero_In; assumption. }
  split; [apply maxOf_ge; exact Hup|].
  split; [apply (sortBy_In Qc_leb), quantileOrZero_In; try assumption;
          exact (Qcle_lt_trans _ _ _ Hqq H1)|].
  split; [exact Hup|].
  split; [|intros total Hin; apply maxOf_ge; exact Hin].
  clear. unfold maxOf. revert t. induction ts as [|y ts IH]; intros t; cbn [fold_left].
  - left. reflexivity.
  - specialize (IH (maxQc t y)). destruct IH as [IH|IH].
    + unfold maxQc in IH at 1. destruct (Qc_leb t y); [right; left | left]; exact IH.
    + right. right. exact IH.
Qed.

(* ================================================================== *)
(** * utils/string.ts: shortened numbers and dates *)
(* ================================================================== *)

Lemma this_Q2Qc (q : Q) : (this (Q2Qc q) == q)%Q.
Proof. unfold Q2Qc. cbn [this]. apply Qred_correct. Qed.

Lemma this_inv (a : Qc) : (this (/ a)%Qc == / this a)%Q.
Proof. unfold Qcinv. apply this_Q2Qc. Qed.

Lemma this_div (a b : Qc) : (this (a / b)%Qc == this a / this b)%Q.
Proof. unfold Qcdiv. rewrite this_mult, this_inv. reflexivity. Qed.

Lemma pow10_pos (decimals : nat) : (0 < this (pow10 decimals))%Q.
Proof.
  unfold pow10. rewrite this_Q2Qc. change 0%Q with (inject_Z 0). rewrite <- Zlt_Qlt.
  apply Z.pow_pos_nonneg; lia.
Qed.

Lemma pow10_nonzero (decimals : nat) : Qc_eqb (pow10 decimals) zero = false.
Proof.
  destruct (Qc_eqb (pow10 decimals) zero) eqn:E; [|reflexivity].
  apply Qc_eqb_iff in E. pose proof (pow10_pos decimals) as H. rewrite E in H.
  exfalso. revert H. vm_compute. discriminate.
Qed.





Lemma sortedKeys_eq :
  sortedKeys = [Fin (pow10 15); Fin (pow10 12); Fin (pow10 9); Fin (pow10 6); Fin (pow10 3)].
Proof. vm_compute. reflexivity. Qed.

Lemma pow10_leb (i j : nat) : i <= j -> Qc_leb (pow10 i) (pow10 j) = true.
Proof.
  intros H. apply Qc_leb_iff. unfold Qcle, pow10. rewrite !this_Q2Qc, <- Zle_Qle.
  apply Z.pow_le_mono_r; lia.
Qed.

Lemma above_pow10 (a : Qc) (i j : nat) :
  i <= j -> Qc_leb (pow10 j) a = true -> Qc_ltb a (pow10 i) = false.
Proof.
  intros Hij H. rewrite Qc_ltb_leb. apply negb_false_iff.
  exact (Qc_leb_trans _ _ _ (pow10_leb i j Hij) H).
Qed.

Section ShortenFacts.
Variable platformToString : Qc -> string.

(** X26.  [shortenNumber] by the size of its argument: below a thousand,
    negative numbers included, the number is printed as it is; from a
    thousand on it is divided by the largest of the five units that it
    reaches, cut to one decimal, and followed by the suffix of that
    unit, whatever the order of the units in the table.  [NaN] and
    [-Infinity] are printed as they are, [Infinity] with the suffix of
    the largest unit. *)
Theorem shortenNumber_ranges :
  (forall a : Qc,
     let short := fun divisor =>
       shortText platformToString (truncateToFixed (Fin (a / divisor)%Qc) 1) in
     shortenNumber platformToString (Fin a)
     = if Qc_ltb a (pow10 3) then numberToString platformToString (Fin a)
       else if Qc_ltb a (pow10 6) then short (pow10 3) ++ "rb"
       else if Qc_ltb a (pow10 9) then short (pow10 6) ++ "jt"
       else if Qc_ltb a (pow10 12) then short (pow10 9) ++ "m"
       else if Qc_ltb a (pow10 15) then short (pow10 12) ++ "t"
       else short (pow10 15) ++ "kd")
  /\ shortenNumber platformToString NaN = "NaN"
  /\ shortenNumber platformToString NegInf = "-Infinity"
  /\ shortenNumber platformToString PosInf = "Infinitykd".
Proof.
  split; [|split; [vm_compute; reflexivity | split; vm_compute; reflexivity]].
  intros a short. unfold shortenNumber. rewrite sortedKeys_eq. cbn [find ge].
  assert (Hdiv : forall k, div (Fin a) (Fin (pow10 k)) = Fin (a / pow10 k)%Qc).
  { intros k. cbn [div]. rewrite pow10_nonzero. reflexivity. }
  assert (Hs3 : suffixOf platformToString (Fin (pow10 3)) = "rb") by (vm_compute; reflexivity).
  assert (Hs6 : suffixOf platformToString (Fin (pow10 6)) = "jt") by (vm_compute; reflexivity).
  assert (Hs9 : suffixOf platformToString (Fin (pow10 9)) = "m") by (vm_compute; reflexivity).
  assert (Hs12 : suffixOf platformToString (Fin (pow10 12)) = "t") by (vm_compute; reflexivity).
  assert (Hs15 : suffixOf platformToString (Fin (pow10 15)) = "kd") by (vm_compute; reflexivity).
  destruct (Qc_leb (pow10 15) a) eqn:E15.
  { rewrite (above_pow10 a 3 15), (above_pow10 a 6 15), (above_pow10 a 9 15),
      (above_pow10 a 12 15), (above_pow10 a 15 15) by (lia || exact E15).
    rewrite Hdiv, Hs15. reflexivity. }
  destruct (Qc_leb (pow10 12) a) eqn:E12.
  { rewrite (above_pow10 a 3 12), (above_pow10 a 6 12), (above_pow10 a 9 12),
      (above_pow10 a 12 12) by (lia || exact E12).
    rewrite (Qc_ltb_leb a (pow10 15)), E15. cbn [negb].
    rewrite Hdiv, Hs12. reflexivity. }
  destruct (Qc_leb (pow10 9) a) eqn:E9.
  { rewrite (above_pow10 a 3 9), (above_pow10 a 6 9), (above_pow10 a 9 9)
      by (lia || exact E9).
    rewrite (Qc_ltb_leb a (pow10 12)), E12. cbn [negb].
    rewrite Hdiv, Hs9. reflexivity. }
  destruct (Qc_leb (pow10 6) a) eqn:E6.
  { rewrite (above_pow10 a 3 6), (above_pow10 a 6 6) by (lia || exact E6).
    rewrite (Qc_ltb_leb a (pow10 9)), E9. cbn [negb].
    rewrite Hdiv, Hs6. reflexivity. }
  destruct (Qc_leb (pow10 3) a) eqn:E3.
  { rewrite (above_pow10 a 3 3) by (lia || exact E3).
    rewrite (Qc_ltb_leb a (pow10 6)), E6. cbn [negb].
    rewrite Hdiv, Hs3. reflexivity. }
  rewrite (Qc_ltb_leb a (pow10 3)), E3. reflexivity.
Qed.

End ShortenFacts.

Section ShortenDateFacts.
Variable newDate : value -> option Z.
Variable getFullYear : Z -> Z.
Variable getMonth : Z -> nat.
Variable getDate : Z -> nat.
Variable currentYear : Z.

Lemma sameYear_current (year : option Z) :
  sameYear year (Some (Some currentYear)) = true <-> year = Some currentYear.
Proof.
  destruct year as [y|]; cbn; [|split; discriminate].
  rewrite Z.eqb_eq. split; [intros ->; reflexivity | intros [= ->]; reflexivity].
Qed.

(** The test of [shortenDate], on the years. *)
Lemma allCurrentYear_iff (dateYear : option Z) (allYears : list (option Z)) :
  forallb (fun year => sameYear year (hd_error allYears)) allYears
  && sameYear dateYear (hd_error allYears)
  && sameYear dateYear (Some (Some currentYear)) = true
  <-> allYears <> []
      /\ Forall (fun year => year = Some currentYear) allYears
      /\ dateYear = Some currentYear.
Proof.
  rewrite !andb_true_iff, sameYear_current, forallb_forall, Forall_forall. split.
  - intros [[Hall Hfirst] ->].
    destruct allYears as [|first rest]; [discriminate Hfirst|].
    cbn [hd_error] in *.
    assert (Efirst : first = Some currentYear).
    { destruct first as [y0|]; [|discriminate Hfirst].
      cbn in Hfirst. apply Z.eqb_eq in Hfirst. congruence. }
    subst first. split; [discriminate|]. split; [|reflexivity].
    intros year Hin. apply sameYear_current, Hall, Hin.
  - intros (Hne & Hall & ->).
    destruct allYears as [|first rest]; [contradiction|].
    cbn [hd_error].
    assert (Efirst : first = Some currentYear) by (apply Hall; left; reflexivity).
    subst first. split; [split|reflexivity].
    + intros year Hin. apply sameYear_current, Hall, Hin.
    + apply sameYear_current. reflexivity.
Qed.

(** The same test, on the dates. *)
Lemma allCurrentYear_dates_iff (date : value) (dates : list value) :
  forallb (fun year => sameYear year (hd_error (map (yearOf newDate getFullYear) dates)))
          (map (yearOf newDate getFullYear) dates)
  && sameYear (yearOf newDate getFullYear date)
              (hd_error (map (yearOf newDate getFullYear) dates))
  && sameYear (yearOf newDate getFullYear date) (Some (Some currentYear)) = true
  <-> dates <> []
      /\ Forall (fun v => yearOf newDate getFullYear v = Some currentYear) dates
      /\ yearOf newDate getFullYear date = Some currentYear.
Proof.
  rewrite allCurrentYear_iff, Forall_map.
  split; intros (H1 & H2 & H3); (split; [|split; assumption]).
  - intros ->. apply H1. reflexivity.
  - intros E. apply H1. destruct dates; [reflexivity | discriminate E].
Qed.

(** X27.  [shortenDate] leaves the year out exactly when the context is not
    empty and the date and every date of the context are valid dates
    of the current year; without a context the year is always shown. *)
Theorem shortenDate_omits_year_iff (date : value) (allDates : list value) :
  let inCurrentYear := fun v => yearOf newDate getFullYear v = Some currentYear in
  let allCurrentYear := allDates <> [] /\ Forall inCurrentYear allDates /\ inCurrentYear date in
  (allCurrentYear ->
   shortenDate newDate getFullYear getMonth getDate currentYear date allDates
   = dayMonth newDate getMonth getDate date)
  /\ (~ allCurrentYear ->
      shortenDate newDate getFullYear getMonth getDate currentYear date allDates
      = dayMonthYear newDate getFullYear getMonth getDate date)
  /\ shortenDate newDate getFullYear getMonth getDate currentYear date []
     = dayMonthYear newDate getFullYear getMonth getDate date.
Proof.
  intros inCurrentYear allCurrentYear.
  unfold shortenDate. split; [|split].
  - intros H. apply allCurrentYear_dates_iff in H. rewrite H. reflexivity.
  - intros H.
    destruct (forallb _ _ && _ && _) eqn:E; [|reflexivity].
    exfalso. apply H, allCurrentYear_dates_iff, E.
  - cbn [map hd_error forallb andb].
    destruct (yearOf newDate getFullYear date); reflexivity.
Qed.

(** X28.  [shortenDateTickCallback] on a label of the chart: the year is left
    out exactly when every label of the chart is a valid date of the
    current year. *)
Theorem tick_labels_omit_year_iff (labels : list string) (index : nat) (label : string) :
  nth_error labels index = Some label ->
  let inCurrentYear := fun l => yearOf newDate getFullYear (VString l) = Some currentYear in
  (Forall inCurrentYear labels ->
   shortenDateTickCallback newDate getFullYear getMonth getDate currentYear labels index
   = dayMonth newDate getMonth getDate (VString label))
  /\ (~ Forall inCurrentYear labels ->
      shortenDateTickCallback newDate getFullYear getMonth getDate currentYear labels index
      = dayMonthYear newDate getFullYear getMonth getDate (VString label)).
Proof.
  intros Hnth inCurrentYear. unfold shortenDateTickCallback, shortenDate. rewrite Hnth.
  assert (Hin : In label labels) by (eapply nth_error_In; exact Hnth).
  pose proof (allCurrentYear_dates_iff (VString label) (map VString labels)) as Hiff.
  rewrite Forall_map in Hiff.
  split.
  - intros Hall. rewrite (proj2 Hiff); [reflexivity|].
    split; [destruct labels; [destruct Hin | discriminate]|].
    split; [exact Hall|]. rewrite Forall_forall in Hall. apply Hall, Hin.
  - intros Hnot.
    match goal with
    | |- (if ?b then _ else _) = _ => assert (E : b = false)
    end.
    { apply not_true_iff_false. intros E. apply Hnot. apply Hiff in E. apply E. }
    rewrite E. reflexivity.
Qed.

End ShortenDateFacts.

(* ================================================================== *)
(** * The store and the summary of the period *)
(* ================================================================== *)

Module StoreFacts.
Import Store.

Section Assign.
Context {V : Type}.

Lemma get_fold_set (l : list (string * V)) (store : object V) (key : string) :
  NoDup (map fst l) ->
  get (fold_left (fun target e => set target (fst e) (snd e)) l store) key
  = match get l key with
    | Some v => Some v
    | None => get store key
    end.
Proof.
  revert store. induction l as [|[k v] l IH]; intros store Hnd; [reflexivity|].
  cbn [map fst] in Hnd. apply NoDup_cons_iff in Hnd. destruct Hnd as [Hk Hnd].
  cbn [fold_left fst snd get]. rewrite (IH _ Hnd).
  destruct (String.eqb_spec k key) as [-> | Hne].
  - rewrite (proj2 (get_None_iff l key) Hk). apply get_set_same.
  - destruct (get l key); [reflexivity|]. apply get_set_other. congruence.
Qed.

Lemma get_entries (o : object V) (key : string) :
  NoDup (map fst o) -> get (entries o) key = get o key.
Proof.
  intros Hnd.
  assert (Hnd' : NoDup (map fst (entries o))).
  { eapply Permutation_NoDup; [|exact Hnd].
    apply Permutation_sym, Permutation_map, entries_perm. }
  destruct (get o key) as [v|] eqn:E.
  - apply In_get_Some; [exact Hnd'|].
    apply (Permutation_in _ (Permutation_sym (entries_perm o))), get_Some_In, E.
  - apply get_None_iff. intros Hin. apply (proj1 (get_None_iff o key) E).
    apply (Permutation_in _ (Permutation_map fst (entries_perm o))). exact Hin.
Qed.

Lemma get_setStoreObj (store obj : object V) (key : string) :
  NoDup (map fst obj) ->
  get (setStoreObj store obj) key
  = match get obj key with
    | Some v => Some v
    | None => get store key
    end.
Proof.
  intros Hnd. unfold setStoreObj. rewrite get_fold_set, get_entries; [reflexivity | exact Hnd|].
  eapply Permutation_NoDup; [|exact Hnd].
  apply Permutation_sym, Permutation_map, entries_perm.
Qed.

Lemma fold_set_NoDup (l : list (string * V)) (store : object V) :
  NoDup (map fst store) ->
  NoDup (map fst (fold_left (fun target e => set target (fst e) (snd e)) l store)).
Proof.
  revert store. induction l as [|[k v] l IH]; intros store Hnd; [exact Hnd|].
  cbn [fold_left]. apply IH, set_NoDup, Hnd.
Qed.

(** X18.  [Object.assign] into the store: a key of [obj] reads as in [obj]
    afterwards, every other key as before, and no key is lost. *)
Theorem setStoreObj_merges (store obj : object V) :
  NoDup (map fst obj) ->
  (forall key,
     getStore (setStoreObj store obj) key
     = match get obj key with
       | Some v => Some v
       | None => getStore store key
       end)
  /\ (forall key, In key (map fst (setStoreObj store obj))
                  <-> In key (map fst store) \/ In key (map fst obj))
  /\ (NoDup (map fst store) -> NoDup (map fst (setStoreObj store obj))).
Proof.
  intros Hnd. split; [intros key; apply get_setStoreObj, Hnd|]. split.
  - intros key.
    assert (H : ~ In key (map fst (setStoreObj store obj))
                <-> ~ (In key (map fst store) \/ In key (map fst obj))).
    { rewrite <- !get_None_iff, get_setStoreObj by exact Hnd.
      destruct (get obj key) eqn:E.
      - split; [discriminate|]. intros H. exfalso. apply H. right.
        apply get_Some_In in E. apply (in_map fst) in E. exact E.
      - apply get_None_iff in E. rewrite get_None_iff. tauto. }
    destruct (in_dec string_dec key (map fst (setStoreObj store obj))) as [Hin|Hin];
      destruct (in_dec string_dec key (map fst store)) as [H1|H1];
      destruct (in_dec string_dec key (map fst obj)) as [H2|H2]; tauto.
  - intros Hs. apply fold_set_NoDup, Hs.
Qed.

End Assign.

End StoreFacts.

Module SetupFacts.
Import Store AnalysisSetup StoreFacts.








Ltac read_store :=
  unfold getStore, setupAnalysis, setStore;
  repeat first [ rewrite get_set_same | rewrite get_set_other by discriminate ].



Lemma setStore_frame {V : Type} (store : object V) (key key' : string) (v : V) :
  key' <> key -> get (setStore store key v) key' = get store key'.
Proof. apply get_set_other. Qed.

(** X21.  [setupAnalysis] writes its twelve keys and nothing else. *)
Theorem setupAnalysis_writes_only_its_keys
    (store : object StoreValue) (currentData lastPeriodData : list SalesDataRow)
    (key : string) :
  (In key setupKeys ->
   getStore (setupAnalysis store currentData lastPeriodData) key <> None)
  /\ (~ In key setupKeys ->
      getStore (setupAnalysis store currentData lastPeriodData) key = getStore store key).
Proof.
  split.
  - intros Hin. unfold setupKeys in Hin. cbn [In] in Hin.
    repeat (destruct Hin as [<- | Hin]; [read_store; discriminate|]).
    destruct Hin.
  - intros Hnot. unfold setupKeys in Hnot. cbn [In] in Hnot.
    unfold getStore, setupAnalysis.
    repeat (rewrite setStore_frame; [|intros ->; apply Hnot; tauto]).
    reflexivity.
Qed.

End SetupFacts.

Module SummaryFacts.
Import Store AnalysisSetup Summary StoreFacts SetupFacts.

Lemma append_inj_l (k a b : string) : k ++ a = k ++ b -> a = b.
Proof.
  induction k as [|c k IH]; cbn; [intros H; exact H|].
  intros [= H]. apply IH, H.
Qed.

Lemma pdfKeys_NoDup (key : string) :
  NoDup [key ++ "UpOrDown"; key ++ "Percentage"; key ++ "PlusOrMinus"; key ++ "Difference"].
Proof.
  repeat constructor; cbn [In]; intros H;
    repeat (destruct H as [H|H]; [apply append_inj_l in H; discriminate H|]);
    exact H.
Qed.

(** [calculateForPdf] writes the four keys made from [key] and nothing
    else. *)
Lemma calculateForPdf_frame (store : object StoreValue) (key key' : string)
    (currentValue previousValue : number) :
  ~ In key' [key ++ "UpOrDown"; key ++ "Percentage"; key ++ "PlusOrMinus";
             key ++ "Difference"] ->
  get (calculateForPdf store key currentValue previousValue) key' = get store key'.
Proof.
  intros Hnot. unfold calculateForPdf.
  destruct (strictEqZero (VNumber previousValue));
    (rewrite get_setStoreObj by apply pdfKeys_NoDup);
    match goal with
    | |- match get ?o key' with _ => _ end = _ =>
        rewrite (proj2 (get_None_iff o key') Hnot)
    end; reflexivity.
Qed.

Lemma growth_unchanged (a : Qc) :
  a <> zero ->
  sub (Fin a) (Fin a) = Fin zero /\ growthOf (Fin a) (Fin a) = Fin zero.
Proof.
  intros Ha.
  assert (Ez : Qc_eqb a zero = false).
  { destruct (Qc_eqb a zero) eqn:E; [|reflexivity]. apply Qc_eqb_iff in E. contradiction. }
  split.
  - cbn [sub]. f_equal. change zero with (Q2Qc 0). ring.
  - unfold growthOf. cbn [sub div]. rewrite Ez. cbn [mul]. f_equal.
    change zero with (Q2Qc 0). field. exact Ha.
Qed.

Section Unchanged.
Variable platformToString : Qc -> string.

(** X22.  A nonzero value that did not change is reported in three ways: the
    comparison object says down by "0", the keys of the report carry
    neither arrow nor sign, and the growth label shows "+0.0%" in
    green. *)
Theorem unchanged_value_is_reported_three_ways
    (store : object StoreValue) (key : string) (a : Qc) :
  a <> zero ->
  calculateComparison (VNumber (Fin a)) (VNumber (Fin a))
  = {| upOrDown := "▼"; percentage := "0"; plusOrMinus := "-"; difference := "0" |}
  /\ calculateForPdf store key (Fin a) (Fin a)
     = setStoreObj store
         [ (key ++ "UpOrDown", SText ""); (key ++ "Percentage", SText "0");
           (key ++ "PlusOrMinus", SText ""); (key ++ "Difference", SText "0") ]
  /\ calculateAndDisplayGrowth platformToString (Fin a) (Fin a)
     = {| textContent := "+0.0% vs comparison period";
          className := "text-sm mt-1 font-medium text-green-600" |}.
Proof.
  intros Ha. destruct (growth_unchanged a Ha) as [Hdiff Hgrowth].
  assert (Ez : strictEqZero (VNumber (Fin a)) = false).
  { cbn. destruct (Qc_eqb a zero) eqn:E; [|reflexivity].
    apply Qc_eqb_iff in E. contradiction. }
  split; [|split].
  - rewrite (calculateComparison_numbers _ _ Ez), Hgrowth, Hdiff. vm_compute. reflexivity.
  - unfold calculateForPdf. rewrite Ez.
    change (mul (div (sub (Fin a) (Fin a)) (Fin a)) (Fin hundred))
      with (growthOf (Fin a) (Fin a)).
    rewrite Hgrowth, Hdiff. reflexivity.
  - unfold calculateAndDisplayGrowth. rewrite Ez.
    change (mul (div (sub (Fin a) (Fin a)) (Fin a)) (Fin hundred))
      with (growthOf (Fin a) (Fin a)).
    rewrite Hgrowth. vm_compute. reflexivity.
Qed.

End Unchanged.

Ltac distinct_keys := repeat constructor; cbn [In]; intuition discriminate.

Ltac not_a_pdf_key := cbn [In append]; intuition discriminate.

Lemma summaryKeys_NoDup : NoDup summaryKeys.
Proof. unfold summaryKeys. distinct_keys. Qed.

(** X23.  With no row in the current period [updatePdfData] returns the store
    as it is, and so the entries of the report that only it writes
    survive [generateRingkasan]. *)
Theorem empty_period_keeps_report_entries
    (store : object StoreValue) (lastPeriodData : list ReportRow) :
  updatePdfData store [] lastPeriodData = store
  /\ forall key, In key reportOnlyKeys ->
       getStore (generateRingkasan store [] lastPeriodData) key = getStore store key.
Proof.
  split; [reflexivity|].
  intros key Hin. unfold generateRingkasan, getStore.
  change (updatePdfData ?s [] lastPeriodData) with s.
  unfold reportOnlyKeys, pdfDataKeys in Hin. cbn [skipn In] in Hin.
  repeat (destruct Hin as [<- | Hin];
          [rewrite !calculateForPdf_frame by not_a_pdf_key;
           rewrite get_setStoreObj by exact summaryKeys_NoDup; reflexivity|]).
  destruct Hin.
Qed.

(** ** Reading the update of [updatePdfData] *)

Lemma set_same {V : Type} (o : object V) (k : string) (v : V) :
  get o k = Some v -> set o k v = o.
Proof.
  induction o as [|[k' v'] o IH]; cbn [get set]; [discriminate|].
  destruct (String.eqb k' k); [intros [= ->]; reflexivity|].
  intros H. rewrite (IH H). reflexivity.
Qed.

Lemma podiumUpdate_get (stateUpdate : object StoreValue) (currentOmzet : Qc)
    (rows : list ReportRow) (podium top5 heroName heroPercent heroNominal key : string) :
  ~ In key [podium; top5; heroName; heroPercent; heroNominal] ->
  get (podiumUpdate stateUpdate currentOmzet rows podium top5 heroName heroPercent
                    heroNominal) key
  = get stateUpdate key.
Proof.
  intros Hnot. unfold podiumUpdate. destruct (byMenuOf rows); [reflexivity|].
  cbn [In] in Hnot.
  rewrite !get_set_other by (intros ->; tauto). reflexivity.
Qed.

Lemma podiumUpdate_NoDup (stateUpdate : object StoreValue) (currentOmzet : Qc)
    (rows : list ReportRow) (podium top5 heroName heroPercent heroNominal : string) :
  NoDup (map fst stateUpdate) ->
  NoDup (map fst (podiumUpdate stateUpdate currentOmzet rows podium top5 heroName
                               heroPercent heroNominal)).
Proof.
  intros H. unfold podiumUpdate. destruct (byMenuOf rows); [exact H|].
  do 5 apply set_NoDup. exact H.
Qed.

(** The entries that [updatePdfData] shares with [setupAnalysis], and
    the keys it leaves alone. *)
Lemma updatePdfData_get (store : object StoreValue) (d : ReportRow)
    (rest lastPeriodData : list ReportRow) :
  let currentData := map sale (d :: rest) in
  let lastData := map sale lastPeriodData in
  let currentOmzet := omzetOf currentData in
  let currentCheck := checkOf currentData in
  let currentAvgCheck := avgCheckOf currentOmzet currentCheck in
  let lastPeriodOmzet := omzetOf lastData in
  let lastPeriodCheck := checkOf lastData in
  let lastPeriodAvgCheck := avgCheckOf lastPeriodOmzet lastPeriodCheck in
  let store' := updatePdfData store (d :: rest) lastPeriodData in
  get store' "currentOmzetFormatted"
  = Some (SText (formatCurrency (VNumber (Fin currentOmzet)) "Rp" 0))
  /\ get store' "currentCheckFormatted"
     = Some (SText (formatNumber (VNumber (ofNat currentCheck)) 0))
  /\ get store' "currentAvgCheckFormatted"
     = Some (SText (formatCurrency (VNumber (Fin currentAvgCheck)) "Rp" 0))
  /\ get store' "lastPeriodOmzetComparison"
     = Some (SComparison (calculateComparison (VNumber (Fin currentOmzet))
                                              (VNumber (Fin lastPeriodOmzet))))
  /\ get store' "lastPeriodCheckComparison"
     = Some (SComparison (calculateComparison (VNumber (ofNat currentCheck))
                                              (VNumber (ofNat lastPeriodCheck))))
  /\ get store' "lastPeriodAvgCheckComparison"
     = Some (SComparison (calculateComparison (VNumber (Fin currentAvgCheck))
                                              (VNumber (Fin lastPeriodAvgCheck))))
  /\ forall key, ~ In key pdfDataKeys -> get store' key = get store key.
Proof.
  cbv zeta. unfold updatePdfData.
  set (branches := sortBy _ (branchStatsOf (d :: rest))).
  set (base := set (set (set (set (set (set empty _ _) _ _) _ _) _ _) _ _) _ _).
  set (withBranch := match branches with
                     | [] => base
                     | topOmzetBranch :: _ => _
                     end).
  assert (HbaseND : NoDup (map fst base)).
  { unfold base. repeat apply set_NoDup. constructor. }
  assert (HbranchND : NoDup (map fst withBranch)).
  { unfold withBranch. destruct branches; [exact HbaseND|].
    do 2 apply set_NoDup. exact HbaseND. }
  assert (Hbranch : forall key, ~ In key ["topOmzetOutletName"; "topOmzetPercentage"] ->
                                get withBranch key = get base key).
  { intros key Hnot. unfold withBranch. destruct branches; [reflexivity|].
    cbn [In] in Hnot. rewrite !get_set_other by (intros ->; tauto). reflexivity. }
  match goal with
  | |- context [setStoreObj store ?su] => set (stateUpdate := su)
  end.
  assert (HND : NoDup (map fst stateUpdate)).
  { unfold stateUpdate. do 2 apply podiumUpdate_NoDup. exact HbranchND. }
  assert (Hread : forall key,
             ~ In key ["topOmzetOutletName"; "topOmzetPercentage";
                       "foodPodium"; "top5RevenueFood"; "superheroName";
                       "superheroContributionPercent"; "superheroContributionNominal";
                       "drinkPodium"; "top5RevenueDrink"; "sidekickName";
                       "sidekickContributionPercent"; "sidekickContributionNominal"] ->
             get (setStoreObj store stateUpdate) key
             = match get base key with
               | Some v => Some v
               | None => get store key
               end).
  { intros key Hnot. rewrite (get_setStoreObj _ _ _ HND). unfold stateUpdate.
    cbn [In] in Hnot.
    rewrite !podiumUpdate_get by (cbn [In]; tauto).
    rewrite Hbranch by (cbn [In]; tauto). reflexivity. }
  repeat split.
  1-6: rewrite Hread by not_a_pdf_key; reflexivity.
  intros key Hnot. unfold pdfDataKeys in Hnot. cbn [In] in Hnot.
  rewrite Hread by (cbn [In]; tauto).
  unfold base. rewrite !get_set_other by (intros ->; tauto). reflexivity.
Qed.

(** X24.  A call of [setupAnalysis] that follows [generateRingkasan] on the
    same rows, as at the end of [runAnalysis], finds every one of its
    twelve entries already in place when the current period has rows. *)
Theorem setupAnalysis_after_summary_changes_nothing
    (store : object StoreValue) (currentData lastPeriodData : list ReportRow) :
  currentData <> [] ->
  let store' := generateRingkasan store currentData lastPeriodData in
  setupAnalysis store' (map sale currentData) (map sale lastPeriodData) = store'.
Proof.
  intros Hne store'. destruct currentData as [|d rest]; [contradiction|].
  assert (Hsummary : forall key v,
            ~ In key pdfDataKeys ->
            get [ ("currentOmzet", SNumber (Fin (omzetOf (map sale (d :: rest)))));
                  ("currentCheck", SNumber (ofNat (checkOf (map sale (d :: rest)))));
                  ("currentAvgCheck",
                   SNumber (Fin (avgCheckOf (omzetOf (map sale (d :: rest)))
                                            (checkOf (map sale (d :: rest))))));
                  ("lastPeriodOmzet", SNumber (Fin (omzetOf (map sale lastPeriodData))));
                  ("lastPeriodCheck", SNumber (ofNat (checkOf (map sale lastPeriodData))));
                  ("lastPeriodAvgCheck",
                   SNumber (Fin (avgCheckOf (omzetOf (map sale lastPeriodData))
                                            (checkOf (map sale lastPeriodData))))) ] key
            = Some v ->
            get store' key = Some v).
  { intros key v Hnot Hget. unfold store', generateRingkasan.
    assert (Hkey : In key ["currentOmzet"; "currentCheck"; "currentAvgCheck";
                           "lastPeriodOmzet"; "lastPeriodCheck"; "lastPeriodAvgCheck"]).
    { apply get_Some_In, (in_map fst) in Hget. exact Hget. }
    destruct (updatePdfData_get
                (setStoreObj store
                   [ ("currentOmzet", SNumber (Fin (omzetOf (map sale (d :: rest)))));
                     ("currentOmzetFormatted",
                      SText (toLocaleString (Fin (omzetOf (map sale (d :: rest)))) 2));
                     ("currentCheck", SNumber (ofNat (checkOf (map sale (d :: rest)))));
                     ("currentCheckFormatted",
                      SText (toLocaleString (ofNat (checkOf (map sale (d :: rest)))) 2));
                     ("currentAvgCheck",
                      SNumber (Fin (avgCheckOf (omzetOf (map sale (d :: rest)))
                                               (checkOf (map sale (d :: rest))))));
                     ("currentAvgCheckFormatted",
                      SText (toLocaleString
                               (Fin (avgCheckOf (omzetOf (map sale (d :: rest)))
                                                (checkOf (map sale (d :: rest))))) 2));
                     ("lastPeriodOmzet", SNumber (Fin (omzetOf (map sale lastPeriodData))));
                     ("lastPeriodOmzetFormatted",
                      SText (toLocaleString (Fin (omzetOf (map sale lastPeriodData))) 2));
                     ("lastPeriodCheck",
                      SNumber (ofNat (checkOf (map sale lastPeriodData))));
                     ("lastPeriodCheckFormatted",
                      SText (toLocaleString (ofNat (checkOf (map sale lastPeriodData))) 2));
                     ("lastPeriodAvgCheck",
                      SNumber (Fin (avgCheckOf (omzetOf (map sale lastPeriodData))
                                               (checkOf (map sale lastPeriodData)))));
                     ("lastPeriodAvgCheckFormatted",
                      SText (toLocaleString
                               (Fin (avgCheckOf (omzetOf (map sale lastPeriodData))
                                                (checkOf (map sale lastPeriodData)))) 2)) ])
                d rest lastPeriodData) as (_ & _ & _ & _ & _ & _ & Hframe).
    cbn [In] in Hkey.
    repeat (destruct Hkey as [<- | Hkey];
            [rewrite !calculateForPdf_frame by not_a_pdf_key;
             rewrite Hframe by exact Hnot;
             rewrite get_setStoreObj by exact summaryKeys_NoDup;
             exact Hget|]).
    destruct Hkey. }
  assert (Hpdf := updatePdfData_get).
  assert (Hshared :
    get store' "currentOmzetFormatted"
    = Some (SText (formatCurrency (VNumber (Fin (omzetOf (map sale (d :: rest))))) "Rp" 0))
    /\ get store' "currentCheckFormatted"
       = Some (SText (formatNumber (VNumber (ofNat (checkOf (map sale (d :: rest))))) 0))
    /\ get store' "currentAvgCheckFormatted"
       = Some (SText (formatCurrency
                        (VNumber (Fin (avgCheckOf (omzetOf (map sale (d :: rest)))
                                                  (checkOf (map sale (d :: rest))))))
                        "Rp" 0))
    /\ get store' "lastPeriodOmzetComparison"
       = Some (SComparison
                 (calculateComparison (VNumber (Fin (omzetOf (map sale (d :: rest)))))
                                      (VNumber (Fin (omzetOf (map sale lastPeriodData))))))
    /\ get store' "lastPeriodCheckComparison"
       = Some (SComparison
                 (calculateComparison (VNumber (ofNat (checkOf (map sale (d :: rest)))))
                                      (VNumber (ofNat (checkOf (map sale lastPeriodData))))))
    /\ get store' "lastPeriodAvgCheckComparison"
       = Some (SComparison
                 (calculateComparison
                    (VNumber (Fin (avgCheckOf (omzetOf (map sale (d :: rest)))
                                              (checkOf (map sale (d :: rest))))))
                    (VNumber (Fin (avgCheckOf (omzetOf (map sale lastPeriodData))
                                              (checkOf (map sale lastPeriodData)))))))).
  { unfold store', generateRingkasan.
    rewrite !calculateForPdf_frame by not_a_pdf_key.
    match goal with
    | |- context [updatePdfData ?s (d :: rest) lastPeriodData] =>
        destruct (Hpdf s d rest lastPeriodData) as (H1 & H2 & H3 & H4 & H5 & H6 & _)
    end.
    repeat split; assumption. }
  destruct Hshared as (H1 & H2 & H3 & H4 & H5 & H6).
  unfold setupAnalysis, setStore.
  rewrite (set_same store' "currentOmzet")
    by (apply Hsummary; [unfold pdfDataKeys; not_a_pdf_key | reflexivity]).
  rewrite (set_same store' "currentOmzetFormatted") by exact H1.
  rewrite (set_same store' "currentCheck")
    by (apply Hsummary; [unfold pdfDataKeys; not_a_pdf_key | reflexivity]).
  rewrite (set_same store' "currentCheckFormatted") by exact H2.
  rewrite (set_same store' "currentAvgCheck")
    by (apply Hsummary; [unfold pdfDataKeys; not_a_pdf_key | reflexivity]).
  rewrite (set_same store' "currentAvgCheckFormatted") by exact H3.
  rewrite (set_same store' "lastPeriodOmzet")
    by (apply Hsummary; [unfold pdfDataKeys; not_a_pdf_key | reflexivity]).
  rewrite (set_same store' "lastPeriodCheck")
    by (apply Hsummary; [unfold pdfDataKeys; not_a_pdf_key | reflexivity]).
  rewrite (set_same store' "lastPeriodAvgCheck")
    by (apply Hsummary; [unfold pdfDataKeys; not_a_pdf_key | reflexivity]).
  rewrite (set_same store' "lastPeriodOmzetComparison") by exact H4.
  rewrite (set_same store' "lastPeriodCheckComparison") by exact H5.
  apply set_same. exact H6.
Qed.

End SummaryFacts.

(* ================================================================== *)
(** * Weekends and busy times *)
(* ================================================================== *)

(** * Order of strings *)

Lemma ascii_compare_N (a b : ascii) :
  Ascii.compare a b = N.compare (N_of_ascii a) (N_of_ascii b).
Proof. reflexivity. Qed.

Lemma string_leb_trans (s1 s2 s3 : string) :
  String.leb s1 s2 = true -> String.leb s2 s3 = true -> String.leb s1 s3 = true.
Proof.
  unfold String.leb. revert s2 s3.
  induction s1 as [|a s1 IH]; intros [|b s2] [|c s3]; cbn [String.compare];
    try reflexivity; try discriminate.
  rewrite !ascii_compare_N.
  destruct (N.compare_spec (N_of_ascii a) (N_of_ascii b)) as [Hab|Hab|Hab];
    destruct (N.compare_spec (N_of_ascii b) (N_of_ascii c)) as [Hbc|Hbc|Hbc];
    try discriminate; intros H1 H2.
  - rewrite Hab, Hbc, N.compare_refl. apply (IH s2 s3 H1 H2).
  - rewrite Hab. rewrite (proj2 (N.compare_lt_iff _ _) Hbc). reflexivity.
  - rewrite <- Hbc. rewrite (proj2 (N.compare_lt_iff _ _) Hab). reflexivity.
  - rewrite (proj2 (N.compare_lt_iff _ _) (N.lt_trans _ _ _ Hab Hbc)). reflexivity.
Qed.

Lemma sortStrings_sorted (l : list string) :
  StronglySorted (fun a b => String.leb a b = true) (sortStrings l).
Proof. apply sortBy_sorted; [exact String.leb_total | exact string_leb_trans]. Qed.

(** * Sums of non-negative amounts *)



Module InsightFacts.
Import Store Insights.

Section WeekendFacts.
Variable getDay : Date -> nat.






End WeekendFacts.


(** ** The busiest day and hour *)

Lemma arrayIndex_digits (n : N) :
  arrayIndex (digitsOfN n) = if (n <? 4294967295)%N then Some n else None.
Proof.
  unfold arrayIndex, digitsOfN.
  rewrite NilZero.usu by apply to_uint_nonnil.
  rewrite DecimalN.Unsigned.of_to, String.eqb_refl. reflexivity.
Qed.

Lemma arrayIndex_canonical (key : string) (n : N) :
  arrayIndex key = Some n -> key = digitsOfN n.
Proof.
  unfold arrayIndex. destruct (NilZero.uint_of_string key) as [u|]; [|discriminate].
  cbv zeta. destruct (String.eqb_spec (digitsOfN (N.of_uint u)) key) as [E|_];
    [|discriminate].
  cbn [andb]. destruct (N.of_uint u <? 4294967295)%N; [|discriminate].
  intros [= <-]. symmetry. exact E.
Qed.

Lemma setAt_length (arr : list nat) (i v : nat) : List.length (setAt arr i v) = List.length arr.
Proof.
  revert i. induction arr as [|x arr IH]; intros [|i]; cbn; try reflexivity.
  rewrite IH. reflexivity.
Qed.

Lemma setAt_nth_same (arr : list nat) (i v : nat) :
  i < List.length arr -> nth i (setAt arr i v) 0 = v.
Proof.
  revert i. induction arr as [|x arr IH]; intros [|i] H; cbn in *; try lia.
  apply IH. lia.
Qed.

Lemma setAt_nth_other (arr : list nat) (i j v : nat) :
  i <> j -> nth j (setAt arr i v) 0 = nth j arr 0.
Proof.
  revert i j. induction arr as [|x arr IH]; intros [|i] [|j] H; cbn; try reflexivity;
    try contradiction.
  apply IH. congruence.
Qed.

Lemma countStep_length (billsBy : object (list string)) (counts : list nat) (key : string) :
  List.length (countStep billsBy counts key) = List.length counts.
Proof.
  unfold countStep. destruct (arrayIndex key); [|reflexivity].
  destruct (get billsBy key); [apply setAt_length | reflexivity].
Qed.

Lemma countStep_other (billsBy : object (list string)) (counts : list nat)
    (key : string) (i : nat) :
  key <> stringOfNat i -> nth i (countStep billsBy counts key) 0 = nth i counts 0.
Proof.
  intros Hne. unfold countStep. destruct (arrayIndex key) as [n|] eqn:E; [|reflexivity].
  destruct (get billsBy key); [|reflexivity].
  apply setAt_nth_other. intros <-. apply Hne.
  rewrite (arrayIndex_canonical _ _ E). unfold stringOfNat. rewrite N2Nat.id. reflexivity.
Qed.

Lemma fold_countStep (billsBy : object (list string)) (i : nat) :
  (N.of_nat i < 4294967295)%N ->
  forall (ks : list string) (counts : list nat),
    NoDup ks -> i < List.length counts ->
    List.length (fold_left (countStep billsBy) ks counts) = List.length counts
    /\ nth i (fold_left (countStep billsBy) ks counts) 0
       = if in_dec string_dec (stringOfNat i) ks
         then match get billsBy (stringOfNat i) with
              | Some bills => setSize bills
              | None => nth i counts 0
              end
         else nth i counts 0.
Proof.
  intros Hi. induction ks as [|k ks IH]; intros counts Hnd Hlen; [split; reflexivity|].
  apply NoDup_cons_iff in Hnd. destruct Hnd as [Hk Hnd].
  cbn [fold_left].
  destruct (IH (countStep billsBy counts k) Hnd) as [IHlen IHnth].
  { rewrite countStep_length. exact Hlen. }
  rewrite IHlen, countStep_length. split; [reflexivity|]. rewrite IHnth.
  destruct (string_dec k (stringOfNat i)) as [-> | Hne].
  - destruct (in_dec string_dec (stringOfNat i) ks) as [Hin|_]; [contradiction|].
    destruct (in_dec string_dec (stringOfNat i) (stringOfNat i :: ks)) as [_|Hno];
      [|exfalso; apply Hno; left; reflexivity].
    unfold countStep, stringOfNat. rewrite arrayIndex_digits.
    destruct (N.ltb_spec (N.of_nat i) 4294967295) as [_|Hge]; [|lia].
    fold (stringOfNat i). destruct (get billsBy (stringOfNat i)); [|reflexivity].
    rewrite Nat2N.id. apply setAt_nth_same, Hlen.
  - rewrite (countStep_other _ _ _ _ Hne).
    destruct (in_dec string_dec (stringOfNat i) ks) as [Hin|Hin];
      destruct (in_dec string_dec (stringOfNat i) (k :: ks)) as [Hin'|Hin'];
      try reflexivity.
    + exfalso. apply Hin'. right. exact Hin.
    + exfalso. destruct Hin' as [E|Hin']; [congruence | contradiction].
Qed.

Lemma countsOf_fold (size : nat) (billsBy : object (list string)) :
  countsOf size billsBy = fold_left (countStep billsBy) (keys billsBy) (repeat 0 size).
Proof. reflexivity. Qed.

(** The array of counts holds, for every index, the number of bills
    filed under it. *)
Lemma countsOf_nth (size : nat) (billsBy : object (list string)) (i : nat) :
  NoDup (map fst billsBy) -> (N.of_nat size <= 4294967295)%N -> i < size ->
  List.length (countsOf size billsBy) = size
  /\ nth i (countsOf size billsBy) 0
     = match get billsBy (stringOfNat i) with
       | Some bills => setSize bills
       | None => 0
       end.
Proof.
  intros Hnd Hsize Hi. rewrite countsOf_fold.
  assert (Hkeys : NoDup (keys billsBy)).
  { eapply Permutation_NoDup; [|exact Hnd]. apply Permutation_sym, keys_perm. }
  destruct (fold_countStep billsBy i ltac:(lia) (keys billsBy) (repeat 0 size) Hkeys)
    as [Hlen Hnth].
  { rewrite repeat_length. exact Hi. }
  rewrite Hlen, repeat_length. split; [reflexivity|]. rewrite Hnth.
  assert (H0 : nth i (repeat 0 size) 0 = 0).
  { apply nth_repeat_lt. exact Hi. }
  rewrite H0.
  destruct (in_dec string_dec (stringOfNat i) (keys billsBy)) as [_|Hno]; [reflexivity|].
  assert (E : get billsBy (stringOfNat i) = None).
  { apply get_None_iff. intros Hin. apply Hno.
    apply (Permutation_in _ (Permutation_sym (keys_perm billsBy))). exact Hin. }
  rewrite E. reflexivity.
Qed.

Lemma maxCount_fold (arr : list nat) (start : nat) :
  start <= fold_left Nat.max arr start
  /\ (forall x, In x arr -> x <= fold_left Nat.max arr start)
  /\ (fold_left Nat.max arr start = start \/ In (fold_left Nat.max arr start) arr).
Proof.
  revert start. induction arr as [|y arr IH]; intros start; cbn [fold_left].
  - split; [lia|]. split; [intros x []|left; reflexivity].
  - destruct (IH (Nat.max start y)) as (H1 & H2 & H3).
    split; [lia|]. split.
    + intros x [<-|Hx]; [lia | apply H2, Hx].
    + destruct H3 as [H3|H3]; [|right; right; exact H3].
      destruct (Nat.max_spec start y) as [[_ E]|[_ E]]; rewrite E in H3 |- *.
      * right. left. symmetry. exact H3.
      * left. exact H3.
Qed.

Lemma maxCount_In (arr : list nat) : arr <> [] -> In (maxCount arr) arr.
Proof.
  intros Hne. unfold maxCount. destruct (maxCount_fold arr 0) as (_ & Hge & [E|Hin]);
    [|exact Hin].
  rewrite E. destruct arr as [|x arr]; [contradiction|].
  destruct x as [|x]; [left; reflexivity|].
  assert (H : S x <= 0) by (rewrite <- E; apply Hge; left; reflexivity). lia.
Qed.

Lemma indexFrom_first (arr : list nat) (x : nat) (start : Z) :
  In x arr ->
  exists i, indexFrom arr x start = (start + Z.of_nat i)%Z
            /\ i < List.length arr /\ nth i arr 0 = x
            /\ forall j, j < i -> nth j arr 0 <> x.
Proof.
  revert start. induction arr as [|y arr IH]; intros start Hin; [destruct Hin|].
  cbn [indexFrom]. destruct (Nat.eqb_spec y x) as [-> | Hne].
  - exists 0. split; [lia|]. split; [cbn; lia|]. split; [reflexivity|]. intros j Hj. lia.
  - destruct Hin as [E|Hin]; [contradiction|].
    destruct (IH (start + 1)%Z Hin) as (i & Hi & Hlen & Hnth & Hfirst).
    exists (S i). split; [rewrite Hi; lia|]. split; [cbn; lia|]. split; [exact Hnth|].
    intros [|j] Hj; [exact Hne|]. cbn [nth]. apply Hfirst. lia.
Qed.

Section BusiestFacts.
Variable component : Date -> nat.

Lemma hourlyBillsOf_NoDup (data : list SalesDataRow) :
  NoDup (map fst (hourlyBillsOf component data)).
Proof. rewrite hourlyBillsOf_keys. apply setOfList_NoDup. Qed.

(** The counts that are compared: the distinct bills of every index. *)
Lemma countsOf_bills (size : nat) (data : list SalesDataRow) (i : nat) :
  (N.of_nat size <= 4294967295)%N -> i < size ->
  List.length (countsOf size (hourlyBillsOf component data)) = size
  /\ nth i (countsOf size (hourlyBillsOf component data)) 0
     = Spec.distinctBillsAt component data i.
Proof.
  intros Hsize Hi.
  destruct (countsOf_nth size (hourlyBillsOf component data) i
                         (hourlyBillsOf_NoDup data) Hsize Hi) as [Hlen Hnth].
  split; [exact Hlen|]. rewrite Hnth, hourlyBillsOf_get.
  destruct (existsb _ data) eqn:E.
  - unfold setSize. apply billsAt_hour.
  - apply existsb_false_filter in E. rewrite <- billsAt_hour. unfold billsAt.
    rewrite E. reflexivity.
Qed.

(** The index that [indexOf(Math.max(...counts))] finds: the first one
    with the largest number of bills. *)
Lemma busiest_index (size : nat) (data : list SalesDataRow) :
  0 < size -> (N.of_nat size <= 4294967295)%N ->
  let counts := countsOf size (hourlyBillsOf component data) in
  exists i : nat,
    indexOf counts (maxCount counts) = Z.of_nat i
    /\ i < size
    /\ (forall j, j < size ->
          Spec.distinctBillsAt component data j <= Spec.distinctBillsAt component data i)
    /\ (forall j, j < i ->
          Spec.distinctBillsAt component data j < Spec.distinctBillsAt component data i).
Proof.
  intros Hpos Hsize counts.
  assert (Hlen : List.length counts = size).
  { apply (countsOf_bills size data 0 Hsize Hpos). }
  assert (Hnth : forall j, j < size -> nth j counts 0 = Spec.distinctBillsAt component data j).
  { intros j Hj. apply (countsOf_bills size data j Hsize Hj). }
  assert (Hne : counts <> []).
  { intros E. rewrite E in Hlen. cbn in Hlen. lia. }
  destruct (indexFrom_first counts (maxCount counts) 0 (maxCount_In counts Hne))
    as (i & Hi & Hilen & Himax & Hfirst).
  exists i. rewrite Hlen in Hilen.
  split; [exact Hi|]. split; [exact Hilen|].
  assert (Hmax : forall j, j < size -> nth j counts 0 <= nth i counts 0).
  { intros j Hj. rewrite Himax. apply (maxCount_fold counts 0).
    apply nth_In. rewrite Hlen. exact Hj. }
  split.
  - intros j Hj. rewrite <- !Hnth by assumption. apply Hmax, Hj.
  - intros j Hj.
    assert (Hj' : j < size) by lia.
    specialize (Hmax j Hj'). specialize (Hfirst j Hj).
    rewrite <- !Hnth by assumption. rewrite Himax in *. lia.
Qed.

Lemma no_bills_outside (size : nat) (data : list SalesDataRow) (j : nat) :
  (forall d, In d data -> component (SalesDateIn d) < size) ->
  size <= j -> Spec.distinctBillsAt component data j = 0.
Proof.
  intros Hrange Hj. unfold Spec.distinctBillsAt.
  rewrite (QuadrantFacts.filter_none _ data); [reflexivity|].
  intros d Hd. apply Nat.eqb_neq. specialize (Hrange d Hd). unfold hourOf. lia.
Qed.

End BusiestFacts.

Lemma stringOfZ_nat (n : nat) : stringOfZ (Z.of_nat n) = stringOfNat n.
Proof.
  unfold stringOfZ, stringOfNat.
  destruct (Z.ltb_spec (Z.of_nat n) 0) as [H|_]; [lia|].
  rewrite <- nat_N_Z, N2Z.id. reflexivity.
Qed.

(** X7.  The hour of [busiestTimeRange]: the earliest hour of the day with
    the largest number of distinct bills. *)
Theorem busiest_hour_is_first_maximum
    (getHours : Date -> nat) (data : list SalesDataRow) :
  (forall d, In d data -> getHours (SalesDateIn d) < 24) ->
  exists h : nat,
    busiestHourOf getHours data = Z.of_nat h
    /\ h < 24
    /\ (forall h', List.length (billsFiledUnder getHours data h')
                   <= List.length (billsFiledUnder getHours data h))
    /\ (forall h', h' < h ->
          List.length (billsFiledUnder getHours data h')
          < List.length (billsFiledUnder getHours data h))
    /\ timeRangeOf (busiestHourOf getHours data)
       = padStart0 2 (stringOfNat h) ++ ".00 - " ++ padStart0 2 (stringOfNat (h + 2)) ++ ".00".
Proof.
  intros Hrange.
  destruct (busiest_index getHours 24 data ltac:(lia) ltac:(lia))
    as (h & Hh & Hlt & Hmax & Hfirst).
  exists h. split; [exact Hh|]. split; [exact Hlt|]. split; [|split].
  - intros h'. change (Spec.distinctBillsAt getHours data h'
                       <= Spec.distinctBillsAt getHours data h).
    destruct (Nat.lt_ge_cases h' 24) as [H|H]; [apply Hmax, H|].
    rewrite (no_bills_outside getHours 24 data h' Hrange H). lia.
  - exact Hfirst.
  - replace (busiestHourOf getHours data) with (Z.of_nat h) by (symmetry; exact Hh).
    unfold timeRangeOf.
    replace (Z.of_nat h + 2)%Z with (Z.of_nat (h + 2)) by lia.
    rewrite !stringOfZ_nat. reflexivity.
Qed.

Lemma customerSpendingUpdate_rows (getDay getHours : Date -> nat)
    (store : object StoreValue) (data : list SalesDataRow) (key : string) :
  data <> [] ->
  In key ["busiestTimeRange"; "busiestDay"] ->
  getStore (customerSpendingUpdate getDay getHours store data) key
  = get [ ("busiestTimeRange", SText (timeRangeOf (busiestHourOf getHours data)));
          ("busiestDay", busiestDayName (busiestDayIndexOf getDay data)) ] key.
Proof.
  intros Hne Hkey. unfold getStore, customerSpendingUpdate.
  destruct data as [|d data]; [contradiction|].
  unfold generateCustomerSpendingInsights.
  pose proof (values_nonempty d data) as Hv.
  destruct (values (billTotalsOf (d :: data))) as [|t ts]; [contradiction|].
  rewrite StoreFacts.get_setStoreObj
    by (cbn [map fst]; repeat constructor; cbn [In]; intuition discriminate).
  cbn [In] in Hkey. destruct Hkey as [<- | [<- | []]]; reflexivity.
Qed.

(** X8.  The day of [busiestDay]: the first day of the week, counted from
    Sunday, with the largest number of distinct bills; Friday, Saturday
    and Sunday are all shown as "Weekend". *)
Theorem busiest_day_names_weekend
    (getDay getHours : Date -> nat) (store : object StoreValue)
    (data : list SalesDataRow) :
  data <> [] ->
  (forall d, In d data -> getDay (SalesDateIn d) < 7) ->
  exists i : nat,
    busiestDayIndexOf getDay data = Z.of_nat i
    /\ i < 7
    /\ (forall j, List.length (billsFiledUnder getDay data j)
                  <= List.length (billsFiledUnder getDay data i))
    /\ (forall j, j < i ->
          List.length (billsFiledUnder getDay data j)
          < List.length (billsFiledUnder getDay data i))
    /\ getStore (customerSpendingUpdate getDay getHours store data) "busiestDay"
       = Some (SText (if (i =? 0)%nat || (i =? 5)%nat || (i =? 6)%nat then "Weekend"
                      else nth i daysOfWeek ""))
    /\ forall day, In day ["Minggu"; "Jumat"; "Sabtu"] ->
         getStore (customerSpendingUpdate getDay getHours store data) "busiestDay"
         <> Some (SText day).
Proof.
  intros Hne Hrange.
  destruct (busiest_index getDay 7 data ltac:(lia) ltac:(lia))
    as (i & Hi & Hlt & Hmax & Hfirst).
  exists i. split; [exact Hi|]. split; [exact Hlt|].
  assert (Hstore : getStore (customerSpendingUpdate getDay getHours store data) "busiestDay"
                   = Some (SText (if (i =? 0)%nat || (i =? 5)%nat || (i =? 6)%nat
                                  then "Weekend" else nth i daysOfWeek ""))).
  { rewrite (customerSpendingUpdate_rows getDay getHours store data "busiestDay" Hne)
      by (right; left; reflexivity).
    replace (busiestDayIndexOf getDay data) with (Z.of_nat i) by (symmetry; exact Hi).
    cbn [get String.eqb Ascii.eqb Bool.eqb].
    do 7 (destruct i as [|i]; [reflexivity|]). lia. }
  split; [|split; [exact Hfirst|split; [exact Hstore|]]].
  - intros j. change (Spec.distinctBillsAt getDay data j <= Spec.distinctBillsAt getDay data i).
    destruct (Nat.lt_ge_cases j 7) as [H|H]; [apply Hmax, H|].
    rewrite (no_bills_outside getDay 7 data j Hrange H). lia.
  - intros day Hday. rewrite Hstore. cbn [In] in Hday.
    do 7 (destruct i as [|i];
          [destruct Hday as [<- | [<- | [<- | []]]]; discriminate|]).
    lia.
Qed.

End InsightFacts.

(* ================================================================== *)
(** * Daily checks *)
(* ================================================================== *)

Module ChartFacts.
Import Store Insights.

Section TcApcFacts.
Variable isoDateOf : SalesDataRow -> string.









End TcApcFacts.

End ChartFacts.

(* ================================================================== *)
(** * Customers: thresholds and rankings *)
(* ================================================================== *)

(** * The leading entries of a sorted array *)

Lemma sorted_app_inv {A : Type} (R : A -> A -> Prop) (l1 l2 : list A) :
  StronglySorted R (l1 ++ l2) ->
  StronglySorted R l1 /\ StronglySorted R l2
  /\ forall x y, In x l1 -> In y l2 -> R x y.
Proof.
  induction l1 as [|a l1 IH]; cbn [app]; intros H.
  - split; [constructor|]. split; [exact H|]. intros x y [].
  - inversion H as [|? ? Hs Hall]; subst. destruct (IH Hs) as (H1 & H2 & H12).
    rewrite Forall_app in Hall. destruct Hall as [Hall1 Hall2].
    split; [constructor; assumption|]. split; [exact H2|].
    intros x y [<-|Hx] Hy.
    + rewrite Forall_forall in Hall2. apply Hall2, Hy.
    + apply H12; assumption.
Qed.

Section TopFacts.
Context {A : Type}.
Variable le : A -> A -> bool.
Hypothesis le_total : forall a b, le a b = true \/ le b a = true.
Hypothesis le_trans : forall a b c, le a b = true -> le b c = true -> le a c = true.

(** [arr.sort(compare).slice(0, k)] holds [k] entries, or all of them,
    that come before every other one. *)
Lemma slice0_sortBy_top (k : nat) (l : list A) :
  let top := slice0 k (sortBy le l) in
  let rest := skipn k (sortBy le l) in
  Permutation (top ++ rest) l
  /\ List.length top = Nat.min k (List.length l)
  /\ StronglySorted (fun a b => le a b = true) top
  /\ forall x y, In x top -> In y rest -> le x y = true.
Proof.
  intros top rest. unfold top, rest, slice0.
  rewrite firstn_skipn. split; [apply sortBy_perm|].
  split; [rewrite length_firstn, sortBy_length; reflexivity|].
  pose proof (sortBy_sorted le le_total le_trans l) as Hs.
  rewrite <- (firstn_skipn k (sortBy le l)) in Hs.
  destruct (sorted_app_inv _ _ _ Hs) as (H1 & _ & H12).
  split; [exact H1 | exact H12].
Qed.

End TopFacts.

Module CustomerMore.
Import Customers Spec CustomerFacts Store Insights.




(** ** The update of the store *)

Lemma get_app {V : Type} (o1 o2 : object V) (key : string) :
  get (o1 ++ o2)%list key
  = match get o1 key with
    | Some v => Some v
    | None => get o2 key
    end.
Proof.
  induction o1 as [|[k v] o1 IH]; [reflexivity|].
  cbn [app get]. destruct (String.eqb k key); [reflexivity | exact IH].
Qed.

Lemma memberKey_inj (i j : nat) :
  "newestMember" ++ stringOfNat i = "newestMember" ++ stringOfNat j -> i = j.
Proof. intros H. apply SummaryFacts.append_inj_l in H. apply stringOfNat_inj, H. Qed.

Lemma newestMemberUpdateOf_get_from (members : list Profile) (start i : nat) :
  get (map (fun entry => ("newestMember" ++ stringOfNat (fst entry),
                          SText (name (snd entry))))
           (combine (seq start (List.length members)) members))
      ("newestMember" ++ stringOfNat (start + i))
  = option_map (fun p => SText (name p)) (nth_error members i).
Proof.
  revert start i. induction members as [|m members IH]; intros start i.
  - destruct i; reflexivity.
  - cbn [List.length seq combine map fst snd get].
    destruct (String.eqb_spec ("newestMember" ++ stringOfNat start)
                              ("newestMember" ++ stringOfNat (start + i))) as [E|Hne].
    + apply memberKey_inj in E. assert (i = 0) as -> by lia. reflexivity.
    + destruct i as [|i]; [exfalso; apply Hne; rewrite Nat.add_0_r; reflexivity|].
      replace (start + S i) with (S start + i) by lia. apply IH.
Qed.

Lemma newestMemberUpdateOf_get (members : list Profile) (i : nat) :
  get (newestMemberUpdateOf members) ("newestMember" ++ stringOfNat (S i))
  = option_map (fun p => SText (name p)) (nth_error members i).
Proof. apply (newestMemberUpdateOf_get_from members 1 i). Qed.

Lemma newestMemberUpdateOf_keys_from (members : list Profile) (start : nat) :
  map fst (map (fun entry => ("newestMember" ++ stringOfNat (fst entry),
                              SText (name (snd entry))))
               (combine (seq start (List.length members)) members))
  = map (fun i => "newestMember" ++ stringOfNat i) (seq start (List.length members)).
Proof.
  revert start. induction members as [|m members IH]; intros start; [reflexivity|].
  cbn [List.length seq combine map fst snd]. rewrite IH. reflexivity.
Qed.

Lemma newestMemberUpdateOf_keys (members : list Profile) :
  map fst (newestMemberUpdateOf members)
  = map (fun i => "newestMember" ++ stringOfNat i) (seq 1 (List.length members)).
Proof. apply newestMemberUpdateOf_keys_from. Qed.

Lemma NoDup_map_injective {A B : Type} (f : A -> B) (l : list A) :
  (forall x y, f x = f y -> x = y) -> NoDup l -> NoDup (map f l).
Proof.
  intros Hinj Hnd. induction Hnd as [|x l Hx Hnd IH]; cbn [map]; constructor; [|exact IH].
  intros Hin. apply in_map_iff in Hin. destruct Hin as (y & E & Hy).
  apply Hinj in E. subst y. contradiction.
Qed.

Lemma memberKey_fresh (i : nat) : ~ In ("newestMember" ++ stringOfNat i) analysisKeys.
Proof. unfold analysisKeys. cbn [In append]. intuition discriminate. Qed.

Lemma customerUpdate_NoDup (members : list Profile) :
  NoDup (analysisKeys ++ map fst (newestMemberUpdateOf members)).
Proof.
  apply NoDup_app.
  - unfold analysisKeys. repeat constructor; cbn [In]; intuition discriminate.
  - rewrite newestMemberUpdateOf_keys. apply NoDup_map_injective; [|apply seq_NoDup].
    intros i j. apply memberKey_inj.
  - intros key Hkey Hin. rewrite newestMemberUpdateOf_keys in Hin.
    apply in_map_iff in Hin. destruct Hin as (i & <- & _).
    exact (memberKey_fresh i Hkey).
Qed.

Lemma customerAnalysisUpdate_rows (store : object StoreValue)
    (currentData allData : list SalesDataRow) (periodStart periodEnd : Date) :
  filter hasCustomerName allData <> [] ->
  exists s : Segments,
    generateCustomerAnalysisInsights currentData allData periodStart periodEnd = Some s
    /\ forall key,
         getStore (customerAnalysisUpdate store currentData allData periodStart periodEnd) key
         = match
             get ([ ("topCustomerNames",
                     SText (String.concat ", "
                              (map name
                                   (topCustomersOf
                                      (customerProfilesOf (filter hasCustomerName allData))))));
                    ("newCustomerCount", countText (List.length (newCustomers s)));
                    ("newCustomerAvgSpend", averageText (newCustomers s));
                    ("highSpenderCount", countText (List.length (highSpenders s)));
                    ("highSpenderAvgSpend", averageText (highSpenders s));
                    ("loyalCustomerCount", countText (List.length (loyalCustomers s)));
                    ("loyalCustomerAvgSpend", averageText (loyalCustomers s)) ]
                  ++ newestMemberUpdateOf
                       (newestMembersOf
                          (customerProfilesOf (filter hasCustomerName allData))))%list key
           with
           | Some v => Some v
           | None => getStore store key
           end.
Proof.
  intros Hne. unfold customerAnalysisUpdate.
  destruct (generateCustomerAnalysisInsights currentData allData periodStart periodEnd)
    as [s|] eqn:E.
  - exists s. split; [reflexivity|]. intros key. unfold getStore.
    apply StoreFacts.get_setStoreObj. rewrite map_app. apply customerUpdate_NoDup.
  - exfalso. unfold generateCustomerAnalysisInsights in E.
    destruct (filter hasCustomerName allData); [contradiction | discriminate E].
Qed.

Lemma Z_geb_total (a b : Z) : (b <=? a)%Z = true \/ (a <=? b)%Z = true.
Proof. rewrite !Z.leb_le. lia. Qed.

(** X14.  The customers named under [topCustomerNames] are three profiles of
    the whole history, or all of them, in descending order of their
    total spend, and no other profile has spent more than one of them;
    whether a customer bought anything in the current period plays no
    part. *)
Theorem top_customers_lead_by_total_spend
    (store : object StoreValue) (currentData allData : list SalesDataRow)
    (periodStart periodEnd : Date) :
  filter hasCustomerName allData <> [] ->
  let profiles := values (customerProfilesOf (filter hasCustomerName allData)) in
  exists top rest : list Profile,
    getStore (customerAnalysisUpdate store currentData allData periodStart periodEnd)
             "topCustomerNames"
    = Some (SText (String.concat ", " (map name top)))
    /\ Permutation (top ++ rest) profiles
    /\ List.length top = Nat.min 3 (List.length profiles)
    /\ StronglySorted (fun a b => (totalSpend b <= totalSpend a)%Qc) top
    /\ (forall p q, In p top -> In q rest -> (totalSpend q <= totalSpend p)%Qc)
    /\ (forall p, In p profiles
                  <-> name p <> "" /\ profileOf (name p) allData = Some p).
Proof.
  intros Hne profiles.
  destruct (customerAnalysisUpdate_rows store currentData allData periodStart periodEnd Hne)
    as (s & _ & Hget).
  set (byTotalSpend := fun a b : Profile => Qc_leb (totalSpend b) (totalSpend a)).
  destruct (slice0_sortBy_top byTotalSpend
              (fun a b => Qc_leb_total (totalSpend b) (totalSpend a))
              (fun a b c Hab Hbc => Qc_leb_trans _ _ _ Hbc Hab)
              3 profiles) as (Hperm & Hlen & Hsorted & Htop).
  exists (topCustomersOf (customerProfilesOf (filter hasCustomerName allData))),
         (skipn 3 (sortBy byTotalSpend profiles)).
  split; [rewrite Hget; reflexivity|].
  split; [exact Hperm|]. split; [exact Hlen|]. split.
  { eapply StronglySorted_impl; [|exact Hsorted].
    intros a b H. apply Qc_leb_iff. exact H. }
  split.
  { intros p q Hp Hq. apply Qc_leb_iff. exact (Htop p q Hp Hq). }
  intros p. unfold profiles.
  rewrite (values_In _ _ (customerProfilesOf_NoDup _)). split.
  - intros (k & Hk). rewrite customerProfilesOf_get in Hk.
    assert (Hname : name p = k) by apply (profileOf_name _ _ _ Hk). subst k.
    assert (Hnb : name p <> "").
    { intros E. unfold profileOf in Hk. rewrite E, rowsOf_blank in Hk. discriminate. }
    split; [exact Hnb|]. unfold profileOf in *. rewrite <- (rowsOf_named _ _ Hnb). exact Hk.
  - intros [Hnb Hp]. exists (name p). rewrite customerProfilesOf_get.
    unfold profileOf in *. rewrite (rowsOf_named _ _ Hnb). exact Hp.
Qed.

(** X15.  The keys [newestMember1], [newestMember2], ... name the profiles of
    the whole history in descending order of their first visit, ten of
    them at most; a key beyond their number is not written, so that it
    keeps what an earlier analysis stored there. *)
Theorem newest_members_by_first_visit
    (store : object StoreValue) (currentData allData : list SalesDataRow)
    (periodStart periodEnd : Date) :
  filter hasCustomerName allData <> [] ->
  let profiles := values (customerProfilesOf (filter hasCustomerName allData)) in
  exists newest rest : list Profile,
    Permutation (newest ++ rest) profiles
    /\ List.length newest = Nat.min 10 (List.length profiles)
    /\ StronglySorted (fun a b => (firstSeen b <= firstSeen a)%Z) newest
    /\ (forall p q, In p newest -> In q rest -> (firstSeen q <= firstSeen p)%Z)
    /\ (forall i p, nth_error newest i = Some p ->
          getStore (customerAnalysisUpdate store currentData allData periodStart periodEnd)
                   ("newestMember" ++ stringOfNat (S i))
          = Some (SText (name p)))
    /\ (forall i, List.length newest <= i ->
          getStore (customerAnalysisUpdate store currentData allData periodStart periodEnd)
                   ("newestMember" ++ stringOfNat (S i))
          = getStore store ("newestMember" ++ stringOfNat (S i))).
Proof.
  intros Hne profiles.
  destruct (customerAnalysisUpdate_rows store currentData allData periodStart periodEnd Hne)
    as (s & _ & Hget).
  set (byFirstSeen := fun a b : Profile => (firstSeen b <=? firstSeen a)%Z).
  destruct (slice0_sortBy_top byFirstSeen
              (fun a b => Z_geb_total (firstSeen a) (firstSeen b))
              (fun a b c Hab Hbc =>
                 proj2 (Z.leb_le _ _)
                       (Z.le_trans _ _ _ (proj1 (Z.leb_le _ _) Hbc)
                                   (proj1 (Z.leb_le _ _) Hab)))
              10 profiles) as (Hperm & Hlen & Hsorted & Htop).
  exists (newestMembersOf (customerProfilesOf (filter hasCustomerName allData))),
         (skipn 10 (sortBy byFirstSeen profiles)).
  split; [exact Hperm|]. split; [exact Hlen|]. split.
  { eapply StronglySorted_impl; [|exact Hsorted].
    intros a b H. apply Z.leb_le. exact H. }
  split.
  { intros p q Hp Hq. apply Z.leb_le. exact (Htop p q Hp Hq). }
  assert (Hkey : forall i,
            getStore (customerAnalysisUpdate store currentData allData periodStart periodEnd)
                     ("newestMember" ++ stringOfNat (S i))
            = match nth_error (newestMembersOf
                                 (customerProfilesOf (filter hasCustomerName allData))) i with
              | Some p => Some (SText (name p))
              | None => getStore store ("newestMember" ++ stringOfNat (S i))
              end).
  { intros i. rewrite Hget, get_app.
    match goal with
    | |- context [get ?o ("newestMember" ++ stringOfNat (S i))] =>
        match o with
        | (_ :: _) =>
            assert (E : get o ("newestMember" ++ stringOfNat (S i)) = None)
              by (apply get_None_iff; exact (memberKey_fresh (S i)))
        end
    end.
    rewrite E, newestMemberUpdateOf_get.
    destruct (nth_error _ i); reflexivity. }
  split.
  - intros i p Hp. rewrite Hkey, Hp. reflexivity.
  - intros i Hi. rewrite Hkey. apply nth_error_None in Hi. rewrite Hi. reflexivity.
Qed.

End CustomerMore.

(* ================================================================== *)
(** * The daily chart and the peak hours, entry by entry *)
(* ================================================================== *)

(** * The daily revenue chart, date by date *)

(** X16.  [generateOmzetHarianChart] plots every date of the rows once, in
    ascending order, with the revenue of the rows of that date. *)
Theorem daily_chart_plots_each_date
    (bucketOf : SalesDataRow -> string) (data : list SalesDataRow) :
  let chart := generateOmzetHarianChart bucketOf data in
  StronglySorted (fun a b => String.leb a b = true) (labels chart)
  /\ NoDup (labels chart)
  /\ (forall k, In k (labels chart) <-> In k (map bucketOf data))
  /\ dataset chart
     = map (fun k => Some (sumQc (map Revenue (filter (inBucket bucketOf k) data))))
           (labels chart)
  /\ forall k, get (chartDataForAI chart) k
               = if existsb (inBucket bucketOf k) data
                 then Some (sumQc (map Revenue (filter (inBucket bucketOf k) data)))
                 else None.
Proof.
  intros chart. unfold chart, generateOmzetHarianChart. cbn [labels dataset chartDataForAI].
  set (o := sumByBucket bucketOf data).
  assert (Hperm : Permutation (sortStrings (keys o)) (setOfList String.eqb (map bucketOf data))).
  { unfold sortStrings, o. rewrite <- sumByBucket_keys.
    etransitivity; [apply sortBy_perm | apply keys_perm]. }
  assert (Hin : forall k, In k (sortStrings (keys o)) <-> In k (map bucketOf data)).
  { intros k. rewrite <- (setOfList_In (map bucketOf data) k). split; apply Permutation_in;
      [exact Hperm | apply Permutation_sym, Hperm]. }
  split; [apply sortStrings_sorted|]. split.
  { eapply Permutation_NoDup; [apply Permutation_sym, Hperm | apply setOfList_NoDup]. }
  split; [exact Hin|]. split; [|intros k; apply sumByBucket_get].
  apply map_ext_in. intros k Hk. unfold o. rewrite sumByBucket_get.
  assert (E : existsb (inBucket bucketOf k) data = true).
  { apply Hin, in_map_iff in Hk. destruct Hk as (d & Hd & Hd').
    apply existsb_exists. exists d. split; [exact Hd'|].
    unfold inBucket. rewrite Hd. apply String.eqb_refl. }
  rewrite E. reflexivity.
Qed.

(** * The peak hours *)

Section PeakMore.
Variable getHours : Date -> nat.

Lemma menuQtyOf_snoc (rows : list SalesDataRow) (d : SalesDataRow) :
  menuQtyOf (rows ++ [d])
  = set (menuQtyOf rows) (Menu d) (slotOrZero (get (menuQtyOf rows) (Menu d)) + Quantity d)%Qc.
Proof. unfold menuQtyOf. rewrite fold_left_app. reflexivity. Qed.

Lemma menuQtyOf_NoDup (rows : list SalesDataRow) : NoDup (map fst (menuQtyOf rows)).
Proof.
  induction rows as [|d rows IH] using rev_ind; [constructor|].
  rewrite menuQtyOf_snoc. apply set_NoDup, IH.
Qed.

(** The quantity filed under a menu: the sum over its rows. *)
Lemma menuQtyOf_get (rows : list SalesDataRow) (menu : string) :
  get (menuQtyOf rows) menu
  = if existsb (fun d => String.eqb (Menu d) menu) rows
    then Some (sumQc (map Quantity (filter (fun d => String.eqb (Menu d) menu) rows)))
    else None.
Proof.
  induction rows as [|d rows IH] using rev_ind; [reflexivity|].
  rewrite menuQtyOf_snoc, existsb_app, filter_app, map_app, sumQc_app.
  cbn [existsb filter]. rewrite orb_false_r.
  destruct (String.eqb_spec (Menu d) menu) as [-> | Hne].
  - rewrite get_set_same, orb_true_r. f_equal. rewrite IH.
    cbn [map]. rewrite sumQc_single.
    destruct (existsb (fun d => String.eqb (Menu d) menu) rows) eqn:E.
    + rewrite slotOrZero_Some. reflexivity.
    + rewrite (existsb_false_filter _ _ E). reflexivity.
  - rewrite get_set_other by congruence. rewrite IH, orb_false_r.
    cbn [map]. rewrite sumQc_nil.
    destruct (existsb (fun d => String.eqb (Menu d) menu) rows); [|reflexivity].
    f_equal. change zero with (Q2Qc 0). ring.
Qed.

Lemma generatePeakHourAnalysis_rows (data : list SalesDataRow) :
  data <> [] ->
  generatePeakHourAnalysis getHours data
  = Some {| peakHour1Start := hourLabel (peakHourOf getHours data);
            peakHour1End := hourLabel (peakHourOf getHours data + 2);
            popularMenu1 := menuNameAt (popularMenuOf (peakHourDataOf getHours data)) 0;
            popularMenu2 := menuNameAt (popularMenuOf (peakHourDataOf getHours data)) 1;
            popularMenu3 := menuNameAt (popularMenuOf (peakHourDataOf getHours data)) 2;
            popularMenu4 := menuNameAt (popularMenuOf (peakHourDataOf getHours data)) 3;
            avgCheckPeak1Min :=
              formatNumber
                (VNumber
                   (Fin (quantileOrZero
                           (sortBy Qc_leb
                              (values (sumByBucket BillNumber (peakHourDataOf getHours data))))
                           quarter))) 0;
            avgCheckPeak1Max :=
              formatNumber
                (VNumber
                   (Fin (quantileOrZero
                           (sortBy Qc_leb
                              (values (sumByBucket BillNumber (peakHourDataOf getHours data))))
                           threeQuarters))) 0 |}.
Proof. destruct data; [contradiction | reflexivity]. Qed.

(** X10.  The window of the peak starts at a busiest hour of the rows, with
    12 in the place of the hour after midnight, and ends two hours
    later, past 24 if need be. *)
Theorem peak_window_starts_at_a_busiest_hour (data : list SalesDataRow) :
  data <> [] ->
  exists (h : nat) (insights : PeakHourInsights),
    generatePeakHourAnalysis getHours data = Some insights
    /\ In h (map (hourOf getHours) data)
    /\ (forall h', List.length (Insights.billsFiledUnder getHours data h')
                   <= List.length (Insights.billsFiledUnder getHours data h))
    /\ peakHour1Start insights = hourLabel (match h with O => 12 | S _ => h end)
    /\ peakHour1End insights = hourLabel (match h with O => 12 | S _ => h end + 2).
Proof.
  intros Hne. destruct (peakHourOf_argmax getHours data Hne) as (h & Hh & Hmax & Hpeak).
  exists h. eexists. split; [apply generatePeakHourAnalysis_rows, Hne|].
  cbn [peakHour1Start peakHour1End].
  rewrite Hpeak. split; [exact Hh|]. split; [|split; reflexivity].
  intros h'. change (Spec.distinctBillsAt getHours data h'
                     <= Spec.distinctBillsAt getHours data h).
  destruct (in_dec Nat.eq_dec h' (map (hourOf getHours) data)) as [Hin|Hout];
    [apply Hmax, Hin|].
  assert (E : Spec.distinctBillsAt getHours data h' = 0).
  { unfold Spec.distinctBillsAt. rewrite (QuadrantFacts.filter_none _ data);
      [reflexivity|].
    intros r Hr. apply Nat.eqb_neq. intros E. apply Hout. rewrite <- E.
    apply in_map, Hr. }
  rewrite E. lia.
Qed.

(** X11.  The menus and the range of checks of the peak: the popular menus
    are four menus of the rows of the window, or all of them, in
    descending order of the quantity sold in the window, and no other
    menu sold more than one of them; the lower end of the range of
    checks does not exceed its upper end. *)
Theorem peak_menus_lead_by_quantity (data : list SalesDataRow) :
  data <> [] ->
  let rows := peakHourDataOf getHours data in
  let sold := fun menu =>
    sumQc (map Quantity (filter (fun d => String.eqb (Menu d) menu) rows)) in
  exists (insights : PeakHourInsights) (popular others : list string) (minCheck maxCheck : Qc),
    generatePeakHourAnalysis getHours data = Some insights
    /\ [popularMenu1 insights; popularMenu2 insights; popularMenu3 insights;
        popularMenu4 insights]
       = map (fun i => nth i popular "") [0; 1; 2; 3]
    /\ NoDup (popular ++ others)
    /\ (forall menu, In menu (popular ++ others) <-> In menu (map Menu rows))
    /\ List.length popular = Nat.min 4 (List.length (popular ++ others))
    /\ StronglySorted (fun a b => (sold b <= sold a)%Qc) popular
    /\ (forall a b, In a popular -> In b others -> (sold b <= sold a)%Qc)
    /\ avgCheckPeak1Min insights = formatNumber (VNumber (Fin minCheck)) 0
    /\ avgCheckPeak1Max insights = formatNumber (VNumber (Fin maxCheck)) 0
    /\ (minCheck <= maxCheck)%Qc.
Proof.
  intros Hne rows sold.
  set (byQty := fun a b : string * Qc => Qc_leb (snd b) (snd a)).
  set (qty := entries (menuQtyOf rows)).
  destruct (slice0_sortBy_top byQty
              (fun a b => Qc_leb_total (snd b) (snd a))
              (fun a b c Hab Hbc => Qc_leb_trans _ _ _ Hbc Hab)
              4 qty) as (Hperm & Hlen & Hsorted & Htop).
  set (top := slice0 4 (sortBy byQty qty)) in *.
  set (rest := skipn 4 (sortBy byQty qty)) in *.
  set (peakBillTotals := sortBy Qc_leb (values (sumByBucket BillNumber rows))).
  exists {| peakHour1Start := hourLabel (peakHourOf getHours data);
            peakHour1End := hourLabel (peakHourOf getHours data + 2);
            popularMenu1 := menuNameAt top 0;
            popularMenu2 := menuNameAt top 1;
            popularMenu3 := menuNameAt top 2;
            popularMenu4 := menuNameAt top 3;
            avgCheckPeak1Min :=
              formatNumber (VNumber (Fin (quantileOrZero peakBillTotals quarter))) 0;
            avgCheckPeak1Max :=
              formatNumber (VNumber (Fin (quantileOrZero peakBillTotals threeQuarters))) 0 |},
         (map fst top), (map fst rest),
         (quantileOrZero peakBillTotals quarter),
         (quantileOrZero peakBillTotals threeQuarters).
  assert (Hentries : Permutation (top ++ rest) (menuQtyOf rows)).
  { etransitivity; [exact Hperm | apply entries_perm]. }
  assert (Hsold : forall e, In e (top ++ rest) -> snd e = sold (fst e)).
  { intros [menu q] He. apply (Permutation_in _ Hentries) in He.
    apply (In_get_Some _ _ _ (menuQtyOf_NoDup rows)) in He.
    rewrite menuQtyOf_get in He. cbn [fst snd]. unfold sold.
    destruct (existsb _ rows); congruence. }
  split; [apply generatePeakHourAnalysis_rows, Hne|].
  split.
  { cbn [popularMenu1 popularMenu2 popularMenu3 popularMenu4 map]. unfold menuNameAt.
    assert (Hname : forall i,
              match nth_error top i with Some (menu, _) => menu | None => "" end
              = nth i (map fst top) "").
    { intros i. revert i. generalize top. clear. induction top as [|[m q] top IH];
        intros [|i]; cbn; try reflexivity. apply IH. }
    rewrite !Hname. reflexivity. }
  rewrite <- map_app.
  split.
  { eapply Permutation_NoDup; [|apply (menuQtyOf_NoDup rows)].
    apply Permutation_sym, Permutation_map, Hentries. }
  split.
  { intros menu. split.
    - intros Hin. apply (Permutation_in _ (Permutation_map fst Hentries)) in Hin.
      destruct (get (menuQtyOf rows) menu) as [q|] eqn:E.
      + rewrite menuQtyOf_get in E.
        destruct (existsb (fun d => String.eqb (Menu d) menu) rows) eqn:Ex; [|discriminate].
        apply existsb_exists in Ex. destruct Ex as (d & Hd & Hm).
        apply String.eqb_eq in Hm. subst menu. apply in_map, Hd.
      + apply get_None_iff in E. contradiction.
    - intros Hin. apply (Permutation_in _ (Permutation_sym (Permutation_map fst Hentries))).
      destruct (get (menuQtyOf rows) menu) as [q|] eqn:E.
      + apply get_Some_In in E. apply (in_map fst) in E. exact E.
      + rewrite menuQtyOf_get in E.
        assert (Ex : existsb (fun d => String.eqb (Menu d) menu) rows = true).
        { apply in_map_iff in Hin. destruct Hin as (d & Hd & Hin).
          apply existsb_exists. exists d. split; [exact Hin|].
          rewrite Hd. apply String.eqb_refl. }
        rewrite Ex in E. discriminate. }
  split.
  { rewrite !length_map, Hlen. f_equal. symmetry. apply Permutation_length, Hperm. }
  split.
  { assert (Hs : StronglySorted (fun a b => (snd b <= snd a)%Qc) top).
    { eapply StronglySorted_impl; [|exact Hsorted]. intros a b H. apply Qc_leb_iff, H. }
    assert (Hall : forall e, In e top -> snd e = sold (fst e)).
    { intros e He. apply Hsold, in_or_app. left. exact He. }
    clear - Hs Hall. induction Hs as [|e l Hs IH Hfor]; cbn [map]; [constructor|].
    constructor.
    - apply IH. intros e' He'. apply Hall. right. exact He'.
    - rewrite Forall_map. rewrite Forall_forall in *. intros e' He'.
      rewrite <- (Hall e (or_introl eq_refl)), <- (Hall e' (or_intror He')).
      apply Hfor, He'. }
  split.
  { intros a b Ha Hb. apply in_map_iff in Ha. destruct Ha as (ea & <- & Ha).
    apply in_map_iff in Hb. destruct Hb as (eb & <- & Hb).
    rewrite <- (Hsold ea) by (apply in_or_app; left; exact Ha).
    rewrite <- (Hsold eb) by (apply in_or_app; right; exact Hb).
    apply Qc_leb_iff. exact (Htop ea eb Ha Hb). }
  split; [reflexivity|]. split; [reflexivity|].
  destruct quarter_bounds as (H0 & Hqq & H1 & _).
  apply quantileOrZero_mono; try assumption.
  apply (sortBy_sorted Qc_leb Qc_leb_total Qc_leb_trans).
Qed.

End PeakMore.

(* ================================================================== *)
(** * The fields of a processed row *)
(* ================================================================== *)

Section EntryFacts.
Variable newDate : value -> option Z.
Variable parseInt10 : value -> number.
Variable parseFloat : value -> number.

Lemma buildEntry_keys (rawEntry : object value) :
  map fst (buildEntry newDate parseInt10 parseFloat rawEntry)
  = (allColumns ++ ["Quantity"; "Revenue"; "Item Group"; "Item Name"])%list.
Proof. vm_compute. reflexivity. Qed.

Lemma buildEntry_copies (rawEntry : object value) (col : string) :
  In col allColumns -> col <> "Sales Date In" ->
  cell (buildEntry newDate parseInt10 parseFloat rawEntry) col = cell rawEntry col.
Proof.
  intros Hin Hne. unfold allColumns in Hin. cbn [In] in Hin.
  repeat (destruct Hin as [<- | Hin];
          [first [ exfalso; apply Hne; reflexivity | vm_compute; reflexivity ]|]).
  destruct Hin.
Qed.

Lemma buildEntry_aliases (rawEntry : object value) :
  cell (buildEntry newDate parseInt10 parseFloat rawEntry) "Item Group"
  = cell rawEntry "Menu Category"
  /\ cell (buildEntry newDate parseInt10 parseFloat rawEntry) "Item Name"
     = cell rawEntry "Menu".
Proof. split; vm_compute; reflexivity. Qed.

(** X29.  The rows that [processData] returns hold the twenty-two known
    columns and the four derived fields, in this order, whatever the
    columns of the upload: a column that the upload lacks is there with
    an undefined value, a further column of the upload is dropped.  All
    columns but the date are copied as they are. *)
Theorem processed_entries_have_known_fields
    (jsonData out : list (object value)) :
  processData newDate parseInt10 parseFloat jsonData = inr out ->
  forall entry, In entry out ->
    keys entry = (allColumns ++ ["Quantity"; "Revenue"; "Item Group"; "Item Name"])%list
    /\ exists rawEntry,
         In rawEntry jsonData /\ isValidRow rawEntry = true
         /\ (forall col, In col allColumns -> col <> "Sales Date In" ->
               cell entry col = cell rawEntry col)
         /\ cell entry "Item Group" = cell rawEntry "Menu Category"
         /\ cell entry "Item Name" = cell rawEntry "Menu"
         /\ exists time, cell entry "Sales Date In" = VDate (Some time)
                         /\ newDate (cell rawEntry "Sales Date In") = Some time.
Proof.
  intros Hout entry Hin.
  pose proof (processData_inr newDate parseInt10 parseFloat _ _ Hout) as E.
  assert (Hdates : forall row, In row (filter isValidRow jsonData) ->
                               dateOf newDate row <> None).
  { unfold processData in Hout.
    destruct (filter isValidRow jsonData) as [|firstRow rest] eqn:Ev; [discriminate|].
    destruct (firstMissing firstRow requiredColumns); [discriminate|].
    apply (mapEntries_inr newDate parseInt10 parseFloat _ _ Hout). }
  subst out. apply in_map_iff in Hin. destruct Hin as (rawEntry & <- & Hraw).
  split.
  - unfold keys.
    assert (Hnamed : entries (buildEntry newDate parseInt10 parseFloat rawEntry)
                     = buildEntry newDate parseInt10 parseFloat rawEntry).
    { vm_compute. reflexivity. }
    rewrite Hnamed. apply buildEntry_keys.
  - exists rawEntry. specialize (Hdates rawEntry Hraw).
    apply filter_In in Hraw. destruct Hraw as [Hraw Hvalid].
    split; [exact Hraw|]. split; [exact Hvalid|].
    split; [intros col; apply buildEntry_copies|].
    destruct (buildEntry_aliases rawEntry) as [Hg Hn].
    split; [exact Hg|]. split; [exact Hn|].
    rewrite buildEntry_date. unfold dateOf in *.
    destruct (newDate (cell rawEntry "Sales Date In")) as [time|]; [|contradiction].
    exists time. split; reflexivity.
Qed.

End EntryFacts.
(* ================================================================== *)
(** * Further witnesses on the sample data *)
(* ================================================================== *)

Lemma unfinished_click_keeps_cache_witness :
  (forall finalData,
     fst (Cache.viewCompiled remoteDown (Some "uid-1") worldThree) <> Cache.Analysed finalData)
  /\ Cache.cache (snd (Cache.viewCompiled remoteDown (Some "uid-1") worldThree))
     = Some cachedThree.
Proof.
  assert (H : forall finalData,
             fst (Cache.viewCompiled remoteDown (Some "uid-1") worldThree)
             <> Cache.Analysed finalData)
    by (intros finalData; vm_compute; discriminate).
  split; [exact H|].
  exact (CacheMore.unfinished_click_keeps_cache remoteDown (Some "uid-1") worldThree H).
Defined.

Lemma second_click_is_served_from_cache_witness :
  Cache.viewCompiled remoteFour (Some "uid-1") worldThree
  = (Cache.Analysed (fourBills ++ [newBill]),
     snd (Cache.viewCompiled remoteFour (Some "uid-1") worldThree))
  /\ fst (Cache.viewCompiled remoteFour (Some "uid-1")
            (snd (Cache.viewCompiled remoteFour (Some "uid-1") worldThree)))
     = Cache.Analysed (fourBills ++ [newBill]).
Proof.
  assert (H : Cache.viewCompiled remoteFour (Some "uid-1") worldThree
              = (Cache.Analysed (fourBills ++ [newBill]),
                 snd (Cache.viewCompiled remoteFour (Some "uid-1") worldThree)))
    by (vm_compute; reflexivity).
  split; [exact H|].
  destruct (CacheMore.second_click_is_served_from_cache
              remoteFour "uid-1" "uid-1" worldThree _ _ H) as [_ E].
  rewrite E. reflexivity.
Defined.

Lemma stale_cache_fetches_only_newer_witness :
  (Cache.uploadCount cachedThree < 4)%N
  /\ fst (Cache.viewCompiled remoteFour (Some "uid-1") worldThree)
     = Cache.Analysed (fourBills ++ [newBill])
  /\ Cache.requests (snd (Cache.viewCompiled remoteFour (Some "uid-1") worldThree))
     = [Cache.CountUploads; Cache.QueryNewer (13 * hourMs)%Z].
Proof.
  assert (Hlt : (Cache.uploadCount cachedThree < 4)%N) by reflexivity.
  assert (Hnew : Cache.billsNewerThan remoteFour (13 * hourMs)%Z = Some [newBill])
    by reflexivity.
  split; [exact Hlt|].
  rewrite (CacheMore.stale_cache_fetches_only_newer
             remoteFour "uid-1" worldThree cachedThree 4%N (13 * hourMs)%Z [newBill]
             eq_refl eq_refl Hlt eq_refl Hnew).
  split; reflexivity.
Defined.

Lemma full_refresh_sends_bounded_queries_witness :
  Cache.cache worldEmpty = None
  /\ exists queries : list Cache.Request,
       Cache.requests (snd (Cache.viewCompiled remoteThree (Some "uid-1") worldEmpty))
       = ([Cache.CountUploads; Cache.CountBills] ++ queries)%list
       /\ List.length queries <= 5.
Proof.
  split; [reflexivity|].
  destruct (CacheMore.full_refresh_sends_bounded_queries
              remoteThree "uid-1" worldEmpty 3%N 5%N eq_refl eq_refl eq_refl)
    as (queries & Hrequests & _ & Hlen & _).
  exists queries. split; [exact Hrequests | exact Hlen].
Defined.

Lemma spending_range_is_ordered_witness :
  fourBills <> []
  /\ exists lower upper highest : Qc,
       generateCustomerSpendingInsights fourBills
       = Some {| avgSpendLower := formatAmount lower;
                 avgSpendUpper := formatAmount upper;
                 highestSingleTransaction := formatAmount highest |}
       /\ (lower <= upper)%Qc /\ (upper <= highest)%Qc.
Proof.
  assert (H : fourBills <> []) by discriminate.
  split; [exact H|].
  destruct (spending_range_is_ordered fourBills H)
    as (lower & upper & highest & Hsome & Hlow & Hup & _).
  exists lower, upper, highest. split; [exact Hsome|]. split; [exact Hlow | exact Hup].
Defined.

Lemma fourBills_hours : forall d, In d fourBills -> utcHours (SalesDateIn d) < 24.
Proof.
  intros d Hd. unfold fourBills in Hd. cbn [In] in Hd.
  repeat (destruct Hd as [<- | Hd]; [vm_compute; lia|]). destruct Hd.
Qed.

Lemma fourBills_days : forall d, In d fourBills -> utcDay (SalesDateIn d) < 7.
Proof.
  intros d Hd. unfold fourBills in Hd. cbn [In] in Hd.
  repeat (destruct Hd as [<- | Hd]; [vm_compute; lia|]). destruct Hd.
Qed.


Lemma busiest_hour_is_first_maximum_witness :
  (forall d, In d fourBills -> utcHours (SalesDateIn d) < 24)
  /\ exists h : nat,
       Insights.busiestHourOf utcHours fourBills = Z.of_nat h
       /\ forall h', List.length (Insights.billsFiledUnder utcHours fourBills h')
                     <= List.length (Insights.billsFiledUnder utcHours fourBills h).
Proof.
  split; [exact fourBills_hours|].
  destruct (InsightFacts.busiest_hour_is_first_maximum utcHours fourBills fourBills_hours)
    as (h & Hh & _ & Hmax & _).
  exists h. split; [exact Hh | exact Hmax].
Defined.

Lemma busiest_day_names_weekend_witness :
  fourBills <> []
  /\ (forall d, In d fourBills -> utcDay (SalesDateIn d) < 7)
  /\ forall day, In day ["Minggu"; "Jumat"; "Sabtu"] ->
       Store.getStore (Insights.customerSpendingUpdate utcDay utcHours [] fourBills)
                      "busiestDay"
       <> Some (Store.SText day).
Proof.
  assert (H : fourBills <> []) by discriminate.
  split; [exact H|]. split; [exact fourBills_days|].
  destruct (InsightFacts.busiest_day_names_weekend utcDay utcHours [] fourBills H
              fourBills_days) as (i & _ & _ & _ & _ & _ & Hnever).
  exact Hnever.
Defined.


Lemma peak_window_starts_at_a_busiest_hour_witness :
  fourBills <> []
  /\ exists (h : nat) (insights : PeakHourInsights),
       generatePeakHourAnalysis utcHours fourBills = Some insights
       /\ peakHour1Start insights = hourLabel (match h with O => 12 | S _ => h end).
Proof.
  assert (H : fourBills <> []) by discriminate.
  split; [exact H|].
  destruct (peak_window_starts_at_a_busiest_hour utcHours fourBills H)
    as (h & insights & Hsome & _ & _ & Hstart & _).
  exists h, insights. split; [exact Hsome | exact Hstart].
Defined.

Lemma peak_menus_lead_by_quantity_witness :
  fourBills <> []
  /\ exists (insights : PeakHourInsights) (minCheck maxCheck : Qc),
       generatePeakHourAnalysis utcHours fourBills = Some insights
       /\ avgCheckPeak1Min insights = formatNumber (VNumber (Fin minCheck)) 0
       /\ avgCheckPeak1Max insights = formatNumber (VNumber (Fin maxCheck)) 0
       /\ (minCheck <= maxCheck)%Qc.
Proof.
  assert (H : fourBills <> []) by discriminate.
  split; [exact H|].
  destruct (peak_menus_lead_by_quantity utcHours fourBills H)
    as (insights & popular & others & minCheck & maxCheck & Hsome & _ & _ & _ & _ & _ & _
        & Hmin & Hmax & Hle).
  exists insights, minCheck, maxCheck.
  split; [exact Hsome|]. split; [exact Hmin|]. split; [exact Hmax | exact Hle].
Defined.

Lemma segments_by_customer_witness :
  exists s : Customers.Segments,
    Customers.generateCustomerAnalysisInsights anaWindow anaHistory anaWindowStart anaWindowEnd
    = Some s
    /\ forall p : Customers.Profile,
         In p (Customers.loyalCustomers s)
         <-> Spec.activeProfile anaWindow anaHistory p
             /\ 2 < List.length (Customers.bills p).
Proof.
  destruct (Customers.generateCustomerAnalysisInsights
              anaWindow anaHistory anaWindowStart anaWindowEnd) as [s|] eqn:E.
  - exists s. split; [reflexivity|]. intros p.
    exact (proj1 (CustomerFacts.segments_by_customer
                    anaWindow anaHistory anaWindowStart anaWindowEnd s E p)).
  - exfalso. vm_compute in E. discriminate E.
Defined.


Lemma anaHistory_named : filter Customers.hasCustomerName anaHistory <> [].
Proof. vm_compute. discriminate. Qed.

Lemma top_customers_lead_by_total_spend_witness :
  filter Customers.hasCustomerName anaHistory <> []
  /\ exists top : list Customers.Profile,
       Store.getStore
         (Insights.customerAnalysisUpdate [] anaWindow anaHistory anaWindowStart anaWindowEnd)
         "topCustomerNames"
       = Some (Store.SText (String.concat ", " (map Customers.name top)))
       /\ StronglySorted
            (fun a b => (Customers.totalSpend b <= Customers.totalSpend a)%Qc) top.
Proof.
  split; [exact anaHistory_named|].
  destruct (CustomerMore.top_customers_lead_by_total_spend
              [] anaWindow anaHistory anaWindowStart anaWindowEnd anaHistory_named)
    as (top & rest & Hnames & _ & _ & Hsorted & _).
  exists top. split; [exact Hnames | exact Hsorted].
Defined.

Lemma newest_members_by_first_visit_witness :
  filter Customers.hasCustomerName anaHistory <> []
  /\ exists newest : list Customers.Profile,
       StronglySorted
         (fun a b => (Customers.firstSeen b <= Customers.firstSeen a)%Z) newest
       /\ forall i p, nth_error newest i = Some p ->
            Store.getStore
              (Insights.customerAnalysisUpdate [] anaWindow anaHistory
                                               anaWindowStart anaWindowEnd)
              ("newestMember" ++ stringOfNat (S i))
            = Some (Store.SText (Customers.name p)).
Proof.
  split; [exact anaHistory_named|].
  destruct (CustomerMore.newest_members_by_first_visit
              [] anaWindow anaHistory anaWindowStart anaWindowEnd anaHistory_named)
    as (newest & rest & _ & _ & Hsorted & _ & Hkeys & _).
  exists newest. split; [exact Hsorted | exact Hkeys].
Defined.

Lemma setStoreObj_merges_witness :
  NoDup (map fst [("busiestDay", Store.SText "Senin")])
  /\ Store.getStore
       (Store.setStoreObj [("busiestDay", Store.SText "Weekend");
                           ("upsellingTips", Store.SText "-")]
                          [("busiestDay", Store.SText "Senin")])
       "busiestDay"
     = Some (Store.SText "Senin").
Proof.
  assert (H : NoDup (map fst [("busiestDay", Store.SText "Senin")]))
    by (repeat constructor; intros []).
  split; [exact H|].
  exact (proj1 (StoreFacts.setStoreObj_merges
                  [("busiestDay", Store.SText "Weekend"); ("upsellingTips", Store.SText "-")]
                  [("busiestDay", Store.SText "Senin")] H) "busiestDay").
Defined.

Lemma unchanged_value_is_reported_three_ways_witness :
  Q2Qc (inject_Z 50) <> zero
  /\ calculateComparison (VNumber (ofZ 50)) (VNumber (ofZ 50))
     = {| upOrDown := "▼"; percentage := "0"; plusOrMinus := "-"; difference := "0" |}
  /\ Summary.calculateAndDisplayGrowth sampleToString (ofZ 50) (ofZ 50)
     = {| Summary.textContent := "+0.0% vs comparison period";
          Summary.className := "text-sm mt-1 font-medium text-green-600" |}.
Proof.
  assert (H : Q2Qc (inject_Z 50) <> zero) by (intros E; discriminate E).
  split; [exact H|].
  destruct (SummaryFacts.unchanged_value_is_reported_three_ways
              sampleToString [] "lastPeriodOmzet" (Q2Qc (inject_Z 50)) H)
    as (Hcompare & _ & Hlabel).
  split; [exact Hcompare | exact Hlabel].
Defined.

Lemma setupAnalysis_after_summary_changes_nothing_witness :
  map reportRow fourBills <> []
  /\ AnalysisSetup.setupAnalysis
       (Summary.generateRingkasan [] (map reportRow fourBills) (map reportRow midnightRush))
       (map Summary.sale (map reportRow fourBills))
       (map Summary.sale (map reportRow midnightRush))
     = Summary.generateRingkasan [] (map reportRow fourBills) (map reportRow midnightRush).
Proof.
  assert (H : map reportRow fourBills <> []) by discriminate.
  split; [exact H|].
  exact (SummaryFacts.setupAnalysis_after_summary_changes_nothing
           [] (map reportRow fourBills) (map reportRow midnightRush) H).
Defined.

Lemma tick_labels_omit_year_iff_witness :
  nth_error ["2024-01-01"] 0 = Some "2024-01-01"
  /\ shortenDateTickCallback sampleNewDate sampleFullYear sampleMonth sampleDayOfMonth
                             2024 ["2024-01-01"] 0
     = "1 Jan"
  /\ shortenDateTickCallback sampleNewDate sampleFullYear sampleMonth sampleDayOfMonth
                             2025 ["2024-01-01"] 0
     = "1 Jan 2024".
Proof.
  split; [reflexivity|].
  destruct (tick_labels_omit_year_iff sampleNewDate sampleFullYear sampleMonth
              sampleDayOfMonth 2024 ["2024-01-01"] 0 "2024-01-01" eq_refl)
    as [Hshort _].
  destruct (tick_labels_omit_year_iff sampleNewDate sampleFullYear sampleMonth
              sampleDayOfMonth 2025 ["2024-01-01"] 0 "2024-01-01" eq_refl)
    as [_ Hlong].
  split.
  - rewrite Hshort; [reflexivity|]. repeat constructor.
  - rewrite Hlong; [reflexivity|]. intros Hall. inversion Hall as [|? ? Hyear _].
    discriminate Hyear.
Defined.

Lemma processed_entries_have_known_fields_witness :
  processData sampleNewDate sampleParseInt sampleParseFloat [blankRow; headerRow; dataRow]
  = inr [buildEntry sampleNewDate sampleParseInt sampleParseFloat dataRow]
  /\ keys (buildEntry sampleNewDate sampleParseInt sampleParseFloat dataRow)
     = (allColumns ++ ["Quantity"; "Revenue"; "Item Group"; "Item Name"])%list
  /\ cell (buildEntry sampleNewDate sampleParseInt sampleParseFloat dataRow) "Waiter"
     = VUndefined.
Proof.
  assert (H : processData sampleNewDate sampleParseInt sampleParseFloat
                          [blankRow; headerRow; dataRow]
              = inr [buildEntry sampleNewDate sampleParseInt sampleParseFloat dataRow])
    by (vm_compute; reflexivity).
  split; [exact H|].
  destruct (processed_entries_have_known_fields
              sampleNewDate sampleParseInt sampleParseFloat _ _ H
              (buildEntry sampleNewDate sampleParseInt sampleParseFloat dataRow)
              (or_introl eq_refl)) as [Hkeys _].
  split; [exact Hkeys|]. vm_compute. reflexivity.
Defined.

(** Numbers and dates as the charts print them. *)
Example shortenNumber_examples :
  map (fun z => shortenNumber sampleToString (ofZ z))
      [1500000; 1999999; 999; 1000; -1500000]%Z
  = ["1,5jt"; "1,9jt"; "999"; "1rb"; "-1500000"].
Proof. vm_compute. reflexivity. Qed.

Example truncateToFixed_example :
  truncateToFixed (Fin (Q2Qc (1237 # 1000))) 2 = Fin (Q2Qc (123 # 100)).
Proof. vm_compute. reflexivity. Qed.
